(** * binance_api_manager: order sizing, bounded retry and fill tracking

    A shallow embedding of [BinanceAPIManager] (binance_api_manager.py).

    - Python exceptions are an inductive type [exn]; a call either yields
      a value or raises ([result]).  They are the exceptions deriving from
      [Exception], the ones [except Exception] catches.
    - The exchange client is a script of responses per endpoint; a call
      takes the next response of its endpoint.  When a script is used up the
      run is [Pending]: the code is still waiting on the exchange.  The
      numeric fields of a response are the floats [float(...)] reads from
      them.
    - [time.sleep], [logger.info], the requests sent to the exchange and the
      trade-log calls are recorded, in order, in a trace of events.
    - The arithmetic on Python floats is taken through an interface
      [PyFloat] with two instances: [exact] (rationals, no rounding) and
      [binary64] (IEEE 754 doubles, as CPython computes). *)

From Stdlib Require Import ZArith QArith Qround Qpower Qfield Lia List String Ascii Bool.
From Stdlib Require Import PrimFloat SpecFloat FloatOps FloatAxioms.
Import ListNotations.

Open Scope Z_scope.

(** ** Exceptions and results *)

Inductive exn : Type :=
| BinanceAPIException (detail : string)
| RequestException (detail : string)
| TypeError
| ZeroDivisionError
| OverflowError
| ValueError
| StopIteration.

Inductive result (A : Type) : Type :=
| Ok (a : A)
| Raise (e : exn).
Arguments Ok {A} a.
Arguments Raise {A} e.

Definition rbind {A B} (r : result A) (k : A -> result B) : result B :=
  match r with
  | Ok a => k a
  | Raise e => Raise e
  end.

Notation "x <~ r ;; k" := (rbind r (fun x => k))
  (at level 61, r at next level, right associativity).

(** ** Float arithmetic interface *)

(** The operations the source performs on floats.
    - [ten_pow t] is [10 ** t] as a float: the int [10 ** t] converted
      (implicitly as an operand of [*], or by [float(...)]) when [t >= 0],
      the float power when [t < 0];
    - [int_to_float] is the conversion of the int operand of [/];
    - [fdiv] raises ZeroDivisionError on a zero divisor;
    - [floor] is [math.floor];
    - [fge x y] is [x >= y]. *)
Class PyFloat : Type := {
  flt : Type;
  ten_pow : Z -> result flt;
  int_to_float : Z -> result flt;
  fmul : flt -> flt -> flt;
  fdiv : flt -> flt -> result flt;
  floor : flt -> result Z;
  fge : flt -> flt -> bool
}.

(** *** Exact arithmetic: rationals, nothing is rounded *)

Definition Qpow10 (t : Z) : Q := Qpower (10 # 1) t.

Definition Qdiv_py (x y : Q) : result Q :=
  if Qeq_bool y 0 then Raise ZeroDivisionError else Ok (x / y)%Q.

Definition exact : PyFloat := {|
  flt := Q;
  ten_pow := fun t => Ok (Qpow10 t);
  int_to_float := fun n => Ok (inject_Z n);
  fmul := Qmult;
  fdiv := Qdiv_py;
  floor := fun x => Ok (Qfloor x);
  fge := fun x y => Qle_bool y x
|}.

(** *** IEEE 754 binary64, as CPython's float *)

Module Binary64.

(** An int converted to the nearest double (ties to even);
    OverflowError when it is out of range. *)
Definition of_int (n : Z) : result float :=
  match binary_normalize prec emax n 0 false with
  | S754_infinity _ => Raise OverflowError
  | sf => Ok (SF2Prim sf)
  end.

(** [10 ** t]: an int for [t >= 0], converted like any int.  For [t < 0]
    CPython takes the C library's [pow(10.0, t)], taken here as the double
    nearest to 10^t. *)
Definition ten_pow (t : Z) : result float :=
  if 0 <=? t then of_int (10 ^ t)
  else
    match 10 ^ (- t) with
    | Z.pos d =>
        Ok (SF2Prim (SFdiv prec emax (S754_finite false 1 0)
                           (S754_finite false d 0)))
    | _ => Ok PrimFloat.one
    end.

Definition div (x y : float) : result float :=
  if PrimFloat.is_zero y then Raise ZeroDivisionError
  else Ok (PrimFloat.div x y).

(** [math.floor]: ValueError on NaN, OverflowError on an infinity. *)
Definition floor (x : float) : result Z :=
  match Prim2SF x with
  | S754_nan => Raise ValueError
  | S754_infinity _ => Raise OverflowError
  | S754_zero _ => Ok 0
  | S754_finite s m e =>
      let n := if s then Z.neg m else Z.pos m in
      Ok (if 0 <=? e then n * 2 ^ e else n / 2 ^ (- e))
  end.

Definition ge (x y : float) : bool := PrimFloat.leb y x.

End Binary64.

Definition binary64 : PyFloat := {|
  flt := float;
  ten_pow := Binary64.ten_pow;
  int_to_float := Binary64.of_int;
  fmul := PrimFloat.mul;
  fdiv := Binary64.div;
  floor := Binary64.floor;
  fge := Binary64.ge
|}.

(** ** Strings: [str.find] for a one-character needle *)

Fixpoint find_from (c : ascii) (s : string) (i : Z) : Z :=
  match s with
  | EmptyString => -1
  | String a s' => if Ascii.eqb a c then i else find_from c s' (i + 1)
  end.

Definition find (c : ascii) (s : string) : Z := find_from c s 0.

(** The value [get_alt_tick] returns for a given [stepSize] string. *)
Definition tick_of_step_size (step_size : string) : Z :=
  if find "1" step_size =? 0
  then 1 - find "." step_size
  else find "1" step_size - 1.

Definition zeros (n : nat) : string :=
  string_of_list_ascii (repeat "0"%char n).

(** ** Data exchanged with the client *)

Record Coin : Type := { symbol : string }.

(** The response of [get_order]: the keys the source reads. *)
Record order_stat : Type := {
  status : string;
  cummulativeQuoteQty : string
}.

(** The response of [order_limit_buy] and [order_market_sell]. *)
Record order : Type := { orderId : Z }.

(** An entry of ['filters'] in the response of [get_symbol_info]. *)
Record symbol_filter : Type := {
  filterType : string;
  stepSize : string
}.

(** ** Outcomes and the state monad *)

Inductive outcome (A : Type) : Type :=
| Returned (a : A)
| Raised (e : exn)
| Pending.
Arguments Returned {A} a.
Arguments Raised {A} e.
Arguments Pending {A}.

Section Bot.

Context {PF : PyFloat}.

(** An entry of ['balances'] in the response of [get_account]. *)
Record balance_entry : Type := { asset : string; free : flt }.

(** An entry of the response of [get_symbol_ticker]. *)
Record ticker_entry : Type := { ticker_symbol : string; price : flt }.

(** What [logger.info] is given: a fixed text, an exception, the text
    "Unexpected Error: ..." with an exception, or a text built from a
    value. *)
Inductive log_msg : Type :=
| Text (s : string)
| Exn (e : exn)
| Unexpected (e : exn)
| Stat (stat : order_stat)
| OrderPayload (o : option order)
| BuyQty (q : flt)
| Selling (q : flt) (alt_symbol : string)
| Balance (b : option flt).

(** The calls on [BinanceClient], with the arguments the source passes. *)
Inductive request : Type :=
| GetAccount
| GetSymbolTicker
| GetSymbolInfo (sym : string)
| OrderLimitBuy (sym : string) (quantity : flt) (limit_price : option flt)
| OrderMarketSell (sym : string) (quantity : flt)
| GetOrder (sym : string) (order_id : Z).

(** What a run does, in order: [time.sleep], [logger.info], a request to
    the exchange, the calls on the trade log; [Invoke] marks a call of a
    scripted operation ([scripted]). *)
Inductive event : Type :=
| Sleep (secs : Z)
| Log (m : log_msg)
| Request (r : request)
| Invoke
| TradeLogNew (alt crypto : Coin) (selling : bool)
| TradeLogOrdered (alt_balance crypto_balance : option flt) (quantity : flt)
| TradeLogComplete (quote_qty : string).

(** The state threaded through the code: the events so far and an
    environment [E] the operations draw their responses from. *)
Record State (E : Type) : Type := {
  trace : list event;
  env : E
}.
Arguments trace {E} _.
Arguments env {E} _.

Definition M (E A : Type) : Type := State E -> outcome A * State E.

Definition ret {E A} (a : A) : M E A := fun s => (Returned a, s).

Definition raise {E A} (e : exn) : M E A := fun s => (Raised e, s).

Definition pending {E A} : M E A := fun s => (Pending, s).

Definition bind {E A B} (m : M E A) (k : A -> M E B) : M E B :=
  fun s =>
    match m s with
    | (Returned a, s') => k a s'
    | (Raised e, s') => (Raised e, s')
    | (Pending, s') => (Pending, s')
    end.

(** [try: m  except Exception as e: handler e] *)
Definition try_catch {E A} (m : M E A) (handler : exn -> M E A) : M E A :=
  fun s =>
    match m s with
    | (Raised e, s') => handler e s'
    | r => r
    end.

Definition of_result {E A} (r : result A) : M E A :=
  match r with
  | Ok a => ret a
  | Raise e => raise e
  end.

Definition emit {E} (ev : event) : M E unit :=
  fun s => (Returned tt, {| trace := (trace s ++ [ev])%list; env := env s |}).

Definition sleep {E} (secs : Z) : M E unit := emit (Sleep secs).

Definition logger_info {E} (m : log_msg) : M E unit := emit (Log m).

End Bot.

Arguments trace {PF E} _.
Arguments env {PF E} _.
Arguments Build_State {PF E} _ _.

Notation "x <- m ;; k" := (bind m (fun x => k))
  (at level 61, m at next level, right associativity).
Notation "m ;; k" := (bind m (fun _ => k))
  (at level 61, right associativity).

Open Scope string_scope.

(** ** The bounded retry executor *)

Section Retry.

Context {PF : PyFloat} {E V : Type}.

(** The loop of [retry]: [while attempts < 20: try: return func(...)].
    [fuel] bounds the recursion; 20 is enough ([retry_loop_fuel]). *)
Fixpoint retry_loop (fuel attempts : nat) (func : M E (option V))
  : M E (option V) :=
  if (attempts <? 20)%nat then
    match fuel with
    | O => pending
    | S fuel' =>
        try_catch func
          (fun e =>
             logger_info (Text "Failed to Buy/Sell. Trying Again.") ;;
             (if (attempts =? 0)%nat then logger_info (Exn e) else ret tt) ;;
             retry_loop fuel' (attempts + 1) func)
    end
  else ret None.

Definition retry (func : M E (option V)) : M E (option V) :=
  sleep 1 ;;
  retry_loop 20 0 func.

(** An operation whose result is never None, as [retry] sees it. *)
Definition value (op : M E V) : M E (option V) :=
  v <- op ;;
  ret (Some v).

End Retry.

(** ** The exchange client *)

Section Exchange.

Context {PF : PyFloat}.

(** The responses still to come, per endpoint of [BinanceClient]. *)
Record Exchange : Type := {
  account : list (result (list balance_entry));
  symbol_tickers : list (result (list ticker_entry));
  symbol_info : list (result (option (list symbol_filter)));
  limit_buys : list (result (option order));
  market_sells : list (result (option order));
  orders : list (result order_stat)
}.

Definition B : Type -> Type := M Exchange.

(** A call to the client: the request is recorded and the next response
    of the endpoint is taken. *)
Definition client_call {R} (get : Exchange -> list (result R))
           (set : list (result R) -> Exchange -> Exchange)
           (req : request) : B R :=
  fun s =>
    match get (env s) with
    | [] => (Pending, s)
    | r :: rest =>
        of_result r {| trace := (trace s ++ [Request req])%list;
                       env := set rest (env s) |}
    end.

Definition set_account (l : list (result (list balance_entry)))
           (x : Exchange) : Exchange :=
  {| account := l; symbol_tickers := symbol_tickers x;
     symbol_info := symbol_info x; limit_buys := limit_buys x;
     market_sells := market_sells x; orders := orders x |}.

Definition set_symbol_tickers (l : list (result (list ticker_entry)))
           (x : Exchange) : Exchange :=
  {| account := account x; symbol_tickers := l;
     symbol_info := symbol_info x; limit_buys := limit_buys x;
     market_sells := market_sells x; orders := orders x |}.

Definition set_symbol_info
           (l : list (result (option (list symbol_filter))))
           (x : Exchange) : Exchange :=
  {| account := account x; symbol_tickers := symbol_tickers x;
     symbol_info := l; limit_buys := limit_buys x;
     market_sells := market_sells x; orders := orders x |}.

Definition set_limit_buys (l : list (result (option order)))
           (x : Exchange) : Exchange :=
  {| account := account x; symbol_tickers := symbol_tickers x;
     symbol_info := symbol_info x; limit_buys := l;
     market_sells := market_sells x; orders := orders x |}.

Definition set_market_sells (l : list (result (option order)))
           (x : Exchange) : Exchange :=
  {| account := account x; symbol_tickers := symbol_tickers x;
     symbol_info := symbol_info x; limit_buys := limit_buys x;
     market_sells := l; orders := orders x |}.

Definition set_orders (l : list (result order_stat))
           (x : Exchange) : Exchange :=
  {| account := account x; symbol_tickers := symbol_tickers x;
     symbol_info := symbol_info x; limit_buys := limit_buys x;
     market_sells := market_sells x; orders := l |}.

Definition get_account : B (list balance_entry) :=
  client_call account set_account GetAccount.

Definition get_symbol_ticker : B (list ticker_entry) :=
  client_call symbol_tickers set_symbol_tickers GetSymbolTicker.

Definition get_symbol_info (sym : string) : B (option (list symbol_filter)) :=
  client_call symbol_info set_symbol_info (GetSymbolInfo sym).

Definition order_limit_buy (sym : string) (quantity : flt)
           (limit_price : option flt) : B (option order) :=
  client_call limit_buys set_limit_buys
              (OrderLimitBuy sym quantity limit_price).

Definition order_market_sell (sym : string) (quantity : flt)
  : B (option order) :=
  client_call market_sells set_market_sells (OrderMarketSell sym quantity).

Definition get_order (sym : string) (order_id : Z) : B order_stat :=
  client_call orders set_orders (GetOrder sym order_id).

(** ** BinanceAPIManager *)

Fixpoint price_of (ticker_symbol' : string) (tickers : list ticker_entry)
  : option flt :=
  match tickers with
  | [] => None
  | ticker :: rest =>
      if String.eqb (ticker_symbol ticker) ticker_symbol'
      then Some (price ticker)
      else price_of ticker_symbol' rest
  end.

Definition get_market_ticker_price (ticker_symbol' : string)
  : B (option flt) :=
  tickers <- get_symbol_ticker ;;
  ret (price_of ticker_symbol' tickers).

Fixpoint balance_of (currency_symbol : string) (balances : list balance_entry)
  : option flt :=
  match balances with
  | [] => None
  | currency_balance :: rest =>
      if String.eqb (asset currency_balance) currency_symbol
      then Some (free currency_balance)
      else balance_of currency_symbol rest
  end.

Definition get_currency_balance (currency_symbol : string)
  : B (option flt) :=
  acct <- get_account ;;
  ret (balance_of currency_symbol acct).

(** [next(f for f in info['filters'] if f['filterType'] == filter_type)]:
    TypeError when the symbol info is None, StopIteration when no filter
    has the type. *)
Definition get_symbol_filter (alt_symbol crypto_symbol filter_type : string)
  : B symbol_filter :=
  info <- get_symbol_info (alt_symbol ++ crypto_symbol) ;;
  match info with
  | None => raise TypeError
  | Some filters =>
      match List.find (fun f => String.eqb (filterType f) filter_type)
                      filters with
      | Some f => ret f
      | None => raise StopIteration
      end
  end.

Definition get_alt_tick (alt_symbol crypto_symbol : string) : B Z :=
  f <- get_symbol_filter alt_symbol crypto_symbol "LOT_SIZE" ;;
  ret (tick_of_step_size (stepSize f)).

(** A value that may be None, used as an operand of [*], [/] or [>=]. *)
Definition operand (x : option flt) : result flt :=
  match x with
  | Some v => Ok v
  | None => Raise TypeError
  end.

(** [math.floor(alt_balance * 10 ** alt_tick) / float(10 ** alt_tick)] *)
Definition sell_quantity_at (alt_tick : Z) (alt_balance : option flt)
  : result flt :=
  b <~ operand alt_balance ;;
  p <~ ten_pow alt_tick ;;
  n <~ floor (fmul b p) ;;
  d <~ ten_pow alt_tick ;;
  m <~ int_to_float n ;;
  fdiv m d.

Definition sell_quantity (alt_symbol crypto_symbol : string)
           (alt_balance : option flt) : B flt :=
  alt_tick <- get_alt_tick alt_symbol crypto_symbol ;;
  of_result (sell_quantity_at alt_tick alt_balance).

(** [math.floor(crypto_balance * 10 ** alt_tick / ticker_price)
     / float(10 ** alt_tick)] *)
Definition buy_quantity_at (alt_tick : Z)
           (crypto_balance ticker_price : option flt) : result flt :=
  b <~ operand crypto_balance ;;
  p <~ ten_pow alt_tick ;;
  tp <~ operand ticker_price ;;
  r <~ fdiv (fmul b p) tp ;;
  n <~ floor r ;;
  d <~ ten_pow alt_tick ;;
  m <~ int_to_float n ;;
  fdiv m d.

Definition buy_quantity (alt_symbol crypto_symbol : string)
           (crypto_balance ticker_price : option flt) : B flt :=
  alt_tick <- get_alt_tick alt_symbol crypto_symbol ;;
  of_result (buy_quantity_at alt_tick crypto_balance ticker_price).

End Exchange.

(** ** Order tracking and the buy and sell paths *)

Section Trading.

Context {PF : PyFloat}.

(** The loops below have no bound in the source.  Each turn of a loop
    takes a response from one endpoint, so a loop over a script of [n]
    responses is run with fuel [S n]: the script runs out before the fuel
    does, and the run is then [Pending]. *)
Definition unbounded {R A} (script : Exchange -> list R)
           (loop : nat -> B A) : B A :=
  fun s => loop (S (List.length (script (env s)))) s.

(** First loop of [wait_for_order]: fetch the status until a fetch
    succeeds. *)
Fixpoint initial_status (fuel : nat) (sym : string) (order_id : Z)
  : B order_stat :=
  match fuel with
  | O => pending
  | S fuel' =>
      try_catch
        (sleep 3 ;;
         get_order sym order_id)
        (fun e =>
           match e with
           | BinanceAPIException _ =>
               logger_info (Exn e) ;;
               sleep 10 ;;
               initial_status fuel' sym order_id
           | _ =>
               logger_info (Unexpected e) ;;
               initial_status fuel' sym order_id
           end)
  end.

(** Second loop: [while stat['status'] != 'FILLED'] *)
Fixpoint poll_status (fuel : nat) (sym : string) (order_id : Z)
         (stat : order_stat) : B order_stat :=
  if negb (String.eqb (status stat) "FILLED") then
    match fuel with
    | O => pending
    | S fuel' =>
        stat' <- try_catch
                   (st <- get_order sym order_id ;;
                    sleep 1 ;;
                    ret st)
                   (fun e =>
                      match e with
                      | BinanceAPIException _ =>
                          logger_info (Exn e) ;;
                          sleep 2 ;;
                          ret stat
                      | _ =>
                          logger_info (Unexpected e) ;;
                          ret stat
                      end) ;;
        poll_status fuel' sym order_id stat'
    end
  else ret stat.

Definition wait_for_order (alt_symbol crypto_symbol : string) (order_id : Z)
  : B order_stat :=
  stat <- unbounded orders
            (fun fuel =>
               initial_status fuel (alt_symbol ++ crypto_symbol) order_id) ;;
  logger_info (Stat stat) ;;
  unbounded orders
    (fun fuel =>
       poll_status fuel (alt_symbol ++ crypto_symbol) order_id stat).

(** [while order is None] of [_buy_alt] *)
Fixpoint submit_limit_buy (fuel : nat) (sym : string) (order_quantity : flt)
  : B order :=
  match fuel with
  | O => pending
  | S fuel' =>
      o <- try_catch
             (limit_price <- get_market_ticker_price sym ;;
              o <- order_limit_buy sym order_quantity limit_price ;;
              logger_info (OrderPayload o) ;;
              ret o)
             (fun e =>
                match e with
                | BinanceAPIException _ =>
                    logger_info (Exn e) ;;
                    sleep 1 ;;
                    ret None
                | _ =>
                    logger_info (Unexpected e) ;;
                    ret None
                end) ;;
      match o with
      | Some order' => ret order'
      | None => submit_limit_buy fuel' sym order_quantity
      end
  end.

Definition _buy_alt (alt crypto : Coin) : B order :=
  emit (TradeLogNew alt crypto false) ;;
  let alt_symbol := symbol alt in
  let crypto_symbol := symbol crypto in
  alt_balance <- get_currency_balance alt_symbol ;;
  crypto_balance <- get_currency_balance crypto_symbol ;;
  ticker_price <- get_market_ticker_price (alt_symbol ++ crypto_symbol) ;;
  order_quantity <- buy_quantity alt_symbol crypto_symbol
                      crypto_balance ticker_price ;;
  logger_info (BuyQty order_quantity) ;;
  order' <- unbounded symbol_tickers
              (fun fuel =>
                 submit_limit_buy fuel (alt_symbol ++ crypto_symbol)
                                  order_quantity) ;;
  emit (TradeLogOrdered alt_balance crypto_balance order_quantity) ;;
  stat <- wait_for_order alt_symbol crypto_symbol (orderId order') ;;
  logger_info (Text ("Bought " ++ alt_symbol)) ;;
  emit (TradeLogComplete (cummulativeQuoteQty stat)) ;;
  ret order'.

Definition buy_alt (alt crypto : Coin) : B (option order) :=
  retry (value (_buy_alt alt crypto)).

(** [while order is None] of [_sell_alt]: no handler around the call. *)
Fixpoint submit_market_sell (fuel : nat) (sym : string)
         (order_quantity : flt) : B order :=
  match fuel with
  | O => pending
  | S fuel' =>
      o <- order_market_sell sym order_quantity ;;
      match o with
      | Some order' => ret order'
      | None => submit_market_sell fuel' sym order_quantity
      end
  end.

(** [new_balance >= alt_balance] *)
Definition balance_ge (new_balance alt_balance : option flt) : result bool :=
  x <~ operand new_balance ;;
  y <~ operand alt_balance ;;
  Ok (fge x y).

(** [while new_balance >= alt_balance] of [_sell_alt] *)
Fixpoint confirm_balance (fuel : nat) (alt_symbol : string)
         (alt_balance new_balance : option flt) : B unit :=
  again <- of_result (balance_ge new_balance alt_balance) ;;
  if again : bool then
    match fuel with
    | O => pending
    | S fuel' =>
        new_balance' <- get_currency_balance alt_symbol ;;
        confirm_balance fuel' alt_symbol alt_balance new_balance'
    end
  else ret tt.

(** The balance confirmation that closes [_sell_alt]: fetch the alt
    balance, and fetch it again while it is not below [alt_balance]. *)
Definition confirm_sold (alt_symbol : string) (alt_balance : option flt)
  : B unit :=
  new_balance <- get_currency_balance alt_symbol ;;
  unbounded account
    (fun fuel => confirm_balance fuel alt_symbol alt_balance new_balance).

Definition _sell_alt (alt crypto : Coin) : B order :=
  emit (TradeLogNew alt crypto true) ;;
  let alt_symbol := symbol alt in
  let crypto_symbol := symbol crypto in
  alt_balance <- get_currency_balance alt_symbol ;;
  crypto_balance <- get_currency_balance crypto_symbol ;;
  order_quantity <- sell_quantity alt_symbol crypto_symbol alt_balance ;;
  logger_info (Selling order_quantity alt_symbol) ;;
  logger_info (Balance alt_balance) ;;
  order' <- unbounded market_sells
              (fun fuel =>
                 submit_market_sell fuel (alt_symbol ++ crypto_symbol)
                                    order_quantity) ;;
  logger_info (Text "order") ;;
  logger_info (OrderPayload (Some order')) ;;
  emit (TradeLogOrdered alt_balance crypto_balance order_quantity) ;;
  logger_info (Text "Waiting for Binance") ;;
  sleep 5 ;;
  stat <- wait_for_order alt_symbol crypto_symbol (orderId order') ;;
  confirm_sold alt_symbol alt_balance ;;
  logger_info (Text ("Sold " ++ alt_symbol)) ;;
  emit (TradeLogComplete (cummulativeQuoteQty stat)) ;;
  ret order'.

Definition sell_alt (alt crypto : Coin) : B (option order) :=
  retry (value (_sell_alt alt crypto)).

End Trading.


(** ** Observations on runs *)

Section Observations.

Context {PF : PyFloat}.

Definition fresh {E} (x : E) : State E := {| trace := []; env := x |}.

(** An operation whose outcomes are scripted: each call is recorded as
    [Invoke] and takes the next outcome. *)
Definition scripted {V} : M (list (result (option V))) (option V) :=
  fun s =>
    match env s with
    | [] => (Pending, s)
    | r :: rest =>
        of_result r {| trace := (trace s ++ [Invoke])%list; env := rest |}
    end.

Definition is_invoke (ev : event) : bool :=
  match ev with Invoke => true | _ => false end.

Definition is_sleep (ev : event) : bool :=
  match ev with Sleep _ => true | _ => false end.

Definition is_fetch (ev : event) : bool :=
  match ev with Request (GetOrder _ _) => true | _ => false end.

Definition is_balance_fetch (ev : event) : bool :=
  match ev with Request GetAccount => true | _ => false end.

Definition count (p : event -> bool) (tr : list event) : nat :=
  List.length (filter p tr).

(** The exceptions whose detail was logged by [logger.info(e)]. *)
Fixpoint logged_errors (tr : list event) : list exn :=
  match tr with
  | [] => []
  | Log (Exn e) :: tr' => e :: logged_errors tr'
  | _ :: tr' => logged_errors tr'
  end.

(** The state after the handler of [retry] has run for attempt number
    [attempts] that raised [e]. *)
Definition after_failure {E} (attempts : nat) (e : exn) (s : State E)
  : State E :=
  {| trace := (trace s
               ++ Log (Text "Failed to Buy/Sell. Trying Again.")
               :: (if (attempts =? 0)%nat then [Log (Exn e)] else []))%list;
     env := env s |}.

(** [failed_attempts func a b s s']: started in [s], the attempts number
    [a], ..., [b - 1] of [retry] all raise, and leave the state [s']. *)
Inductive failed_attempts {E V} (func : M E (option V))
  : nat -> nat -> State E -> State E -> Prop :=
| failed_none (a : nat) (s : State E) : failed_attempts func a a s s
| failed_next (a b : nat) (s s1 s' : State E) (e : exn) :
    func s = (Raised e, s1) ->
    failed_attempts func (S a) b (after_failure a e s1) s' ->
    failed_attempts func a b s s'.

Definition slept {E} (secs : Z) (s : State E) : State E :=
  {| trace := (trace s ++ [Sleep secs])%list; env := env s |}.

(** A status response that does not end [wait_for_order]. *)
Definition keeps_polling (r : result order_stat) : Prop :=
  match r with
  | Ok stat => status stat <> "FILLED"
  | Raise _ => True
  end.

(** The status [wait_for_order] holds after a turn of its second loop
    that took the response [r]. *)
Definition next_stat (stat : order_stat) (r : result order_stat)
  : order_stat :=
  match r with
  | Ok stat' => stat'
  | Raise _ => stat
  end.

(** An account response in which the balance of [alt_symbol] is present
    and not below [alt_balance]: the confirmation loop fetches again. *)
Definition balance_holds (alt_symbol : string) (alt_balance : flt)
           (r : result (list balance_entry)) : Prop :=
  exists acct v,
    r = Ok acct /\ balance_of alt_symbol acct = Some v
    /\ fge v alt_balance = true.

(** An account in which the balance of [alt_symbol] is present and below
    [alt_balance]: the confirmation loop ends. *)
Definition balance_dropped (alt_symbol : string) (alt_balance : flt)
           (acct : list balance_entry) : Prop :=
  exists v, balance_of alt_symbol acct = Some v /\ fge v alt_balance = false.


(** An exchange that publishes [step_size] as the lot size of every
    pair. *)
Definition lot_size_exchange (step_size : string) : Exchange :=
  {| account := []; symbol_tickers := [];
     symbol_info :=
       [Ok (Some [ {| filterType := "PRICE_FILTER"; stepSize := "" |};
                   {| filterType := "LOT_SIZE"; stepSize := step_size |} ])];
     limit_buys := []; market_sells := []; orders := [] |}.

End Observations.

(** ** Scenarios *)

Module Scenario.

Definition ALT : Coin := {| symbol := "ALT" |}.
Definition BTC : Coin := {| symbol := "BTC" |}.

Definition filled : order_stat :=
  {| status := "FILLED"; cummulativeQuoteQty := "0.1234" |}.

Definition with_status (st : string) : order_stat :=
  {| status := st; cummulativeQuoteQty := "0.0" |}.

(** The statuses New, New, PartiallyFilled, Filled. *)
Definition four_statuses {PF : PyFloat} : Exchange :=
  {| account := []; symbol_tickers := []; symbol_info := [];
     limit_buys := []; market_sells := [];
     orders := [Ok (with_status "NEW"); Ok (with_status "NEW");
                Ok (with_status "PARTIALLY_FILLED"); Ok filled] |}.



(** The same exchange, its numbers as doubles. *)
Definition rising_price_binary64 : @Exchange binary64 :=
  let acct := [ @Build_balance_entry binary64 "ALT" 0%float;
                @Build_balance_entry binary64 "BTC" 10%float ] in
  {| account := [Ok acct; Ok acct];
     symbol_tickers :=
       [Ok [ @Build_ticker_entry binary64 "ALTBTC" 1%float ];
        Ok [ @Build_ticker_entry binary64 "ALTBTC" 2%float ]];
     symbol_info :=
       [Ok (Some [ {| filterType := "LOT_SIZE"; stepSize := "1.00000000" |} ])];
     limit_buys := [Ok (Some {| orderId := 1 |})];
     market_sells := [];
     orders := [Ok filled] |}.

(** Alt balance 12.3456 before the sell, lot size 0.001; after the fill
    the balance is first unchanged, then 0.0006. *)
Definition settling_sell : @Exchange exact :=
  let before := [ @Build_balance_entry exact "ALT" (123456 # 10000)%Q;
                  @Build_balance_entry exact "BTC" 0%Q ] in
  let after := [ @Build_balance_entry exact "ALT" (6 # 10000)%Q;
                 @Build_balance_entry exact "BTC" (1234 # 10000)%Q ] in
  {| account := [Ok before; Ok before; Ok before; Ok after];
     symbol_tickers := [];
     symbol_info :=
       [Ok (Some [ {| filterType := "LOT_SIZE"; stepSize := "0.00100000" |} ])];
     limit_buys := [];
     market_sells := [Ok (Some {| orderId := 7 |})];
     orders := [Ok (with_status "NEW"); Ok filled] |}.

End Scenario.

Module Binary64Value.

(** The rational a double stands for (0 for NaN and the infinities). *)
Definition to_Q (x : float) : Q :=
  match Prim2SF x with
  | S754_finite s m e =>
      (inject_Z (if s then Z.neg m else Z.pos m) * Qpower (2 # 1) e)%Q
  | _ => 0%Q
  end.

End Binary64Value.


(** ** Further observations *)

Section MoreObservations.

Context {PF : PyFloat}.

(** Whether the character [c] occurs in [s]. *)
Fixpoint occurs (c : ascii) (s : string) : bool :=
  match s with
  | EmptyString => false
  | String a s' => Ascii.eqb a c || occurs c s'
  end.

(** The log line of an order the exchange accepted: [logger.info(order)]
    with an order that is not None. *)
Definition is_accepted (ev : event) : bool :=
  match ev with Log (OrderPayload (Some _)) => true | _ => false end.

(** The line "Failed to Buy/Sell. Trying Again." of [retry]. *)
Definition is_failure_log (ev : event) : bool :=
  match ev with
  | Log (Text t) => String.eqb t "Failed to Buy/Sell. Trying Again."
  | _ => false
  end.

(** The events [wait_for_order] may add for the pair [sym] and the order
    [order_id]: sleeps, log lines and status fetches of that order. *)
Definition is_tracking (sym : string) (order_id : Z) (ev : event) : bool :=
  match ev with
  | Sleep _ => true
  | Log (Exn _) | Log (Unexpected _) | Log (Stat _) => true
  | Request (GetOrder sym' order_id') =>
      String.eqb sym' sym && Z.eqb order_id' order_id
  | _ => false
  end.

(** The events the submission loop of [_buy_alt] may add for the pair
    [sym] and the quantity [q]: sleeps of 1 second, log lines, price
    fetches and limit buys of that pair and quantity. *)
Definition is_buy_submission (sym : string) (q : flt) (ev : event) : Prop :=
  match ev with
  | Sleep secs => secs = 1
  | Log (Exn _) | Log (Unexpected _) | Log (OrderPayload _) => True
  | Request GetSymbolTicker => True
  | Request (OrderLimitBuy sym' q' _) => sym' = sym /\ q' = q
  | _ => False
  end.

(** From [s] to [s'] the trace has only grown, by events that satisfy
    [P]. *)
Definition adds {E} (P : event -> Prop) (s s' : State E) : Prop :=
  exists tl, trace s' = (trace s ++ tl)%list /\ Forall P tl.

(** From [s] to [s'] the trace has grown by events of which [n] are log
    lines of an accepted order. *)
Definition accepted {E} (n : nat) (s s' : State E) : Prop :=
  exists tl, trace s' = (trace s ++ tl)%list /\ count is_accepted tl = n.

(** From [s] to [s'] no script but that of [get_order] was touched. *)
Definition orders_only (s s' : State Exchange) : Prop :=
  account (env s') = account (env s)
  /\ symbol_tickers (env s') = symbol_tickers (env s)
  /\ symbol_info (env s') = symbol_info (env s)
  /\ limit_buys (env s') = limit_buys (env s)
  /\ market_sells (env s') = market_sells (env s).

(** Every run of [m] relates the state it starts in to the state it
    ends in by [R]. *)
Definition preserves {E A} (R : State E -> State E -> Prop) (m : M E A)
  : Prop :=
  forall s r s', m s = (r, s') -> R s s'.

(** The runs that add no log line of an accepted order. *)
Definition quiet {E A} (m : M E A) : Prop :=
  preserves (adds (fun ev => is_accepted ev = false)) m.

(** The events a turn of the first loop of [wait_for_order] adds when
    its fetch raises [e]. *)
Definition initial_failure (sym : string) (order_id : Z) (e : exn)
  : list event :=
  match e with
  | BinanceAPIException _ =>
      [Sleep 3; Request (GetOrder sym order_id); Log (Exn e); Sleep 10]
  | _ => [Sleep 3; Request (GetOrder sym order_id); Log (Unexpected e)]
  end.

(** The events a turn of the second loop of [wait_for_order] adds when
    its fetch is answered by [r]. *)
Definition poll_turn (sym : string) (order_id : Z) (r : result order_stat)
  : list event :=
  match r with
  | Ok _ => [Request (GetOrder sym order_id); Sleep 1]
  | Raise (BinanceAPIException _ as e) =>
      [Request (GetOrder sym order_id); Log (Exn e); Sleep 2]
  | Raise e => [Request (GetOrder sym order_id); Log (Unexpected e)]
  end.

(** A market sell sent to the exchange. *)
Definition is_market_sell (ev : event) : bool :=
  match ev with Request (OrderMarketSell _ _) => true | _ => false end.

(** A trade log opened: [TradeLog(alt, crypto, selling)]. *)
Definition is_trade_log_new (ev : event) : bool :=
  match ev with TradeLogNew _ _ _ => true | _ => false end.

(** The exception [get_symbol_filter] raises on the answer [r] of the
    exchange, if it raises. *)
Definition filter_error (filter_type : string)
           (r : result (option (list symbol_filter))) : option exn :=
  match r with
  | Raise e => Some e
  | Ok None => Some TypeError
  | Ok (Some filters) =>
      match List.find (fun f => String.eqb (filterType f) filter_type)
                      filters with
      | Some _ => None
      | None => Some StopIteration
      end
  end.

End MoreObservations.

(** ** Further scenarios *)

Module Cases.

(** An account that lists BTC twice. *)
Definition two_btc_entries : @Exchange exact :=
  {| account := [Ok [ @Build_balance_entry exact "ALT" 5%Q;
                      @Build_balance_entry exact "BTC" 10%Q;
                      @Build_balance_entry exact "BTC" 99%Q ]];
     symbol_tickers :=
       [Ok [ @Build_ticker_entry exact "ETHBTC" 3%Q;
             @Build_ticker_entry exact "ALTBTC" 2%Q;
             @Build_ticker_entry exact "ALTBTC" 7%Q ]];
     symbol_info := []; limit_buys := []; market_sells := [];
     orders := [] |}.

(** Status fetches answered by an API error, NEW, a timeout, FILLED. *)
Definition erratic_orders : @Exchange exact :=
  {| account := []; symbol_tickers := []; symbol_info := [];
     limit_buys := []; market_sells := [];
     orders := [Raise (BinanceAPIException "busy");
                Ok (Scenario.with_status "NEW");
                Raise (RequestException "timeout");
                Ok Scenario.filled] |}.

(** Market sells answered by None twice, then by an order. *)
Definition slow_market : @Exchange exact :=
  {| account := []; symbol_tickers := []; symbol_info := [];
     limit_buys := [];
     market_sells := [Ok None; Ok None; Ok (Some {| orderId := 7 |})];
     orders := [] |}.

(** Alt balance 12.3456, lot size 0.001; the order is accepted and filled,
    and the balance fetch after the fill times out. *)
Definition failing_confirmation : @Exchange exact :=
  let before := [ @Build_balance_entry exact "ALT" (123456 # 10000)%Q;
                  @Build_balance_entry exact "BTC" 0%Q ] in
  {| account := [Ok before; Ok before; Raise (RequestException "timeout")];
     symbol_tickers := [];
     symbol_info :=
       [Ok (Some [ {| filterType := "LOT_SIZE"; stepSize := "0.00100000" |} ])];
     limit_buys := [];
     market_sells := [Ok (Some {| orderId := 7 |})];
     orders := [Ok Scenario.filled] |}.

(** Alt balance 0.0004, lot size 0.001; the exchange refuses every market
    sell. *)
Definition dust : list (@balance_entry exact) :=
  [ @Build_balance_entry exact "ALT" (4 # 10000)%Q;
    @Build_balance_entry exact "BTC" 1%Q ].

Definition lot_size_milli : list symbol_filter :=
  [ {| filterType := "LOT_SIZE"; stepSize := "0.00100000" |} ].

Definition refusals : list exn :=
  repeat (BinanceAPIException "Filter failure: LOT_SIZE") 20.

Definition refusing : @Exchange exact :=
  {| account := (List.concat (repeat [Ok dust; Ok dust] 20) ++ [])%list;
     symbol_tickers := [];
     symbol_info := (repeat (Ok (Some lot_size_milli)) 20 ++ [])%list;
     limit_buys := [];
     market_sells := (map Raise refusals ++ [])%list;
     orders := [] |}.

(** An exchange that does not list the pair: its symbol info is None. *)
Definition unknown_pair : @Exchange exact :=
  let acct := [ @Build_balance_entry exact "ALT" 0%Q;
                @Build_balance_entry exact "BTC" 10%Q ] in
  {| account := [Ok acct; Ok acct];
     symbol_tickers := [Ok [ @Build_ticker_entry exact "ETHBTC" 3%Q ]];
     symbol_info := [Ok None];
     limit_buys := [Ok (Some {| orderId := 1 |})];
     market_sells := [Ok (Some {| orderId := 2 |})];
     orders := [Ok Scenario.filled] |}.

(** An account that lists neither ALT nor BTC, served for 20 attempts
    together with the price and the lot size. *)
Definition no_balances : @Exchange exact :=
  let acct := [ @Build_balance_entry exact "ETH" 1%Q ] in
  {| account := List.concat (repeat [Ok acct; Ok acct] 20);
     symbol_tickers := repeat (Ok [ @Build_ticker_entry exact "ALTBTC" 2%Q ]) 20;
     symbol_info := repeat (Ok (Some lot_size_milli)) 20;
     limit_buys := [Ok (Some {| orderId := 1 |})];
     market_sells := [Ok (Some {| orderId := 2 |})];
     orders := [Ok Scenario.filled] |}.

End Cases.
(** * Properties *)

(** ** Tick exponent *)

Lemma find_from_zeros (c : ascii) (n : nat) (s : string) (i : Z) :
  c <> "0"%char ->
  find_from c (zeros n ++ s) i = find_from c s (i + Z.of_nat n).
Proof.
  intros Hc. revert i. induction n as [|n IH]; intros i.
  - simpl. f_equal. lia.
  - change (zeros (S n) ++ s) with (String "0" (zeros n ++ s)).
    cbn [find_from].
    destruct (Ascii.eqb_spec "0"%char c) as [E|_]; [congruence|].
    rewrite IH. f_equal. lia.
Qed.

Lemma tick_of_power_of_ten (k m : nat) :
  tick_of_step_size ("1" ++ zeros k ++ "." ++ zeros m) = - Z.of_nat k.
Proof.
  unfold tick_of_step_size, find.
  change ("1" ++ zeros k ++ "." ++ zeros m)
    with (String "1" (zeros k ++ String "." (zeros m))).
  cbn [find_from Ascii.eqb Bool.eqb]. cbn [Z.eqb].
  rewrite find_from_zeros by discriminate.
  cbn [find_from Ascii.eqb Bool.eqb]. lia.
Qed.

Lemma tick_of_negative_power_of_ten (d m : nat) :
  tick_of_step_size ("0." ++ zeros d ++ "1" ++ zeros m) = Z.of_nat (S d).
Proof.
  unfold tick_of_step_size, find.
  change ("0." ++ zeros d ++ "1" ++ zeros m)
    with (String "0" (String "." (zeros d ++ String "1" (zeros m)))).
  cbn [find_from Ascii.eqb Bool.eqb].
  rewrite find_from_zeros by discriminate.
  cbn [find_from Ascii.eqb Bool.eqb].
  replace (Z.eqb (0 + 1 + 1 + Z.of_nat d) 0) with false
    by (symmetry; apply Z.eqb_neq; lia).
  lia.
Qed.

(** ** Running the monad *)

Lemma bind_returned {PF : PyFloat} {E A C} (m : M E A) (k : A -> M E C)
      (s s1 : State E) (a : A) :
  m s = (Returned a, s1) -> bind m k s = k a s1.
Proof. intros H. unfold bind. now rewrite H. Qed.

Lemma bind_raised {PF : PyFloat} {E A C} (m : M E A) (k : A -> M E C)
      (s s1 : State E) (e : exn) :
  m s = (Raised e, s1) -> bind m k s = (Raised e, s1).
Proof. intros H. unfold bind. now rewrite H. Qed.

Lemma bind_pending {PF : PyFloat} {E A C} (m : M E A) (k : A -> M E C)
      (s s1 : State E) :
  m s = (Pending, s1) -> bind m k s = (Pending, s1).
Proof. intros H. unfold bind. now rewrite H. Qed.

Lemma bind_returned_inv {PF : PyFloat} {E A C} (m : M E A) (k : A -> M E C)
      (s s' : State E) (c : C) :
  bind m k s = (Returned c, s') ->
  exists a s1, m s = (Returned a, s1) /\ k a s1 = (Returned c, s').
Proof.
  unfold bind. destruct (m s) as [[a|e|] s1]; intros H; try discriminate.
  now exists a, s1.
Qed.

(** ** The retry executor *)

Section RetryFacts.

Context {PF : PyFloat} {E V : Type}.
Variable func : M E (option V).

Lemma failed_attempts_le (a b : nat) (s s' : State E) :
  failed_attempts func a b s s' -> (a <= b)%nat.
Proof. induction 1; lia. Qed.

Lemma retry_loop_handler (fuel a : nat) (s s1 : State E) (e : exn) :
  (a < 20)%nat ->
  func s = (Raised e, s1) ->
  retry_loop (S fuel) a func s
  = retry_loop fuel (S a) func (after_failure a e s1).
Proof.
  intros Ha Hf. cbn [retry_loop].
  apply Nat.ltb_lt in Ha. rewrite Ha.
  unfold try_catch. rewrite Hf.
  unfold bind, logger_info, emit, after_failure. cbn.
  rewrite Nat.add_1_r.
  destruct (a =? 0)%nat; cbn.
  - now rewrite <- app_assoc.
  - reflexivity.
Qed.

Lemma retry_loop_result (fuel a : nat) (s s' : State E) (r : outcome (option V)) :
  (a < 20)%nat ->
  func s = (r, s') ->
  (forall e, r <> Raised e) ->
  retry_loop (S fuel) a func s = (r, s').
Proof.
  intros Ha Hf Hr. cbn [retry_loop].
  apply Nat.ltb_lt in Ha. rewrite Ha.
  unfold try_catch. rewrite Hf.
  destruct r as [v|e|]; try reflexivity. now destruct (Hr e).
Qed.

Lemma retry_loop_done (fuel : nat) (s : State E) :
  retry_loop fuel 20 func s = (Returned None, s).
Proof. destruct fuel; reflexivity. Qed.

(** Twenty failed attempts exhaust the loop. *)
Lemma retry_loop_exhausted (fuel a : nat) (s s' : State E) :
  failed_attempts func a 20 s s' ->
  (20 <= a + fuel)%nat ->
  retry_loop fuel a func s = (Returned None, s').
Proof.
  intros H. remember 20%nat as b eqn:Hb. revert fuel.
  induction H as [a s|a b s s1 s' e Hf H IH]; intros fuel Hfuel; subst.
  - apply retry_loop_done.
  - pose proof (failed_attempts_le _ _ _ _ H) as Hle.
    destruct fuel as [|fuel]; [lia|].
    rewrite (retry_loop_handler fuel a s s1 e) by (lia || assumption).
    apply IH; [reflexivity|lia].
Qed.

(** A run of failures followed by a call that does not raise. *)
Lemma retry_loop_settles (fuel a k : nat) (s s1 s' : State E)
      (r : outcome (option V)) :
  failed_attempts func a k s s1 ->
  (k < 20)%nat ->
  (20 <= a + fuel)%nat ->
  func s1 = (r, s') ->
  (forall e, r <> Raised e) ->
  retry_loop fuel a func s = (r, s').
Proof.
  intros H. revert fuel.
  induction H as [a s|a b s s1 s2 e Hf H IH]; intros fuel Hk Hfuel Hr Hne.
  - destruct fuel as [|fuel]; [lia|]. now apply retry_loop_result.
  - pose proof (failed_attempts_le _ _ _ _ H) as Hle.
    destruct fuel as [|fuel]; [lia|].
    rewrite (retry_loop_handler fuel a s s1 e) by (lia || assumption).
    apply IH; (assumption || lia).
Qed.

(** Every run of the loop is of one of these two kinds. *)
Lemma retry_loop_inv (fuel a : nat) (s s' : State E)
      (r : outcome (option V)) :
  (a <= 20)%nat ->
  (20 <= a + fuel)%nat ->
  retry_loop fuel a func s = (r, s') ->
  (failed_attempts func a 20 s s' /\ r = Returned None)
  \/ (exists k s1, failed_attempts func a k s s1 /\ (k < 20)%nat
                   /\ func s1 = (r, s') /\ forall e, r <> Raised e).
Proof.
  revert a s. induction fuel as [|fuel IH]; intros a s Ha Hfuel Hrun.
  - assert (a = 20%nat) by lia. subst a.
    rewrite retry_loop_done in Hrun. inversion Hrun; subst.
    left. split; [constructor|reflexivity].
  - destruct (Nat.eq_dec a 20) as [->|Hne].
    + rewrite retry_loop_done in Hrun. inversion Hrun; subst.
      left. split; [constructor|reflexivity].
    + assert (Hlt : (a < 20)%nat) by lia.
      destruct (func s) as [[v|e|] s1] eqn:Hf.
      * rewrite (retry_loop_result fuel a s s1 (Returned v)) in Hrun
          by (assumption || discriminate).
        inversion Hrun; subst. right. exists a, s. repeat split.
        -- constructor.
        -- assumption.
        -- assumption.
        -- discriminate.
      * rewrite (retry_loop_handler fuel a s s1 e) in Hrun by assumption.
        apply IH in Hrun; [|lia|lia].
        destruct Hrun as [[H ->]|(k & s2 & H & Hk & Hr & Hn)].
        -- left. split; [|reflexivity]. econstructor; eassumption.
        -- right. exists k, s2. repeat split; try assumption.
           econstructor; eassumption.
      * rewrite (retry_loop_result fuel a s s1 Pending) in Hrun
          by (assumption || discriminate).
        inversion Hrun; subst. right. exists a, s. repeat split.
        -- constructor.
        -- assumption.
        -- assumption.
        -- discriminate.
Qed.

(** The fuel of [retry] is never what stops it: a pending run is a
    pending call of the operation. *)
Lemma retry_loop_fuel (a : nat) (s s' : State E) :
  (a <= 20)%nat ->
  retry_loop (20 - a) a func s = (Pending, s') ->
  exists s1, func s1 = (Pending, s').
Proof.
  intros Ha H. apply retry_loop_inv in H; [|lia|lia].
  destruct H as [[_ H]|(k & s1 & _ & _ & Hf & _)]; [discriminate|].
  now exists s1.
Qed.

Lemma retry_unfold (s : State E) :
  retry func s = retry_loop 20 0 func (slept 1 s).
Proof. reflexivity. Qed.

End RetryFacts.

(** ** Counting events *)

Section Counting.

Context {PF : PyFloat}.

Lemma count_app (p : event -> bool) (t1 t2 : list event) :
  count p (t1 ++ t2) = (count p t1 + count p t2)%nat.
Proof. unfold count. now rewrite filter_app, length_app. Qed.

Lemma logged_errors_app (t1 t2 : list event) :
  logged_errors (t1 ++ t2) = (logged_errors t1 ++ logged_errors t2)%list.
Proof.
  induction t1 as [|ev t1 IH]; [reflexivity|].
  destruct ev as [n|m|r| | | |]; cbn; try apply IH.
  destruct m; cbn; try apply IH. now rewrite IH.
Qed.

End Counting.

(** ** The retry executor on a scripted operation *)

Section RetryScripted.

Context {PF : PyFloat} {V : Type}.

Lemma scripted_raise (e : exn) (rest : list (result (option V))) (tr : list event) :
  scripted {| trace := tr; env := Raise e :: rest |}
  = (Raised e, {| trace := (tr ++ [Invoke])%list; env := rest |}).
Proof. reflexivity. Qed.

Lemma scripted_ok (v : option V) (rest : list (result (option V))) (tr : list event) :
  scripted {| trace := tr; env := Ok v :: rest |}
  = (Returned v, {| trace := (tr ++ [Invoke])%list; env := rest |}).
Proof. reflexivity. Qed.

(** [length es] scripted failures in a row, from attempt number [a]:
    each is one invocation, no sleep, and only attempt 0 logs its
    error. *)
Lemma scripted_failures (es : list exn) (a : nat) (tr : list event)
      (rest : list (result (option V))) :
  exists tl,
    failed_attempts scripted a (a + List.length es)
      {| trace := tr; env := (map Raise es ++ rest)%list |}
      {| trace := (tr ++ tl)%list; env := rest |}
    /\ count is_invoke tl = List.length es
    /\ count is_sleep tl = 0%nat
    /\ logged_errors tl = (if (a =? 0)%nat then firstn 1 es else []).
Proof.
  revert a tr. induction es as [|e es IH]; intros a tr.
  - exists []. rewrite app_nil_r, Nat.add_0_r. cbn.
    repeat split; try constructor. now destruct (a =? 0)%nat.
  - destruct (IH (S a)
                (tr ++ [Invoke]
                 ++ Log (Text "Failed to Buy/Sell. Trying Again.")
                 :: (if (a =? 0)%nat then [Log (Exn e)] else []))%list)
      as (tl & Hrun & Hinv & Hsl & Hlog).
    exists ([Invoke]
            ++ Log (Text "Failed to Buy/Sell. Trying Again.")
            :: (if (a =? 0)%nat then [Log (Exn e)] else [])
            ++ tl)%list.
    repeat split.
    + eapply failed_next.
      * cbn [map app]. apply scripted_raise.
      * unfold after_failure. cbn [trace env].
        replace (a + List.length (e :: es))%nat
          with (S a + List.length es)%nat by (cbn; lia).
        repeat rewrite <- app_assoc in *. cbn [app] in *.
        destruct (a =? 0)%nat; cbn [app] in *; exact Hrun.
    + destruct (a =? 0)%nat; cbn [app]; cbn; unfold count in Hinv;
        cbn; now rewrite Hinv.
    + destruct (a =? 0)%nat; cbn [app]; cbn; unfold count in Hsl;
        cbn; now rewrite Hsl.
    + destruct (a =? 0)%nat eqn:Ha; cbn [app]; cbn; rewrite Hlog.
      * now destruct es.
      * reflexivity.
Qed.

(** The run of [retry] on failures followed by a success. *)
Lemma retry_scripted_success (es : list exn) (v : option V) (rest : list (result (option V)))
      (tr : list event) :
  (List.length es < 20)%nat ->
  exists tl,
    retry scripted
      {| trace := tr; env := (map Raise es ++ Ok v :: rest)%list |}
    = (Returned v, {| trace := (tr ++ Sleep 1 :: tl)%list; env := rest |})
    /\ count is_invoke tl = S (List.length es)
    /\ count is_sleep tl = 0%nat
    /\ logged_errors tl = firstn 1 es.
Proof.
  intros Hlen.
  destruct (scripted_failures es 0 (tr ++ [Sleep 1]) (Ok v :: rest))
    as (tl & Hrun & Hinv & Hsl & Hlog).
  exists (tl ++ [Invoke])%list. repeat split.
  - rewrite retry_unfold. unfold slept. cbn [trace env].
    eapply retry_loop_settles.
    + exact Hrun.
    + cbn. exact Hlen.
    + lia.
    + rewrite scripted_ok. repeat rewrite <- app_assoc. reflexivity.
    + discriminate.
  - rewrite count_app, Hinv. cbn. lia.
  - rewrite count_app, Hsl. reflexivity.
  - rewrite logged_errors_app, Hlog. cbn. now rewrite app_nil_r.
Qed.

(** The run of [retry] on twenty failures. *)
Lemma retry_scripted_exhausted (es : list exn) (rest : list (result (option V)))
      (tr : list event) :
  List.length es = 20%nat ->
  exists tl,
    retry scripted {| trace := tr; env := (map Raise es ++ rest)%list |}
    = (Returned None, {| trace := (tr ++ Sleep 1 :: tl)%list; env := rest |})
    /\ count is_invoke tl = 20%nat
    /\ count is_sleep tl = 0%nat
    /\ logged_errors tl = firstn 1 es.
Proof.
  intros Hlen.
  destruct (scripted_failures es 0 (tr ++ [Sleep 1]) rest)
    as (tl & Hrun & Hinv & Hsl & Hlog).
  exists tl. repeat split.
  - rewrite retry_unfold. unfold slept. cbn [trace env].
    rewrite <- app_assoc in Hrun. cbn [app] in Hrun.
    apply retry_loop_exhausted; [|lia].
    cbn [Nat.add] in Hrun. rewrite Hlen in Hrun. exact Hrun.
  - now rewrite Hinv.
  - exact Hsl.
  - exact Hlog.
Qed.

End RetryScripted.

(** ** The fill tracker *)

Section WaitFacts.

Context {PF : PyFloat}.

Lemma sleep_then {A} (secs : Z) (k : B A) (s : State Exchange) :
  (sleep secs ;; k) s = k (slept secs s).
Proof. reflexivity. Qed.

Lemma get_order_next (sym : string) (order_id : Z) (s : State Exchange)
      (r : result order_stat) (rest : list (result order_stat)) :
  orders (env s) = r :: rest ->
  get_order sym order_id s
  = of_result r {| trace := (trace s ++ [Request (GetOrder sym order_id)])%list;
                   env := set_orders rest (env s) |}.
Proof. intros H. unfold get_order, client_call. now rewrite H. Qed.

Lemma get_order_none (sym : string) (order_id : Z) (s : State Exchange) :
  orders (env s) = [] -> get_order sym order_id s = (Pending, s).
Proof. intros H. unfold get_order, client_call. now rewrite H. Qed.

Variables (sym : string) (order_id : Z).

(** One turn of the first loop, by the response it takes. *)
Lemma initial_status_ok (fuel : nat) (s : State Exchange)
      (stat : order_stat) (rest : list (result order_stat)) :
  orders (env s) = Ok stat :: rest ->
  initial_status (S fuel) sym order_id s
  = (Returned stat,
     {| trace := (trace s ++ [Sleep 3; Request (GetOrder sym order_id)])%list;
        env := set_orders rest (env s) |}).
Proof.
  intros H. cbn [initial_status]. unfold try_catch.
  rewrite sleep_then, (get_order_next _ _ _ (Ok stat) rest) by exact H.
  cbn. now rewrite <- app_assoc.
Qed.

Lemma initial_status_raise (fuel : nat) (s : State Exchange) (e : exn)
      (rest : list (result order_stat)) :
  orders (env s) = Raise e :: rest ->
  exists tl,
    initial_status (S fuel) sym order_id s
    = initial_status fuel sym order_id
        {| trace := (trace s ++ tl)%list; env := set_orders rest (env s) |}
    /\ count is_fetch tl = 1%nat.
Proof.
  intros H. cbn [initial_status]. unfold try_catch.
  rewrite sleep_then, (get_order_next _ _ _ (Raise e) rest) by exact H.
  cbn [of_result raise slept trace env].
  destruct e.
  1: exists [Sleep 3; Request (GetOrder sym order_id);
             Log (Exn (BinanceAPIException detail)); Sleep 10].
  2: exists [Sleep 3; Request (GetOrder sym order_id);
             Log (Unexpected (RequestException detail))].
  3: exists [Sleep 3; Request (GetOrder sym order_id);
             Log (Unexpected TypeError)].
  4: exists [Sleep 3; Request (GetOrder sym order_id);
             Log (Unexpected ZeroDivisionError)].
  5: exists [Sleep 3; Request (GetOrder sym order_id);
             Log (Unexpected OverflowError)].
  6: exists [Sleep 3; Request (GetOrder sym order_id);
             Log (Unexpected ValueError)].
  7: exists [Sleep 3; Request (GetOrder sym order_id);
             Log (Unexpected StopIteration)].
  all: split; [|reflexivity].
  all: unfold bind, logger_info, sleep, emit; cbn [trace env].
  all: repeat rewrite <- app_assoc; reflexivity.
Qed.

Lemma initial_status_empty (fuel : nat) (s : State Exchange) :
  orders (env s) = [] ->
  exists s', initial_status fuel sym order_id s = (Pending, s').
Proof.
  intros H. destruct fuel as [|fuel].
  - now exists s.
  - exists (slept 3 s). cbn [initial_status]. unfold try_catch.
    rewrite sleep_then, get_order_none by exact H. reflexivity.
Qed.

(** The first loop returns the first response that is not an error. *)
Lemma initial_status_run (es : list exn) (stat : order_stat)
      (rest : list (result order_stat)) (fuel : nat) (s : State Exchange) :
  orders (env s) = (map Raise es ++ Ok stat :: rest)%list ->
  (List.length es < fuel)%nat ->
  exists tl,
    initial_status fuel sym order_id s
    = (Returned stat,
       {| trace := (trace s ++ tl)%list; env := set_orders rest (env s) |})
    /\ count is_fetch tl = S (List.length es).
Proof.
  revert fuel s. induction es as [|e es IH]; intros fuel s H Hfuel.
  - destruct fuel as [|fuel]; [cbn in Hfuel; lia|].
    exists [Sleep 3; Request (GetOrder sym order_id)].
    split; [|reflexivity]. now apply initial_status_ok.
  - destruct fuel as [|fuel]; [cbn in Hfuel; lia|].
    cbn [map app] in H.
    destruct (initial_status_raise fuel s e _ H) as (tl1 & Hstep & Hc1).
    destruct (IH fuel {| trace := (trace s ++ tl1)%list;
                         env := set_orders (map Raise es ++ Ok stat :: rest)
                                           (env s) |})
      as (tl2 & Hrun & Hc2); [reflexivity|cbn in Hfuel; lia|].
    exists (tl1 ++ tl2)%list. split.
    + rewrite Hstep, Hrun. cbn [trace env]. now rewrite <- app_assoc.
    + rewrite count_app, Hc1, Hc2. reflexivity.
Qed.

Lemma initial_status_no_raise (fuel : nat) (s s' : State Exchange)
      (e : exn) :
  initial_status fuel sym order_id s <> (Raised e, s').
Proof.
  revert s. induction fuel as [|fuel IH]; intros s; [discriminate|].
  destruct (orders (env s)) as [|[stat|e0] rest] eqn:H.
  - destruct (initial_status_empty (S fuel) s H) as (s1 & ->). discriminate.
  - rewrite (initial_status_ok fuel s stat rest H). discriminate.
  - destruct (initial_status_raise fuel s e0 rest H) as (tl & -> & _).
    apply IH.
Qed.

Lemma initial_status_pending (es : list exn) (fuel : nat)
      (s : State Exchange) :
  orders (env s) = map Raise es ->
  exists s', initial_status fuel sym order_id s = (Pending, s').
Proof.
  revert fuel s. induction es as [|e es IH]; intros fuel s H.
  - now apply initial_status_empty.
  - destruct fuel as [|fuel]; [now exists s|].
    destruct (initial_status_raise fuel s e _ H) as (tl & -> & _).
    now apply IH.
Qed.

End WaitFacts.

Section PollFacts.

Context {PF : PyFloat}.
Variables (sym : string) (order_id : Z).

Lemma poll_status_filled (fuel : nat) (stat : order_stat)
      (s : State Exchange) :
  status stat = "FILLED" ->
  poll_status fuel sym order_id stat s = (Returned stat, s).
Proof. intros H. destruct fuel; cbn [poll_status]; now rewrite H. Qed.

Lemma poll_status_step (fuel : nat) (stat : order_stat)
      (s : State Exchange) (r : result order_stat)
      (rest : list (result order_stat)) :
  status stat <> "FILLED" ->
  orders (env s) = r :: rest ->
  exists tl,
    poll_status (S fuel) sym order_id stat s
    = poll_status fuel sym order_id (next_stat stat r)
        {| trace := (trace s ++ tl)%list; env := set_orders rest (env s) |}
    /\ count is_fetch tl = 1%nat.
Proof.
  intros Hs H. cbn [poll_status].
  apply String.eqb_neq in Hs. rewrite Hs. cbn [negb].
  unfold bind at 1. unfold try_catch. unfold bind at 1.
  rewrite (get_order_next _ _ _ r rest) by exact H.
  destruct r as [stat'|e]; cbn [of_result ret raise next_stat].
  - exists [Request (GetOrder sym order_id); Sleep 1].
    split; [|reflexivity].
    unfold bind, sleep, emit, ret. cbn [trace env].
    now rewrite <- app_assoc.
  - destruct e.
    1: exists [Request (GetOrder sym order_id);
               Log (Exn (BinanceAPIException detail)); Sleep 2].
    2: exists [Request (GetOrder sym order_id);
               Log (Unexpected (RequestException detail))].
    3: exists [Request (GetOrder sym order_id); Log (Unexpected TypeError)].
    4: exists [Request (GetOrder sym order_id);
               Log (Unexpected ZeroDivisionError)].
    5: exists [Request (GetOrder sym order_id);
               Log (Unexpected OverflowError)].
    6: exists [Request (GetOrder sym order_id); Log (Unexpected ValueError)].
    7: exists [Request (GetOrder sym order_id);
               Log (Unexpected StopIteration)].
    all: split; [|reflexivity].
    all: unfold bind, logger_info, sleep, emit, ret; cbn [trace env].
    all: repeat rewrite <- app_assoc; reflexivity.
Qed.

Lemma poll_status_empty (fuel : nat) (stat : order_stat)
      (s : State Exchange) :
  status stat <> "FILLED" ->
  orders (env s) = [] ->
  poll_status fuel sym order_id stat s = (Pending, s).
Proof.
  intros Hs H. apply String.eqb_neq in Hs.
  destruct fuel as [|fuel]; cbn [poll_status]; rewrite Hs; cbn [negb].
  - reflexivity.
  - unfold bind at 1. unfold try_catch. unfold bind at 1.
    now rewrite get_order_none by exact H.
Qed.

Lemma next_stat_keeps (stat : order_stat) (r : result order_stat) :
  status stat <> "FILLED" -> keeps_polling r ->
  status (next_stat stat r) <> "FILLED".
Proof. destruct r; cbn; auto. Qed.

(** The second loop goes through every response that keeps it polling
    and returns the first FILLED record. *)
Lemma poll_status_run (pre : list (result order_stat))
      (filled : order_stat) (rest : list (result order_stat))
      (fuel : nat) (stat : order_stat) (s : State Exchange) :
  Forall keeps_polling pre ->
  status stat <> "FILLED" ->
  status filled = "FILLED" ->
  orders (env s) = (pre ++ Ok filled :: rest)%list ->
  (List.length pre < fuel)%nat ->
  exists tl,
    poll_status fuel sym order_id stat s
    = (Returned filled,
       {| trace := (trace s ++ tl)%list; env := set_orders rest (env s) |})
    /\ count is_fetch tl = S (List.length pre).
Proof.
  intros Hpre. revert fuel stat s.
  induction Hpre as [|r pre Hr Hpre IH]; intros fuel stat s Hs Hf H Hfuel.
  - destruct fuel as [|fuel]; [cbn in Hfuel; lia|].
    destruct (poll_status_step fuel stat s _ _ Hs H) as (tl & Hstep & Hc).
    exists tl. split; [|exact Hc].
    rewrite Hstep. cbn [next_stat]. now apply poll_status_filled.
  - destruct fuel as [|fuel]; [cbn in Hfuel; lia|].
    cbn [app] in H.
    destruct (poll_status_step fuel stat s _ _ Hs H) as (tl1 & Hstep & Hc1).
    destruct (IH fuel (next_stat stat r)
                {| trace := (trace s ++ tl1)%list;
                   env := set_orders (pre ++ Ok filled :: rest) (env s) |})
      as (tl2 & Hrun & Hc2);
      [now apply next_stat_keeps|exact Hf|reflexivity|cbn in Hfuel; lia|].
    exists (tl1 ++ tl2)%list. split.
    + rewrite Hstep, Hrun. cbn [trace env]. now rewrite <- app_assoc.
    + rewrite count_app, Hc1, Hc2. reflexivity.
Qed.

(** While no FILLED record arrives the second loop does not return. *)
Lemma poll_status_pending (script : list (result order_stat))
      (fuel : nat) (stat : order_stat) (s : State Exchange) :
  Forall keeps_polling script ->
  status stat <> "FILLED" ->
  orders (env s) = script ->
  exists s', poll_status fuel sym order_id stat s = (Pending, s').
Proof.
  intros Hsc. revert fuel stat s.
  induction Hsc as [|r script Hr Hsc IH]; intros fuel stat s Hs H.
  - exists s. now apply poll_status_empty.
  - destruct fuel as [|fuel].
    + exists s. cbn [poll_status]. apply String.eqb_neq in Hs.
      now rewrite Hs.
    + destruct (poll_status_step fuel stat s _ _ Hs H) as (tl & -> & _).
      apply IH; [now apply next_stat_keeps|reflexivity].
Qed.

(** What the second loop returns is a FILLED record. *)
Lemma poll_status_returns_filled (fuel : nat) (stat st : order_stat)
      (s s' : State Exchange) :
  poll_status fuel sym order_id stat s = (Returned st, s') ->
  status st = "FILLED".
Proof.
  revert stat s. induction fuel as [|fuel IH]; intros stat s H.
  - cbn [poll_status] in H.
    destruct (String.eqb_spec (status stat) "FILLED") as [E|E];
      cbn [negb] in H; [|discriminate].
    inversion H; now subst.
  - destruct (String.eqb_spec (status stat) "FILLED") as [E|E].
    + rewrite poll_status_filled in H by exact E. inversion H; now subst.
    + destruct (orders (env s)) as [|r rest] eqn:Ho.
      * rewrite poll_status_empty in H by assumption. discriminate.
      * destruct (poll_status_step fuel stat s _ _ E Ho) as (tl & Hstep & _).
        rewrite Hstep in H. now apply IH in H.
Qed.

Lemma poll_status_no_raise (fuel : nat) (stat : order_stat)
      (s s' : State Exchange) (e : exn) :
  poll_status fuel sym order_id stat s <> (Raised e, s').
Proof.
  revert stat s. induction fuel as [|fuel IH]; intros stat s.
  - cbn [poll_status]. destruct (negb _); discriminate.
  - destruct (String.eqb_spec (status stat) "FILLED") as [E|E].
    + rewrite poll_status_filled by exact E. discriminate.
    + destruct (orders (env s)) as [|r rest] eqn:Ho.
      * rewrite poll_status_empty by assumption. discriminate.
      * destruct (poll_status_step fuel stat s _ _ E Ho) as (tl & -> & _).
        apply IH.
Qed.

End PollFacts.

Section WaitForOrder.

Context {PF : PyFloat}.
Variables (alt_symbol crypto_symbol : string) (order_id : Z).

Lemma leading_errors {A} (l : list (result A)) :
  exists es l',
    l = (map Raise es ++ l')%list
    /\ (l' = [] \/ exists a l'', l' = Ok a :: l'').
Proof.
  induction l as [|[a|e] l IH].
  - exists [], []. split; [reflexivity|now left].
  - exists [], (Ok a :: l). split; [reflexivity|right; eauto].
  - destruct IH as (es & l' & -> & Hl').
    exists (e :: es), l'. split; [reflexivity|exact Hl'].
Qed.

Lemma wait_for_order_unfold (s : State Exchange) :
  wait_for_order alt_symbol crypto_symbol order_id s
  = match initial_status (S (List.length (orders (env s))))
            (alt_symbol ++ crypto_symbol) order_id s with
    | (Returned stat, s1) =>
        poll_status (S (List.length (orders (env s1))))
          (alt_symbol ++ crypto_symbol) order_id stat
          {| trace := (trace s1 ++ [Log (Stat stat)])%list; env := env s1 |}
    | (Raised e, s1) => (Raised e, s1)
    | (Pending, s1) => (Pending, s1)
    end.
Proof.
  unfold wait_for_order, unbounded, bind at 1.
  destruct (initial_status _ _ _ s) as [[stat|e|] s1]; reflexivity.
Qed.

(** [wait_for_order] returns the first FILLED record of the script, after
    one fetch per response up to it. *)
Lemma wait_for_order_run (pre : list (result order_stat))
      (filled : order_stat) (rest : list (result order_stat))
      (s : State Exchange) :
  Forall keeps_polling pre ->
  status filled = "FILLED" ->
  orders (env s) = (pre ++ Ok filled :: rest)%list ->
  exists tl,
    wait_for_order alt_symbol crypto_symbol order_id s
    = (Returned filled,
       {| trace := (trace s ++ tl)%list; env := set_orders rest (env s) |})
    /\ count is_fetch tl = S (List.length pre).
Proof.
  intros Hpre Hf H. rewrite wait_for_order_unfold.
  destruct (leading_errors pre) as (es & l' & -> & [->|(st & pre2 & ->)]).
  - rewrite app_nil_r in H.
    destruct (initial_status_run (alt_symbol ++ crypto_symbol) order_id
                es filled rest (S (List.length (orders (env s)))) s H)
      as (tl & -> & Hc).
    { rewrite H, length_app, length_map. lia. }
    exists (tl ++ [Log (Stat filled)])%list. split.
    + rewrite poll_status_filled by exact Hf. cbn [trace env].
      now rewrite <- app_assoc.
    + rewrite count_app, Hc, app_nil_r, length_map. cbn. lia.
  - rewrite <- app_assoc in H. cbn [app] in H.
    apply Forall_app in Hpre. destruct Hpre as [_ Hpre].
    inversion Hpre as [|? ? Hst Hpre2]; subst.
    destruct (initial_status_run (alt_symbol ++ crypto_symbol) order_id
                es st (pre2 ++ Ok filled :: rest)
                (S (List.length (orders (env s)))) s H)
      as (tl1 & -> & Hc1).
    { rewrite H, length_app, length_map. lia. }
    cbn [trace env].
    destruct (poll_status_run (alt_symbol ++ crypto_symbol) order_id
                pre2 filled rest
                (S (List.length (orders (set_orders (pre2 ++ Ok filled :: rest)
                                                    (env s)))))
                st
                {| trace := ((trace s ++ tl1) ++ [Log (Stat st)])%list;
                   env := set_orders (pre2 ++ Ok filled :: rest) (env s) |}
                Hpre2 Hst Hf eq_refl)
      as (tl2 & -> & Hc2).
    { cbn [orders set_orders]. rewrite length_app. lia. }
    exists (tl1 ++ Log (Stat st) :: tl2)%list. split.
    + cbn [trace env]. repeat rewrite <- app_assoc. reflexivity.
    + rewrite count_app, Hc1. change (Log (Stat st) :: tl2)
        with ([Log (Stat st)] ++ tl2)%list.
      rewrite count_app, Hc2, length_app, length_map. cbn. lia.
Qed.

(** On responses that all keep it polling, [wait_for_order] has not
    returned when the script ends. *)
Lemma wait_for_order_pending (script : list (result order_stat))
      (s : State Exchange) :
  Forall keeps_polling script ->
  orders (env s) = script ->
  exists s', wait_for_order alt_symbol crypto_symbol order_id s
             = (Pending, s').
Proof.
  intros Hsc H. rewrite wait_for_order_unfold.
  destruct (leading_errors script)
    as (es & l' & -> & [->|(st & pre2 & ->)]).
  - rewrite app_nil_r in H.
    destruct (initial_status_pending (alt_symbol ++ crypto_symbol) order_id
                es (S (List.length (orders (env s)))) s H) as (s1 & ->).
    now exists s1.
  - apply Forall_app in Hsc. destruct Hsc as [_ Hsc].
    inversion Hsc as [|? ? Hst Hpre2]; subst.
    destruct (initial_status_run (alt_symbol ++ crypto_symbol) order_id
                es st pre2 (S (List.length (orders (env s)))) s H)
      as (tl1 & -> & _).
    { rewrite H, length_app, length_map. lia. }
    eapply poll_status_pending; [exact Hpre2|exact Hst|reflexivity].
Qed.

Lemma wait_for_order_returns_filled (stat : order_stat)
      (s s' : State Exchange) :
  wait_for_order alt_symbol crypto_symbol order_id s = (Returned stat, s') ->
  status stat = "FILLED".
Proof.
  rewrite wait_for_order_unfold.
  destruct (initial_status _ _ _ s) as [[st|e|] s1]; try discriminate.
  apply poll_status_returns_filled.
Qed.

Lemma wait_for_order_no_raise (s s' : State Exchange) (e : exn) :
  wait_for_order alt_symbol crypto_symbol order_id s <> (Raised e, s').
Proof.
  rewrite wait_for_order_unfold.
  destruct (initial_status _ _ _ s) as [[st|e0|] s1] eqn:Hi.
  - apply poll_status_no_raise.
  - now apply initial_status_no_raise in Hi.
  - discriminate.
Qed.

End WaitForOrder.

(** ** The balance confirmation of the sell path *)

Section ConfirmFacts.

Context {PF : PyFloat}.

Lemma get_currency_balance_next (sym : string) (s : State Exchange)
      (acct : list balance_entry)
      (rest : list (result (list balance_entry))) :
  account (env s) = Ok acct :: rest ->
  get_currency_balance sym s
  = (Returned (balance_of sym acct),
     {| trace := (trace s ++ [Request GetAccount])%list;
        env := set_account rest (env s) |}).
Proof.
  intros H. unfold get_currency_balance, bind, get_account, client_call.
  now rewrite H.
Qed.

Lemma get_currency_balance_raise (sym : string) (s : State Exchange)
      (e : exn) (rest : list (result (list balance_entry))) :
  account (env s) = Raise e :: rest ->
  get_currency_balance sym s
  = (Raised e,
     {| trace := (trace s ++ [Request GetAccount])%list;
        env := set_account rest (env s) |}).
Proof.
  intros H. unfold get_currency_balance, bind, get_account, client_call.
  now rewrite H.
Qed.

Lemma get_currency_balance_none (sym : string) (s : State Exchange) :
  account (env s) = [] -> get_currency_balance sym s = (Pending, s).
Proof.
  intros H. unfold get_currency_balance, bind, get_account, client_call.
  now rewrite H.
Qed.

Variable alt_symbol : string.
Variable b : flt.

Lemma confirm_balance_exit (fuel : nat) (v : flt) (s : State Exchange) :
  fge v b = false ->
  confirm_balance fuel alt_symbol (Some b) (Some v) s = (Returned tt, s).
Proof.
  intros H. destruct fuel; cbn [confirm_balance];
    unfold bind, balance_ge; cbn; now rewrite H.
Qed.

Lemma confirm_balance_again (fuel : nat) (v : flt) (s : State Exchange) :
  fge v b = true ->
  confirm_balance (S fuel) alt_symbol (Some b) (Some v) s
  = match get_currency_balance alt_symbol s with
    | (Returned nb, s1) => confirm_balance fuel alt_symbol (Some b) nb s1
    | (Raised e, s1) => (Raised e, s1)
    | (Pending, s1) => (Pending, s1)
    end.
Proof.
  intros H. cbn [confirm_balance]. unfold bind at 1, balance_ge.
  cbn. rewrite H. reflexivity.
Qed.

Lemma confirm_balance_none (fuel : nat) (s : State Exchange) :
  confirm_balance fuel alt_symbol (Some b) None s = (Raised TypeError, s).
Proof. destruct fuel; reflexivity. Qed.

(** The loop fetches once per balance that holds, and ends on the first
    one that dropped; it sends nothing but balance fetches. *)
Lemma confirm_balance_run (pre : list (result (list balance_entry)))
      (last : list balance_entry)
      (rest : list (result (list balance_entry)))
      (fuel : nat) (v : flt) (s : State Exchange) :
  Forall (balance_holds alt_symbol b) pre ->
  balance_dropped alt_symbol b last ->
  fge v b = true ->
  account (env s) = (pre ++ Ok last :: rest)%list ->
  (List.length pre < fuel)%nat ->
  confirm_balance fuel alt_symbol (Some b) (Some v) s
  = (Returned tt,
     {| trace := (trace s ++ repeat (Request GetAccount)
                                    (S (List.length pre)))%list;
        env := set_account rest (env s) |}).
Proof.
  intros Hpre (vl & Hl & Hvl). revert fuel v s.
  induction Hpre as [|r pre (acct & w & -> & Hw & Hge) Hpre IH];
    intros fuel v s Hv H Hfuel.
  - destruct fuel as [|fuel]; [cbn in Hfuel; lia|].
    rewrite confirm_balance_again by exact Hv.
    rewrite (get_currency_balance_next _ _ last rest) by exact H.
    rewrite Hl. now apply confirm_balance_exit.
  - destruct fuel as [|fuel]; [cbn in Hfuel; lia|].
    rewrite confirm_balance_again by exact Hv.
    cbn [app] in H.
    rewrite (get_currency_balance_next _ _ acct _) by exact H.
    rewrite Hw.
    rewrite (IH fuel w) by (try assumption; try reflexivity; cbn in Hfuel; lia).
    cbn [trace env List.length repeat].
    rewrite <- app_assoc. reflexivity.
Qed.

Lemma confirm_sold_unfold (s : State Exchange) :
  confirm_sold alt_symbol (Some b) s
  = match get_currency_balance alt_symbol s with
    | (Returned nb, s1) =>
        confirm_balance (S (List.length (account (env s1))))
                        alt_symbol (Some b) nb s1
    | (Raised e, s1) => (Raised e, s1)
    | (Pending, s1) => (Pending, s1)
    end.
Proof. reflexivity. Qed.

Lemma confirm_sold_run (pre : list (result (list balance_entry)))
      (last : list balance_entry)
      (rest : list (result (list balance_entry))) (s : State Exchange) :
  Forall (balance_holds alt_symbol b) pre ->
  balance_dropped alt_symbol b last ->
  account (env s) = (pre ++ Ok last :: rest)%list ->
  confirm_sold alt_symbol (Some b) s
  = (Returned tt,
     {| trace := (trace s ++ repeat (Request GetAccount)
                                    (S (List.length pre)))%list;
        env := set_account rest (env s) |}).
Proof.
  intros Hpre Hlast H. rewrite confirm_sold_unfold.
  destruct Hpre as [|r pre (acct & w & -> & Hw & Hge) Hpre].
  - cbn [app] in H.
    rewrite (get_currency_balance_next _ _ last rest) by exact H.
    destruct Hlast as (vl & -> & Hvl).
    now apply confirm_balance_exit.
  - cbn [app] in H.
    rewrite (get_currency_balance_next _ _ acct _) by exact H.
    rewrite Hw.
    rewrite (confirm_balance_run pre last rest)
      by (try assumption; try reflexivity;
          cbn [env account set_account]; rewrite length_app; cbn; lia).
    cbn [trace env List.length repeat].
    rewrite <- app_assoc. reflexivity.
Qed.

(** If the loop returns, the balances it took held up to the last one,
    which dropped. *)
Lemma confirm_balance_inv (fuel : nat) (nb : option flt)
      (s s' : State Exchange) :
  confirm_balance fuel alt_symbol (Some b) nb s = (Returned tt, s') ->
  exists v, nb = Some v /\
    ((fge v b = false /\ s' = s)
     \/ (fge v b = true /\
         exists pre last rest,
           account (env s) = (pre ++ Ok last :: rest)%list
           /\ Forall (balance_holds alt_symbol b) pre
           /\ balance_dropped alt_symbol b last
           /\ account (env s') = rest)).
Proof.
  revert nb s. induction fuel as [|fuel IH]; intros nb s H.
  - destruct nb as [v|]; [|discriminate]. exists v. split; [reflexivity|].
    cbn [confirm_balance] in H. unfold bind, balance_ge in H. cbn in H.
    destruct (fge v b) eqn:Hv; [discriminate|].
    left. inversion H. now split.
  - destruct nb as [v|];
      [|rewrite confirm_balance_none in H; discriminate].
    exists v. split; [reflexivity|].
    destruct (fge v b) eqn:Hv.
    + right. split; [reflexivity|].
      rewrite confirm_balance_again in H by exact Hv.
      destruct (account (env s)) as [|[acct|e] l] eqn:Ha.
      * rewrite get_currency_balance_none in H by exact Ha. discriminate.
      * rewrite (get_currency_balance_next _ _ acct l) in H by exact Ha.
        apply IH in H. destruct H as (w & Hw & [[Hd ->]|[Hh Hrest]]).
        -- exists [], acct, l. repeat split; try constructor.
           exists w. now split.
        -- destruct Hrest as (pre & last & rest & Hacc & Hpre & Hlast & Hr).
           cbn [env account set_account] in Hacc. subst l.
           exists (Ok acct :: pre), last, rest. repeat split; try assumption.
           constructor; [|exact Hpre]. now exists acct, w.
      * rewrite (get_currency_balance_raise _ _ e l) in H by exact Ha.
        discriminate.
    + left. rewrite confirm_balance_exit in H by exact Hv.
      inversion H. now split.
Qed.

Lemma confirm_sold_inv (s s' : State Exchange) :
  confirm_sold alt_symbol (Some b) s = (Returned tt, s') ->
  exists pre last rest,
    account (env s) = (pre ++ Ok last :: rest)%list
    /\ Forall (balance_holds alt_symbol b) pre
    /\ balance_dropped alt_symbol b last
    /\ account (env s') = rest.
Proof.
  rewrite confirm_sold_unfold. intros H.
  destruct (account (env s)) as [|[acct|e] l] eqn:Ha.
  - rewrite get_currency_balance_none in H by exact Ha. discriminate.
  - rewrite (get_currency_balance_next _ _ acct l) in H by exact Ha.
    apply confirm_balance_inv in H.
    destruct H as (w & Hw & [[Hd ->]|[Hh Hrest]]).
    + exists [], acct, l. repeat split; try constructor.
      exists w. now split.
    + destruct Hrest as (pre & last & rest & Hacc & Hpre & Hlast & Hr).
      cbn [env account set_account] in Hacc. subst l.
      exists (Ok acct :: pre), last, rest. repeat split; try assumption.
      constructor; [|exact Hpre]. now exists acct, w.
  - rewrite (get_currency_balance_raise _ _ e l) in H by exact Ha.
    discriminate.
Qed.

End ConfirmFacts.

(** ** Quantities in exact arithmetic *)

Section ExactQuantities.

Local Open Scope Q_scope.

Lemma Qpow10_pos (t : Z) : 0 < Qpow10 t.
Proof. apply Qpower_0_lt. reflexivity. Qed.

Lemma Qpow10_nonzero (t : Z) : Qeq_bool (Qpow10 t) 0 = false.
Proof.
  destruct (Qeq_bool (Qpow10 t) 0) eqn:H; [|reflexivity].
  apply Qeq_bool_eq in H. pose proof (Qpow10_pos t) as Hp.
  rewrite H in Hp. discriminate.
Qed.

(** The quantity the source's expression denotes when nothing is
    rounded. *)
Lemma sell_quantity_exact (t : Z) (b : Q) :
  @sell_quantity_at exact t (Some b)
  = Ok (inject_Z (Qfloor (b * Qpow10 t)) / Qpow10 t).
Proof.
  unfold sell_quantity_at. cbn. unfold Qdiv_py.
  now rewrite Qpow10_nonzero.
Qed.



(** Truncation at the tick never rounds up. *)
Lemma floor_at_tick_le (t : Z) (x : Q) :
  inject_Z (Qfloor (x * Qpow10 t)) / Qpow10 t <= x.
Proof.
  apply Qle_shift_div_r; [apply Qpow10_pos|apply Qfloor_le].
Qed.

Lemma floor_at_tick_nonneg (t : Z) (x : Q) :
  0 <= x -> 0 <= inject_Z (Qfloor (x * Qpow10 t)) / Qpow10 t.
Proof.
  intros Hx. apply Qle_shift_div_l; [apply Qpow10_pos|].
  rewrite Qmult_0_l.
  assert (H : 0 <= x * Qpow10 t).
  { apply Qmult_le_0_compat; [exact Hx|apply Qlt_le_weak, Qpow10_pos]. }
  apply Qfloor_resp_le in H. change (Qfloor 0) with 0%Z in H.
  change 0 with (inject_Z 0). now rewrite <- Zle_Qle.
Qed.

Lemma floor_at_tick_multiple (t : Z) (x : Q) :
  inject_Z (Qfloor (x * Qpow10 t)) / Qpow10 t
  == inject_Z (Qfloor (x * Qpow10 t)) * Qpow10 (- t).
Proof. unfold Qdiv, Qpow10. now rewrite Qpower_opp. Qed.

(** [sell_quantity] in exact arithmetic: floor(b * 10^t) / 10^t, which is
    at most [b] and, for [b >= 0], a non-negative integer times 10^-t. *)
Lemma sell_quantity_exact_contract (t : Z) (b : Q) :
  0 <= b ->
  exists q : Q,
    @sell_quantity_at exact t (Some b) = Ok q
    /\ q == inject_Z (Qfloor (b * Qpow10 t)) / Qpow10 t
    /\ q <= b
    /\ 0 <= q
    /\ exists n : Z, (0 <= n)%Z /\ q == inject_Z n * Qpow10 (- t).
Proof.
  intros Hb. exists (inject_Z (Qfloor (b * Qpow10 t)) / Qpow10 t).
  repeat split.
  - apply sell_quantity_exact.
  - apply floor_at_tick_le.
  - now apply floor_at_tick_nonneg.
  - exists (Qfloor (b * Qpow10 t)). split; [|apply floor_at_tick_multiple].
    change 0%Z with (Qfloor 0). apply Qfloor_resp_le.
    apply Qmult_le_0_compat; [exact Hb|apply Qlt_le_weak, Qpow10_pos].
Qed.



End ExactQuantities.

(** ** Quantities in binary64 *)

Section ExactOrder.

Local Open Scope Q_scope.



End ExactOrder.

(** ** The sell and buy paths *)

Section PathFacts.

Context {PF : PyFloat}.

Lemma value_never_none {E A} (op : M E A) (s s' : State E) :
  value op s <> (Returned None, s').
Proof.
  unfold value, bind, ret. destruct (op s) as [[a|e|] s1]; discriminate.
Qed.

Lemma value_raised {E A} (op : M E A) (s s' : State E) (e : exn) :
  op s = (Raised e, s') -> value op s = (Raised e, s').
Proof. intros H. unfold value. now apply bind_raised. Qed.

Lemma emit_then {E A} (ev : event) (k : M E A) (s : State E) :
  (emit ev ;; k) s
  = k {| trace := (trace s ++ [ev])%list; env := env s |}.
Proof. reflexivity. Qed.

Variables alt crypto : Coin.





End PathFacts.

(** [retry] on an operation that never returns None: None comes back
    exactly when 20 attempts in a row raised. *)
Lemma retry_none_iff {PF : PyFloat} {E V : Type} (func : M E (option V)) :
  (forall s s', func s <> (Returned None, s')) ->
  forall s s',
    retry func s = (Returned None, s')
    <-> failed_attempts func 0 20 (slept 1 s) s'.
Proof.
  intros Hnone s s'. split.
  - rewrite retry_unfold. intros H.
    apply retry_loop_inv in H; [|lia|lia].
    destruct H as [[H _]|(k & s1 & _ & _ & Hf & _)]; [exact H|].
    now apply Hnone in Hf.
  - intros H. rewrite retry_unfold. apply retry_loop_exhausted; [exact H|lia].
Qed.

Section PathErrors.

Context {PF : PyFloat}.

Lemma get_market_ticker_price_next (sym : string) (s : State Exchange)
      (tickers : list ticker_entry)
      (rest : list (result (list ticker_entry))) :
  symbol_tickers (env s) = Ok tickers :: rest ->
  get_market_ticker_price sym s
  = (Returned (price_of sym tickers),
     {| trace := (trace s ++ [Request GetSymbolTicker])%list;
        env := set_symbol_tickers rest (env s) |}).
Proof.
  intros H.
  unfold get_market_ticker_price, bind, get_symbol_ticker, client_call.
  now rewrite H.
Qed.

Lemma get_alt_tick_next (alt_symbol crypto_symbol : string)
      (s : State Exchange) (filters : list symbol_filter)
      (f : symbol_filter)
      (rest : list (result (option (list symbol_filter)))) :
  symbol_info (env s) = Ok (Some filters) :: rest ->
  List.find (fun f => filterType f =? "LOT_SIZE") filters = Some f ->
  get_alt_tick alt_symbol crypto_symbol s
  = (Returned (tick_of_step_size (stepSize f)),
     {| trace := (trace s
                  ++ [Request (GetSymbolInfo (alt_symbol ++ crypto_symbol))])%list;
        env := set_symbol_info rest (env s) |}).
Proof.
  intros H Hf.
  unfold get_alt_tick, get_symbol_filter, bind, get_symbol_info, client_call.
  rewrite H. cbn. now rewrite Hf.
Qed.

Lemma sell_quantity_at_none (t : Z) :
  sell_quantity_at t None = Raise TypeError.
Proof. reflexivity. Qed.

Lemma buy_quantity_at_none (t : Z) (p : option flt) :
  buy_quantity_at t None p = Raise TypeError.
Proof. reflexivity. Qed.

Lemma balance_ge_none (y : option flt) :
  balance_ge None y = Raise TypeError.
Proof. reflexivity. Qed.

Variables alt crypto : Coin.





End PathErrors.

(** ** The fuel of the unbounded loops

    A loop run by [unbounded] is pending only because a script of the
    exchange is used up, never because its fuel is. *)

Section FuelFacts.

Context {PF : PyFloat}.

Lemma initial_status_waits (sym : string) (order_id : Z) (fuel : nat)
      (s s' : State Exchange) :
  (List.length (orders (env s)) < fuel)%nat ->
  initial_status fuel sym order_id s = (Pending, s') ->
  orders (env s') = [].
Proof.
  revert s. induction fuel as [|fuel IH]; intros s Hfuel H; [lia|].
  destruct (orders (env s)) as [|[stat|e] rest] eqn:Ho.
  - cbn [initial_status] in H. unfold try_catch in H.
    rewrite sleep_then, get_order_none in H by exact Ho.
    inversion H; subst. exact Ho.
  - rewrite (initial_status_ok sym order_id fuel s stat rest Ho) in H.
    discriminate.
  - destruct (initial_status_raise sym order_id fuel s e rest Ho)
      as (tl & Hstep & _).
    rewrite Hstep in H. apply IH in H; [exact H|].
    cbn [env orders set_orders]. cbn in Hfuel. lia.
Qed.

Lemma poll_status_waits (sym : string) (order_id : Z) (fuel : nat)
      (stat : order_stat) (s s' : State Exchange) :
  (List.length (orders (env s)) < fuel)%nat ->
  poll_status fuel sym order_id stat s = (Pending, s') ->
  orders (env s') = [].
Proof.
  revert stat s. induction fuel as [|fuel IH]; intros stat s Hfuel H; [lia|].
  destruct (String.eqb_spec (status stat) "FILLED") as [E|E].
  - rewrite poll_status_filled in H by exact E. discriminate.
  - destruct (orders (env s)) as [|r rest] eqn:Ho.
    + rewrite poll_status_empty in H by assumption.
      inversion H; subst. exact Ho.
    + destruct (poll_status_step sym order_id fuel stat s r rest E Ho)
        as (tl & Hstep & _).
      rewrite Hstep in H. apply IH in H; [exact H|].
      cbn [env orders set_orders]. cbn in Hfuel. lia.
Qed.

Lemma wait_for_order_waits (alt_symbol crypto_symbol : string)
      (order_id : Z) (s s' : State Exchange) :
  wait_for_order alt_symbol crypto_symbol order_id s = (Pending, s') ->
  orders (env s') = [].
Proof.
  rewrite wait_for_order_unfold.
  destruct (initial_status _ _ _ s) as [[stat|e|] s1] eqn:Hi.
  - apply poll_status_waits. cbn [env]. lia.
  - discriminate.
  - intros H. inversion H; subst.
    eapply initial_status_waits; [|exact Hi]. lia.
Qed.

Lemma submit_market_sell_waits (fuel : nat) (sym : string) (q : flt)
      (s s' : State Exchange) :
  (List.length (market_sells (env s)) < fuel)%nat ->
  submit_market_sell fuel sym q s = (Pending, s') ->
  market_sells (env s') = [].
Proof.
  revert s. induction fuel as [|fuel IH]; intros s Hfuel H; [lia|].
  cbn [submit_market_sell] in H.
  unfold bind, order_market_sell, client_call in H.
  destruct (market_sells (env s)) as [|[[o|]|e] rest] eqn:Hm;
    cbn in H; try discriminate.
  - inversion H; subst. exact Hm.
  - apply IH in H; [exact H|]. cbn in Hfuel |- *. lia.
Qed.

Lemma confirm_balance_waits (fuel : nat) (alt_symbol : string)
      (alt_balance new_balance : option flt) (s s' : State Exchange) :
  (List.length (account (env s)) < fuel)%nat ->
  confirm_balance fuel alt_symbol alt_balance new_balance s = (Pending, s') ->
  account (env s') = [].
Proof.
  revert new_balance s.
  induction fuel as [|fuel IH]; intros new_balance s Hfuel H; [lia|].
  cbn [confirm_balance] in H. unfold bind at 1 in H.
  destruct (balance_ge new_balance alt_balance) as [[|]|e]; cbn in H;
    try discriminate.
  unfold bind, get_currency_balance, bind, get_account, client_call in H.
  destruct (account (env s)) as [|[acct|e] rest] eqn:Ha; cbn in H;
    try discriminate.
  - inversion H; subst. exact Ha.
  - apply IH in H; [exact H|]. cbn in Hfuel |- *. lia.
Qed.

Lemma submit_limit_buy_waits (fuel : nat) (sym : string) (q : flt)
      (s s' : State Exchange) :
  (List.length (symbol_tickers (env s)) < fuel)%nat ->
  submit_limit_buy fuel sym q s = (Pending, s') ->
  symbol_tickers (env s') = [] \/ limit_buys (env s') = [].
Proof.
  revert s. induction fuel as [|fuel IH]; intros s Hfuel H; [lia|].
  cbn [submit_limit_buy] in H.
  unfold bind at 1, try_catch, get_market_ticker_price in H.
  unfold bind at 1 2, get_symbol_ticker, client_call in H.
  destruct (symbol_tickers (env s)) as [|[tickers|e] rest] eqn:Ht; cbn in H.
  - inversion H; subst. now left.
  - unfold bind at 1, order_limit_buy, client_call in H. cbn in H.
    destruct (limit_buys (env s)) as [|[[o|]|e] rest_b] eqn:Hb; cbn in H.
    + inversion H; subst. now right.
    + discriminate.
    + apply IH in H; [exact H|]. cbn in Hfuel |- *. lia.
    + destruct e; cbn in H;
        (apply IH in H; [exact H|]; cbn in Hfuel |- *; lia).
  - destruct e; cbn in H;
      (apply IH in H; [exact H|]; cbn in Hfuel |- *; lia).
Qed.

End FuelFacts.

(** ** Comparing doubles *)

Section Binary64Order.

Lemma SFcompare_antisym (x y : spec_float) :
  SFcompare y x = option_map CompOpp (SFcompare x y).
Proof.
  destruct x as [sx|sx| |sx mx ex], y as [sy|sy| |sy my ey]; cbn;
    try reflexivity;
    try (destruct sx; reflexivity);
    try (destruct sy; reflexivity);
    try (destruct sx, sy; reflexivity).
  assert (Hm : Pos.compare_cont Eq my mx
               = CompOpp (Pos.compare_cont Eq mx my))
    by (symmetry; apply (Pos.compare_cont_antisym mx my Eq)).
  destruct sx, sy; cbn; try reflexivity.
  - rewrite (Z.compare_antisym ex ey), Hm.
    destruct (ex ?= ey)%Z; reflexivity.
  - rewrite (Z.compare_antisym ex ey), Hm.
    destruct (ex ?= ey)%Z; reflexivity.
Qed.

Lemma Prim2SF_not_nan (x : float) :
  PrimFloat.is_nan x = false -> Prim2SF x <> S754_nan.
Proof.
  intros H. unfold Prim2SF. rewrite H.
  destruct (PrimFloat.is_zero x); [discriminate|].
  destruct (PrimFloat.is_infinity x); [discriminate|].
  destruct (Z.frexp x) as [r e].
  destruct (shr_fexp prec emax _ _ _) as [sh e'].
  destruct (shr_m sh); discriminate.
Qed.

(** For doubles that are not NaN, [v >= b] is false exactly when
    [v < b]. *)
Lemma binary64_fge_false (v b : float) :
  PrimFloat.is_nan v = false ->
  PrimFloat.is_nan b = false ->
  @fge binary64 v b = false <-> PrimFloat.ltb v b = true.
Proof.
  intros Hv Hb. cbn. unfold Binary64.ge.
  rewrite leb_spec, ltb_spec. unfold SFleb, SFltb.
  rewrite (SFcompare_antisym (Prim2SF v) (Prim2SF b)).
  apply Prim2SF_not_nan in Hv. apply Prim2SF_not_nan in Hb.
  destruct (SFcompare (Prim2SF v) (Prim2SF b)) as [[| |]|] eqn:E; cbn;
    try (split; congruence).
  destruct (Prim2SF v) as [| | |? ? ?], (Prim2SF b) as [| | |? ? ?];
    cbn in E; try discriminate; congruence.
Qed.

(** The balance confirmation on doubles: with no NaN among the pre-sell
    balance and the balance that ends it, it exits at the first fetched
    balance strictly below the pre-sell balance. *)
Lemma confirm_sold_run_binary64 (alt_symbol : string) (b v : float)
      (pre : list (result (list (@balance_entry binary64))))
      (last : list (@balance_entry binary64))
      (rest : list (result (list (@balance_entry binary64))))
      (s : @State binary64 (@Exchange binary64)) :
  PrimFloat.is_nan b = false ->
  PrimFloat.is_nan v = false ->
  Forall (fun r => exists acct (w : float),
              r = Ok acct
              /\ @balance_of binary64 alt_symbol acct = Some w
              /\ PrimFloat.leb b w = true) pre ->
  @balance_of binary64 alt_symbol last = Some v ->
  PrimFloat.ltb v b = true ->
  account (env s) = (pre ++ Ok last :: rest)%list ->
  @confirm_sold binary64 alt_symbol (Some b) s
  = (Returned tt,
     {| trace := (trace s ++ repeat (Request GetAccount)
                                    (S (List.length pre)))%list;
        env := set_account rest (env s) |}).
Proof.
  intros Hb Hv Hpre Hlast Hlt H.
  apply (@confirm_sold_run binary64 alt_symbol b pre last rest s);
    [exact Hpre| |exact H].
  exists v. split; [exact Hlast|].
  now apply binary64_fge_false.
Qed.

End Binary64Order.

(** * Further lemmas *)

(** ** Lookups in the responses of the client *)

Section LookupFacts.

Context {PF : PyFloat}.

Lemma balance_of_none (sym : string) (acct : list balance_entry) :
  balance_of sym acct = None <-> Forall (fun e => asset e <> sym) acct.
Proof.
  induction acct as [|e acct IH]; cbn [balance_of].
  - split; [constructor|reflexivity].
  - destruct (String.eqb_spec (asset e) sym) as [E|E].
    + split; [discriminate|]. intros H. inversion H; subst. contradiction.
    + rewrite IH. split.
      * intros H. now constructor.
      * intros H. now inversion H.
Qed.

Lemma balance_of_first (sym : string) (pre : list balance_entry)
      (e : balance_entry) (post : list balance_entry) :
  Forall (fun x => asset x <> sym) pre ->
  asset e = sym ->
  balance_of sym (pre ++ e :: post) = Some (free e).
Proof.
  intros Hpre He. induction Hpre as [|x pre Hx Hpre IH]; cbn [app balance_of].
  - apply String.eqb_eq in He. now rewrite He.
  - apply String.eqb_neq in Hx. now rewrite Hx.
Qed.

Lemma price_of_none (sym : string) (tickers : list ticker_entry) :
  price_of sym tickers = None
  <-> Forall (fun t => ticker_symbol t <> sym) tickers.
Proof.
  induction tickers as [|t tickers IH]; cbn [price_of].
  - split; [constructor|reflexivity].
  - destruct (String.eqb_spec (ticker_symbol t) sym) as [E|E].
    + split; [discriminate|]. intros H. inversion H; subst. contradiction.
    + rewrite IH. split.
      * intros H. now constructor.
      * intros H. now inversion H.
Qed.

Lemma price_of_first (sym : string) (pre : list ticker_entry)
      (t : ticker_entry) (post : list ticker_entry) :
  Forall (fun x => ticker_symbol x <> sym) pre ->
  ticker_symbol t = sym ->
  price_of sym (pre ++ t :: post) = Some (price t).
Proof.
  intros Hpre Ht. induction Hpre as [|x pre Hx Hpre IH]; cbn [app price_of].
  - apply String.eqb_eq in Ht. now rewrite Ht.
  - apply String.eqb_neq in Hx. now rewrite Hx.
Qed.

Lemma get_market_ticker_price_raise (sym : string) (s : State Exchange)
      (e : exn) (rest : list (result (list ticker_entry))) :
  symbol_tickers (env s) = Raise e :: rest ->
  get_market_ticker_price sym s
  = (Raised e,
     {| trace := (trace s ++ [Request GetSymbolTicker])%list;
        env := set_symbol_tickers rest (env s) |}).
Proof.
  intros H.
  unfold get_market_ticker_price, bind, get_symbol_ticker, client_call.
  now rewrite H.
Qed.

End LookupFacts.

(** ** What a run leaves unchanged *)

Section PreservesFacts.

Context {PF : PyFloat} {E : Type}.
Variable R : State E -> State E -> Prop.
Hypothesis R_refl : forall s, R s s.
Hypothesis R_trans : forall s1 s2 s3, R s1 s2 -> R s2 s3 -> R s1 s3.

Lemma preserves_ret {A} (a : A) : preserves R (@ret _ E A a).
Proof. intros s r s' H. inversion H; subst. apply R_refl. Qed.

Lemma preserves_raise {A} (e : exn) : preserves R (@raise _ E A e).
Proof. intros s r s' H. inversion H; subst. apply R_refl. Qed.

Lemma preserves_pending {A} : preserves R (@pending _ E A).
Proof. intros s r s' H. inversion H; subst. apply R_refl. Qed.

Lemma preserves_of_result {A} (x : result A) :
  preserves R (@of_result _ E A x).
Proof. destruct x; [apply preserves_ret|apply preserves_raise]. Qed.

Lemma preserves_bind {A C} (m : M E A) (k : A -> M E C) :
  preserves R m -> (forall a, preserves R (k a)) -> preserves R (bind m k).
Proof.
  intros Hm Hk s r s' H. unfold bind in H.
  destruct (m s) as [[a|e|] s1] eqn:Hms.
  - eapply R_trans; [eapply Hm; exact Hms|eapply Hk; exact H].
  - inversion H; subst. eapply Hm; exact Hms.
  - inversion H; subst. eapply Hm; exact Hms.
Qed.

Lemma preserves_try_catch {A} (m : M E A) (h : exn -> M E A) :
  preserves R m -> (forall e, preserves R (h e)) ->
  preserves R (try_catch m h).
Proof.
  intros Hm Hh s r s' H. unfold try_catch in H.
  destruct (m s) as [[a|e|] s1] eqn:Hms.
  - inversion H; subst. eapply Hm; exact Hms.
  - eapply R_trans; [eapply Hm; exact Hms|eapply Hh; exact H].
  - inversion H; subst. eapply Hm; exact Hms.
Qed.

End PreservesFacts.

Section AddsFacts.

Context {PF : PyFloat}.

Lemma adds_refl {E} (P : event -> Prop) (s : State E) : adds P s s.
Proof. exists []. split; [now rewrite app_nil_r|constructor]. Qed.

Lemma adds_trans {E} (P : event -> Prop) (s1 s2 s3 : State E) :
  adds P s1 s2 -> adds P s2 s3 -> adds P s1 s3.
Proof.
  intros (t1 & H1 & F1) (t2 & H2 & F2). exists (t1 ++ t2)%list. split.
  - now rewrite H2, H1, app_assoc.
  - apply Forall_app. now split.
Qed.

Lemma adds_emit {E} (P : event -> Prop) (ev : event) :
  P ev -> preserves (adds P) (@emit _ E ev).
Proof.
  intros Hev s r s' H. inversion H; subst.
  exists [ev]. split; [reflexivity|now constructor].
Qed.

Lemma adds_client_call {X} (P : event -> Prop)
      (get : Exchange -> list (result X))
      (set : list (result X) -> Exchange -> Exchange) (req : request) :
  P (Request req) -> preserves (adds P) (client_call get set req).
Proof.
  intros Hreq s r s' H. unfold client_call in H.
  destruct (get (env s)) as [|x rest].
  - inversion H; subst. apply adds_refl.
  - destruct x as [a|e]; inversion H; subst;
      (exists [Request req]; split; [reflexivity|now constructor]).
Qed.

Lemma adds_weaken {E} (P Q : event -> Prop) (s s' : State E) :
  (forall ev, P ev -> Q ev) -> adds P s s' -> adds Q s s'.
Proof.
  intros HPQ (tl & H & F). exists tl. split; [exact H|].
  eapply Forall_impl; [exact HPQ|exact F].
Qed.

Lemma adds_count_zero {E} (p : event -> bool) (s s' : State E) :
  adds (fun ev => p ev = false) s s' ->
  exists tl, trace s' = (trace s ++ tl)%list /\ count p tl = 0%nat.
Proof.
  intros (tl & H & F). exists tl. split; [exact H|].
  clear H. unfold count. induction F as [|ev tl Hev F IH]; [reflexivity|].
  cbn. rewrite Hev. exact IH.
Qed.

Lemma orders_only_refl (s : State Exchange) : orders_only s s.
Proof. repeat split. Qed.

Lemma orders_only_trans (s1 s2 s3 : State Exchange) :
  orders_only s1 s2 -> orders_only s2 s3 -> orders_only s1 s3.
Proof.
  intros (A1 & B1 & C1 & D1 & F1) (A2 & B2 & C2 & D2 & F2).
  repeat split; congruence.
Qed.

Lemma orders_only_emit (ev : event) :
  preserves orders_only (@emit _ Exchange ev).
Proof. intros s r s' H. inversion H; subst. repeat split. Qed.

Lemma orders_only_get_order (sym : string) (order_id : Z) :
  preserves orders_only (get_order sym order_id).
Proof.
  intros s r s' H. unfold get_order, client_call in H.
  destruct (orders (env s)) as [|x rest].
  - inversion H; subst. apply orders_only_refl.
  - destruct x as [a|e]; inversion H; subst; repeat split.
Qed.

End AddsFacts.

Section UnboundedPreserves.

Context {PF : PyFloat}.

Lemma preserves_unbounded {X A} (R : State Exchange -> State Exchange -> Prop)
      (script : Exchange -> list X) (loop : nat -> B A) :
  (forall fuel, preserves R (loop fuel)) ->
  preserves R (unbounded script loop).
Proof. intros H s r s' Hrun. eapply H. exact Hrun. Qed.

End UnboundedPreserves.

(** ** What the fill tracker does and leaves alone *)

Section WaitPreserves.

Context {PF : PyFloat}.
Variable R : State Exchange -> State Exchange -> Prop.
Hypothesis R_refl : forall s, R s s.
Hypothesis R_trans : forall s1 s2 s3, R s1 s2 -> R s2 s3 -> R s1 s3.
Variables (sym : string) (order_id : Z).
Hypothesis R_sleep : forall secs, preserves R (@sleep _ Exchange secs).
Hypothesis R_log_exn :
  forall e, preserves R (@logger_info _ Exchange (Exn e)).
Hypothesis R_log_unexpected :
  forall e, preserves R (@logger_info _ Exchange (Unexpected e)).
Hypothesis R_get_order : preserves R (get_order sym order_id).

Lemma initial_status_preserves (fuel : nat) :
  preserves R (initial_status fuel sym order_id).
Proof.
  induction fuel as [|fuel IH]; cbn [initial_status].
  - now apply preserves_pending.
  - apply preserves_try_catch; [exact R_trans| |].
    + apply preserves_bind; [exact R_trans|apply R_sleep|].
      intros ?. exact R_get_order.
    + intros e.
      destruct e;
        repeat first
               [ exact IH
               | apply R_log_exn
               | apply R_log_unexpected
               | apply R_sleep
               | apply preserves_bind;
                 [exact R_trans| |intros ?; cbv beta] ].
Qed.

Lemma poll_status_preserves (fuel : nat) (stat : order_stat) :
  preserves R (poll_status fuel sym order_id stat).
Proof.
  revert stat. induction fuel as [|fuel IH]; intros stat;
    cbn [poll_status]; destruct (negb _);
    try (now apply preserves_ret); try (now apply preserves_pending).
  apply preserves_bind; [exact R_trans| |intros st; apply IH].
  apply preserves_try_catch; [exact R_trans| |].
  - repeat first
           [ exact R_get_order
           | apply R_sleep
           | now apply preserves_ret
           | apply preserves_bind;
             [exact R_trans| |intros ?; cbv beta] ].
  - intros e.
    destruct e;
      repeat first
             [ apply R_log_exn
             | apply R_log_unexpected
             | apply R_sleep
             | now apply preserves_ret
             | apply preserves_bind;
               [exact R_trans| |intros ?; cbv beta] ].
Qed.

End WaitPreserves.

Section WaitFootprint.

Context {PF : PyFloat}.
Variables (alt_symbol crypto_symbol : string) (order_id : Z).

Lemma wait_for_order_preserves
      (R : State Exchange -> State Exchange -> Prop) :
  (forall s, R s s) ->
  (forall s1 s2 s3, R s1 s2 -> R s2 s3 -> R s1 s3) ->
  (forall secs, preserves R (@sleep _ Exchange secs)) ->
  (forall e, preserves R (@logger_info _ Exchange (Exn e))) ->
  (forall e, preserves R (@logger_info _ Exchange (Unexpected e))) ->
  (forall stat, preserves R (@logger_info _ Exchange (Stat stat))) ->
  preserves R (get_order (alt_symbol ++ crypto_symbol) order_id) ->
  preserves R (wait_for_order alt_symbol crypto_symbol order_id).
Proof.
  intros Hrefl Htrans Hsleep Hexn Hunx Hlog Hget. unfold wait_for_order.
  apply preserves_bind; [exact Htrans| |].
  - apply preserves_unbounded. intros fuel.
    now apply initial_status_preserves.
  - intros stat. apply preserves_bind; [exact Htrans|apply Hlog|].
    intros ?. apply preserves_unbounded. intros fuel.
    now apply poll_status_preserves.
Qed.

Lemma get_order_tracking (sym : string) :
  preserves (adds (fun ev => is_tracking sym order_id ev = true))
            (get_order sym order_id).
Proof.
  apply adds_client_call. cbn.
  now rewrite String.eqb_refl, Z.eqb_refl.
Qed.

End WaitFootprint.

(** ** The submission loops *)

Section SubmitFacts.

Context {PF : PyFloat}.

Lemma submit_market_sell_run (n : nat) (o : order)
      (rest : list (result (option order))) (fuel : nat) (sym : string)
      (q : flt) (s : State Exchange) :
  market_sells (env s) = (repeat (Ok None) n ++ Ok (Some o) :: rest)%list ->
  (n < fuel)%nat ->
  submit_market_sell fuel sym q s
  = (Returned o,
     {| trace := (trace s
                  ++ repeat (Request (OrderMarketSell sym q)) (S n))%list;
        env := set_market_sells rest (env s) |}).
Proof.
  revert fuel s. induction n as [|n IH]; intros fuel s H Hfuel;
    (destruct fuel as [|fuel]; [lia|]);
    cbn [submit_market_sell]; unfold bind, order_market_sell, client_call;
    rewrite H; cbn [repeat app of_result ret].
  - reflexivity.
  - rewrite (IH fuel) by (try reflexivity; lia).
    cbn [trace env]. f_equal. f_equal.
    rewrite <- app_assoc. reflexivity.
Qed.

Lemma submit_market_sell_run_raise (n : nat) (e : exn)
      (rest : list (result (option order))) (fuel : nat) (sym : string)
      (q : flt) (s : State Exchange) :
  market_sells (env s) = (repeat (Ok None) n ++ Raise e :: rest)%list ->
  (n < fuel)%nat ->
  submit_market_sell fuel sym q s
  = (Raised e,
     {| trace := (trace s
                  ++ repeat (Request (OrderMarketSell sym q)) (S n))%list;
        env := set_market_sells rest (env s) |}).
Proof.
  revert fuel s. induction n as [|n IH]; intros fuel s H Hfuel;
    (destruct fuel as [|fuel]; [lia|]);
    cbn [submit_market_sell]; unfold bind, order_market_sell, client_call;
    rewrite H; cbn [repeat app of_result ret raise].
  - reflexivity.
  - rewrite (IH fuel) by (try reflexivity; lia).
    cbn [trace env]. f_equal. f_equal.
    rewrite <- app_assoc. reflexivity.
Qed.

Lemma accepted_refl {E} (s : State E) : accepted 0 s s.
Proof. exists []. split; [now rewrite app_nil_r|reflexivity]. Qed.

Lemma accepted_trans {E} (n m : nat) (s1 s2 s3 : State E) :
  accepted n s1 s2 -> accepted m s2 s3 -> accepted (n + m) s1 s3.
Proof.
  intros (t1 & H1 & C1) (t2 & H2 & C2). exists (t1 ++ t2)%list. split.
  - now rewrite H2, H1, app_assoc.
  - now rewrite count_app, C1, C2.
Qed.

Lemma accepted_of_adds {E} (s s' : State E) :
  adds (fun ev => is_accepted ev = false) s s' -> accepted 0 s s'.
Proof. apply adds_count_zero. Qed.

Lemma accepted_step {E} (tl : list event) (n : nat) (s s' : State E)
      (x : E) :
  accepted n {| trace := (trace s ++ tl)%list; env := x |} s' ->
  accepted (count is_accepted tl + n) s s'.
Proof.
  intros (t & H & C). cbn [trace] in H. exists (tl ++ t)%list. split.
  - now rewrite H, app_assoc.
  - now rewrite count_app, C.
Qed.

(** What a run of the buy path's submission loop has logged: one accepted
    order when it returns, none when it is pending; it does not raise. *)
Lemma submit_limit_buy_accepts (fuel : nat) (sym : string) (q : flt)
      (s s' : State Exchange) (r : outcome order) :
  submit_limit_buy fuel sym q s = (r, s') ->
  match r with
  | Returned _ => accepted 1 s s'
  | Raised _ => False
  | Pending => accepted 0 s s'
  end.
Proof.
  revert s. induction fuel as [|fuel IH]; intros s H.
  - inversion H; subst. apply accepted_refl.
  - cbn [submit_limit_buy] in H.
    unfold bind at 1, try_catch, get_market_ticker_price in H.
    unfold bind at 1 2, get_symbol_ticker, client_call in H.
    destruct (symbol_tickers (env s)) as [|[tickers|e] rest] eqn:Ht;
      cbn in H.
    + inversion H; subst. apply accepted_refl.
    + unfold bind at 1, order_limit_buy, client_call in H. cbn in H.
      destruct (limit_buys (env s)) as [|[[o|]|e] rest_b] eqn:Hb; cbn in H.
      * inversion H; subst.
        exists [Request GetSymbolTicker]. split; reflexivity.
      * inversion H; subst.
        exists [Request GetSymbolTicker;
                Request (OrderLimitBuy sym q (price_of sym tickers));
                Log (OrderPayload (Some o))].
        split; [|reflexivity]. cbn [trace].
        repeat rewrite <- app_assoc. reflexivity.
      * apply IH in H. repeat rewrite <- app_assoc in H. cbn [app] in H.
        destruct r; try exact H;
          apply accepted_step in H; exact H.
      * destruct e; cbn in H; apply IH in H;
          repeat rewrite <- app_assoc in H; cbn [app] in H;
          (destruct r; try exact H; apply accepted_step in H; exact H).
    + destruct e; cbn in H; apply IH in H;
        repeat rewrite <- app_assoc in H; cbn [app] in H;
        (destruct r; try exact H; apply accepted_step in H; exact H).
Qed.

End SubmitFacts.

(** ** One order per buy *)

Section BuyAccepts.

Context {PF : PyFloat}.

Lemma bind_cases {E A C} (m : M E A) (k : A -> M E C) (s s' : State E)
      (r : outcome C) :
  bind m k s = (r, s') ->
  (exists a s1, m s = (Returned a, s1) /\ k a s1 = (r, s'))
  \/ (exists e, m s = (Raised e, s') /\ r = Raised e)
  \/ (m s = (Pending, s') /\ r = Pending).
Proof.
  unfold bind. destruct (m s) as [[a|e|] s1]; intros H.
  - left. now exists a, s1.
  - inversion H; subst. right. left. now exists e.
  - inversion H; subst. right. right. now split.
Qed.

Lemma quiet_emit {E} (ev : event) :
  is_accepted ev = false -> quiet (@emit _ E ev).
Proof. intros H. now apply adds_emit. Qed.

Lemma quiet_bind {E A C} (m : M E A) (k : A -> M E C) :
  quiet m -> (forall a, quiet (k a)) -> quiet (bind m k).
Proof. apply preserves_bind. apply adds_trans. Qed.

Lemma quiet_ret {E A} (a : A) : quiet (@ret _ E A a).
Proof. apply preserves_ret. apply adds_refl. Qed.

Lemma quiet_of_result {E A} (x : result A) : quiet (@of_result _ E A x).
Proof. apply preserves_of_result. apply adds_refl. Qed.

Lemma quiet_client_call {X} (get : Exchange -> list (result X))
      (set : list (result X) -> Exchange -> Exchange) (req : request) :
  quiet (client_call get set req).
Proof. now apply adds_client_call. Qed.

Lemma quiet_get_currency_balance (sym : string) :
  quiet (get_currency_balance sym).
Proof.
  apply quiet_bind; [apply quiet_client_call|intros a; apply quiet_ret].
Qed.

Lemma quiet_get_market_ticker_price (sym : string) :
  quiet (get_market_ticker_price sym).
Proof.
  apply quiet_bind; [apply quiet_client_call|intros a; apply quiet_ret].
Qed.

Lemma quiet_get_alt_tick (alt_symbol crypto_symbol : string) :
  quiet (get_alt_tick alt_symbol crypto_symbol).
Proof.
  apply quiet_bind; [|intros a; apply quiet_ret].
  apply quiet_bind; [apply quiet_client_call|].
  intros [filters|]; [|apply preserves_raise, adds_refl].
  destruct (List.find _ filters);
    [apply quiet_ret|apply preserves_raise, adds_refl].
Qed.

Lemma quiet_buy_quantity (alt_symbol crypto_symbol : string)
      (b p : option flt) :
  quiet (buy_quantity alt_symbol crypto_symbol b p).
Proof.
  apply quiet_bind; [apply quiet_get_alt_tick|].
  intros t. apply quiet_of_result.
Qed.

Lemma quiet_sell_quantity (alt_symbol crypto_symbol : string)
      (b : option flt) :
  quiet (sell_quantity alt_symbol crypto_symbol b).
Proof.
  apply quiet_bind; [apply quiet_get_alt_tick|].
  intros t. apply quiet_of_result.
Qed.

Lemma quiet_wait_for_order (alt_symbol crypto_symbol : string)
      (order_id : Z) :
  quiet (wait_for_order alt_symbol crypto_symbol order_id).
Proof.
  apply wait_for_order_preserves.
  - apply adds_refl.
  - apply adds_trans.
  - intros secs. now apply quiet_emit.
  - intros e. now apply quiet_emit.
  - intros e. now apply quiet_emit.
  - intros stat. now apply quiet_emit.
  - apply quiet_client_call.
Qed.

Lemma quiet_step {E A C} (m : M E A) (k : A -> M E C) (s s' : State E)
      (r : outcome C) :
  quiet m ->
  bind m k s = (r, s') ->
  (exists a s1, accepted 0 s s1 /\ k a s1 = (r, s'))
  \/ ((forall c, r <> Returned c) /\ accepted 0 s s').
Proof.
  intros Hq H. apply bind_cases in H.
  destruct H as [(a & s1 & Hm & H)|[(e & Hm & ->)|(Hm & ->)]].
  - left. exists a, s1. split; [|exact H].
    apply accepted_of_adds. eapply Hq. exact Hm.
  - right. split; [discriminate|].
    apply accepted_of_adds. eapply Hq. exact Hm.
  - right. split; [discriminate|].
    apply accepted_of_adds. eapply Hq. exact Hm.
Qed.

Lemma emit_returns {E} (ev : event) (s s' : State E) (r : outcome unit) :
  emit ev s = (r, s') -> r = Returned tt.
Proof. intros H. now inversion H. Qed.

Variables alt crypto : Coin.

(** What is left of [_buy_alt] once an order is accepted: it adds no
    accepted order, and it returns or is pending. *)
Lemma buy_alt_after_acceptance (alt_balance crypto_balance : option flt)
      (q : flt) (o : order) (s s' : State Exchange) (r : outcome order) :
  (emit (TradeLogOrdered alt_balance crypto_balance q) ;;
   stat <- wait_for_order (symbol alt) (symbol crypto) (orderId o) ;;
   logger_info (Text ("Bought " ++ symbol alt)) ;;
   emit (TradeLogComplete (cummulativeQuoteQty stat)) ;;
   ret o) s = (r, s') ->
  accepted 0 s s' /\ (r = Returned o \/ r = Pending).
Proof.
  intros H. split.
  - apply accepted_of_adds. revert H. apply quiet_bind.
    + now apply quiet_emit.
    + intros _. apply quiet_bind; [apply quiet_wait_for_order|].
      intros stat. apply quiet_bind; [now apply quiet_emit|].
      intros _. apply quiet_bind; [now apply quiet_emit|].
      intros _. apply quiet_ret.
  - apply bind_cases in H.
    destruct H as [(a & s1 & Hm & H)|[(e & Hm & ->)|(Hm & ->)]];
      try (apply emit_returns in Hm; discriminate).
    apply bind_cases in H.
    destruct H as [(stat & s2 & Hw & H)|[(e & Hw & ->)|(Hw & ->)]].
    + apply bind_cases in H.
      destruct H as [(a1 & s3 & Hm1 & H)|[(e & Hm1 & ->)|(Hm1 & ->)]];
        try (apply emit_returns in Hm1; discriminate).
      apply bind_cases in H.
      destruct H as [(a2 & s4 & Hm2 & H)|[(e & Hm2 & ->)|(Hm2 & ->)]];
        try (apply emit_returns in Hm2; discriminate).
      inversion H; subst. now left.
    + now apply wait_for_order_no_raise in Hw.
    + now right.
Qed.

(** An attempt of the buy path has an order accepted exactly when it gets
    past its submission loop; an attempt that raises has none. *)
Lemma buy_alt_attempt_accepts (s s' : State Exchange) (r : outcome order) :
  _buy_alt alt crypto s = (r, s') ->
  match r with
  | Returned _ => accepted 1 s s'
  | Raised _ => accepted 0 s s'
  | Pending => accepted 0 s s' \/ accepted 1 s s'
  end.
Proof.
  intros H. unfold _buy_alt in H.
  assert (Hlift : forall s1, accepted 0 s s1 ->
            match r with
            | Returned _ => accepted 1 s1 s'
            | Raised _ => accepted 0 s1 s'
            | Pending => accepted 0 s1 s' \/ accepted 1 s1 s'
            end ->
            match r with
            | Returned _ => accepted 1 s s'
            | Raised _ => accepted 0 s s'
            | Pending => accepted 0 s s' \/ accepted 1 s s'
            end).
  { intros s1 H0 Hr. destruct r as [o|e|].
    - apply (accepted_trans 0 1 s s1 s' H0 Hr).
    - apply (accepted_trans 0 0 s s1 s' H0 Hr).
    - destruct Hr as [Hr|Hr].
      + left. apply (accepted_trans 0 0 s s1 s' H0 Hr).
      + right. apply (accepted_trans 0 1 s s1 s' H0 Hr). }
  assert (Hstop : forall s1, accepted 0 s s1 ->
            (forall c, r <> Returned c) -> accepted 0 s1 s' ->
            match r with
            | Returned _ => accepted 1 s s'
            | Raised _ => accepted 0 s s'
            | Pending => accepted 0 s s' \/ accepted 1 s s'
            end).
  { intros s1 H0 Hr H1. apply (Hlift s1 H0).
    destruct r as [o|e|]; [now destruct (Hr o)|exact H1|now left]. }
  apply quiet_step in H; [|now apply quiet_emit].
  destruct H as [(a0 & s0 & A0 & H)|[Hr Hacc]];
    [|destruct r; [now destruct (Hr a)|exact Hacc|now left]].
  apply quiet_step in H; [|apply quiet_get_currency_balance].
  destruct H as [(ab & s1 & A1 & H)|[Hr Hacc]];
    [|now apply (Hstop s0)].
  pose proof (accepted_trans 0 0 _ _ _ A0 A1) as B1. cbn [Nat.add] in B1.
  apply quiet_step in H; [|apply quiet_get_currency_balance].
  destruct H as [(cb & s2 & A2 & H)|[Hr Hacc]];
    [|now apply (Hstop s1)].
  pose proof (accepted_trans 0 0 _ _ _ B1 A2) as B2. cbn [Nat.add] in B2.
  apply quiet_step in H; [|apply quiet_get_market_ticker_price].
  destruct H as [(tp & s3 & A3 & H)|[Hr Hacc]];
    [|now apply (Hstop s2)].
  pose proof (accepted_trans 0 0 _ _ _ B2 A3) as B3. cbn [Nat.add] in B3.
  apply quiet_step in H; [|apply quiet_buy_quantity].
  destruct H as [(q & s4 & A4 & H)|[Hr Hacc]];
    [|now apply (Hstop s3)].
  pose proof (accepted_trans 0 0 _ _ _ B3 A4) as B4. cbn [Nat.add] in B4.
  apply quiet_step in H; [|now apply quiet_emit].
  destruct H as [(a5 & s5 & A5 & H)|[Hr Hacc]];
    [|now apply (Hstop s4)].
  pose proof (accepted_trans 0 0 _ _ _ B4 A5) as B5. cbn [Nat.add] in B5.
  apply (Hlift s5 B5).
  apply bind_cases in H.
  destruct H as [(o & s6 & Hloop & H)|[(e & Hloop & ->)|(Hloop & ->)]].
  - apply submit_limit_buy_accepts in Hloop.
    apply buy_alt_after_acceptance in H. destruct H as [Hq [-> | ->]].
    + apply (accepted_trans 1 0 _ _ _ Hloop Hq).
    + right. apply (accepted_trans 1 0 _ _ _ Hloop Hq).
  - now apply submit_limit_buy_accepts in Hloop.
  - left. now apply submit_limit_buy_accepts in Hloop.
Qed.

End BuyAccepts.

Section BuyOnce.

Context {PF : PyFloat}.
Variables alt crypto : Coin.

Lemma value_cases {E A} (op : M E A) (s s' : State E)
      (r : outcome (option A)) :
  value op s = (r, s') ->
  (exists a, op s = (Returned a, s') /\ r = Returned (Some a))
  \/ (exists e, op s = (Raised e, s') /\ r = Raised e)
  \/ (op s = (Pending, s') /\ r = Pending).
Proof.
  unfold value. intros H. apply bind_cases in H.
  destruct H as [(a & s1 & Hm & H)|[H|H]].
  - inversion H; subst. left. now exists a.
  - right. now left.
  - right. now right.
Qed.

Lemma after_failure_accepted {E} (a : nat) (e : exn) (s : State E) :
  accepted 0 s (after_failure a e s).
Proof.
  unfold after_failure.
  exists (Log (Text "Failed to Buy/Sell. Trying Again.")
          :: (if (a =? 0)%nat then [Log (Exn e)] else [])).
  split; [reflexivity|]. now destruct (a =? 0)%nat.
Qed.

(** Attempts of the buy path that raise leave no order accepted. *)
Lemma buy_alt_failed_attempts (a b : nat) (s s' : State Exchange) :
  failed_attempts (value (_buy_alt alt crypto)) a b s s' ->
  accepted 0 s s'.
Proof.
  induction 1 as [a s|a b s s1 s' e Hf H IH].
  - apply accepted_refl.
  - apply value_cases in Hf.
    destruct Hf as [(o & _ & Hr)|[(e' & Hop & _)|(_ & Hr)]];
      try discriminate.
    apply buy_alt_attempt_accepts in Hop.
    apply (accepted_trans 0 0 s s1 s' Hop).
    apply (accepted_trans 0 0 s1 _ s' (after_failure_accepted a e s1) IH).
Qed.

Lemma buy_alt_run (s s' : State Exchange) (r : outcome (option order)) :
  buy_alt alt crypto s = (r, s') ->
  match r with
  | Returned (Some _) => accepted 1 s s'
  | Returned None => accepted 0 s s'
  | Raised _ => False
  | Pending => accepted 0 s s' \/ accepted 1 s s'
  end.
Proof.
  unfold buy_alt. rewrite retry_unfold. intros H.
  assert (Hs : accepted 0 s (slept 1 s))
    by (exists [Sleep 1]; split; reflexivity).
  apply retry_loop_inv in H; [|lia|lia].
  destruct H as [[Hfail ->]|(k & s1 & Hfail & _ & Hf & Hne)].
  - apply buy_alt_failed_attempts in Hfail.
    apply (accepted_trans 0 0 _ _ _ Hs Hfail).
  - apply buy_alt_failed_attempts in Hfail.
    pose proof (accepted_trans 0 0 _ _ _ Hs Hfail) as H1.
    cbn [Nat.add] in H1.
    apply value_cases in Hf.
    destruct Hf as [(o & Hop & ->)|[(e & _ & ->)|(Hop & ->)]].
    + apply buy_alt_attempt_accepts in Hop.
      apply (accepted_trans 0 1 _ _ _ H1 Hop).
    + now destruct (Hne e).
    + apply buy_alt_attempt_accepts in Hop. destruct Hop as [Hop|Hop].
      * left. apply (accepted_trans 0 0 _ _ _ H1 Hop).
      * right. apply (accepted_trans 0 1 _ _ _ H1 Hop).
Qed.

End BuyOnce.

(** ** Step sizes that are not written as a power of ten *)

Section TickEdges.

Lemma find_from_absent (c : ascii) (s : string) (i : Z) :
  occurs c s = false -> find_from c s i = -1.
Proof.
  revert i. induction s as [|a s IH]; intros i H; cbn [find_from].
  - reflexivity.
  - cbn [occurs] in H. apply orb_false_iff in H. destruct H as [Ha Hs].
    rewrite Ha. now apply IH.
Qed.

Lemma find_from_first (c : ascii) (pre rest : string) (i : Z) :
  occurs c pre = false ->
  find_from c (pre ++ String c rest) i = i + Z.of_nat (String.length pre).
Proof.
  revert i. induction pre as [|a pre IH]; intros i H.
  - cbn [String.append find_from String.length]. rewrite Ascii.eqb_refl.
    cbn. lia.
  - cbn [occurs] in H. apply orb_false_iff in H. destruct H as [Ha Hs].
    cbn [String.append find_from String.length]. rewrite Ha.
    rewrite IH by exact Hs. lia.
Qed.

Lemma tick_without_one (step_size : string) :
  occurs "1" step_size = false -> tick_of_step_size step_size = -2.
Proof.
  intros H. unfold tick_of_step_size, find.
  rewrite find_from_absent by exact H. reflexivity.
Qed.

Lemma tick_first_one (pre rest : string) :
  occurs "1" pre = false ->
  pre <> "" ->
  tick_of_step_size (pre ++ String "1" rest)
  = Z.of_nat (String.length pre) - 1.
Proof.
  intros H Hne. unfold tick_of_step_size, find.
  rewrite find_from_first by exact H.
  destruct pre as [|a pre]; [congruence|].
  cbn [String.length].
  replace (Z.eqb (0 + Z.of_nat (S (String.length pre))) 0) with false
    by (symmetry; apply Z.eqb_neq; lia).
  lia.
Qed.

Lemma tick_leading_one_no_point (rest : string) :
  occurs "." rest = false -> tick_of_step_size (String "1" rest) = 2.
Proof.
  intros H. unfold tick_of_step_size, find.
  cbn [find_from Ascii.eqb Bool.eqb]. cbn [Z.eqb].
  rewrite find_from_absent by exact H. reflexivity.
Qed.

End TickEdges.

(** ** The filter lookup *)

Section FilterFacts.

Context {PF : PyFloat}.
Variables (alt_symbol crypto_symbol filter_type : string).

Lemma find_filter_none (filters : list symbol_filter) :
  Forall (fun f => filterType f <> filter_type) filters ->
  List.find (fun f => String.eqb (filterType f) filter_type) filters = None.
Proof.
  induction 1 as [|f filters Hf _ IH]; cbn [List.find]; [reflexivity|].
  apply String.eqb_neq in Hf. now rewrite Hf.
Qed.

Lemma find_filter_first (pre : list symbol_filter) (f : symbol_filter)
      (post : list symbol_filter) :
  Forall (fun f => filterType f <> filter_type) pre ->
  filterType f = filter_type ->
  List.find (fun f => String.eqb (filterType f) filter_type)
            (pre ++ f :: post) = Some f.
Proof.
  intros Hpre Hf.
  induction Hpre as [|x pre Hx _ IH]; cbn [app List.find].
  - apply String.eqb_eq in Hf. now rewrite Hf.
  - apply String.eqb_neq in Hx. now rewrite Hx.
Qed.

Lemma get_symbol_filter_next (s : State Exchange)
      (r : result (option (list symbol_filter)))
      (rest : list (result (option (list symbol_filter)))) :
  symbol_info (env s) = r :: rest ->
  get_symbol_filter alt_symbol crypto_symbol filter_type s
  = (match r with
     | Raise e => Raised e
     | Ok None => Raised TypeError
     | Ok (Some filters) =>
         match List.find (fun f => String.eqb (filterType f) filter_type)
                         filters with
         | Some f => Returned f
         | None => Raised StopIteration
         end
     end,
     {| trace := (trace s
                  ++ [Request (GetSymbolInfo (alt_symbol ++ crypto_symbol))])%list;
        env := set_symbol_info rest (env s) |}).
Proof.
  intros H. unfold get_symbol_filter, bind, get_symbol_info, client_call.
  rewrite H. destruct r as [[filters|]|e]; cbn [of_result ret raise];
    try reflexivity.
  now destruct (List.find _ filters).
Qed.

End FilterFacts.

(** ** No exception leaves [retry] *)

Section RetryNeverRaises.

Context {PF : PyFloat} {E V : Type}.
Variable func : M E (option V).

Lemma retry_cases (s s' : State E) (r : outcome (option V)) :
  retry func s = (r, s') ->
  (exists v, r = Returned v)
  \/ (r = Pending /\ exists s1, func s1 = (Pending, s')).
Proof.
  rewrite retry_unfold. intros H.
  apply retry_loop_inv in H; [|lia|lia].
  destruct H as [[_ ->]|(k & s1 & _ & _ & Hf & Hne)].
  - left. now exists None.
  - destruct r as [v|e|].
    + left. now exists v.
    + now destruct (Hne e).
    + right. split; [reflexivity|]. now exists s1.
Qed.

End RetryNeverRaises.

(** ** Truncation at the tick, in exact arithmetic *)

Section ExactNormalization.

Local Open Scope Q_scope.







End ExactNormalization.

(** ** Footprints of the fill tracker and of the buy submission loop *)

Section Footprints.

Context {PF : PyFloat}.

Lemma wait_for_order_tracking (alt_symbol crypto_symbol : string)
      (order_id : Z) :
  preserves
    (adds (fun ev =>
             is_tracking (alt_symbol ++ crypto_symbol) order_id ev = true))
    (wait_for_order alt_symbol crypto_symbol order_id).
Proof.
  apply wait_for_order_preserves.
  - apply adds_refl.
  - apply adds_trans.
  - intros secs. now apply adds_emit.
  - intros e. now apply adds_emit.
  - intros e. now apply adds_emit.
  - intros stat. now apply adds_emit.
  - apply get_order_tracking.
Qed.

Lemma wait_for_order_orders_only (alt_symbol crypto_symbol : string)
      (order_id : Z) :
  preserves orders_only (wait_for_order alt_symbol crypto_symbol order_id).
Proof.
  apply wait_for_order_preserves.
  - apply orders_only_refl.
  - apply orders_only_trans.
  - intros secs. apply orders_only_emit.
  - intros e. apply orders_only_emit.
  - intros e. apply orders_only_emit.
  - intros stat. apply orders_only_emit.
  - apply orders_only_get_order.
Qed.

Lemma submit_limit_buy_footprint (fuel : nat) (sym : string) (q : flt) :
  preserves (adds (is_buy_submission sym q)) (submit_limit_buy fuel sym q).
Proof.
  induction fuel as [|fuel IH]; cbn [submit_limit_buy].
  - apply preserves_pending. apply adds_refl.
  - apply preserves_bind; [apply adds_trans| |].
    + apply preserves_try_catch; [apply adds_trans| |].
      * apply preserves_bind; [apply adds_trans| |].
        -- apply preserves_bind; [apply adds_trans| |].
           ++ now apply adds_client_call.
           ++ intros tickers. apply preserves_ret. apply adds_refl.
        -- intros limit_price.
           apply preserves_bind; [apply adds_trans| |].
           ++ apply adds_client_call. now split.
           ++ intros o. apply preserves_bind; [apply adds_trans| |].
              ** now apply adds_emit.
              ** intros ?. apply preserves_ret. apply adds_refl.
      * intros e.
        destruct e;
          repeat first
                 [ apply preserves_ret; apply adds_refl
                 | apply adds_emit; exact I
                 | apply adds_emit; reflexivity
                 | apply preserves_bind;
                   [apply adds_trans| |intros ?; cbv beta] ].
    + intros [o|]; [apply preserves_ret; apply adds_refl|exact IH].
Qed.

End Footprints.

(** ** The events of the fill tracker, turn by turn *)

Section WaitTrace.

Context {PF : PyFloat}.
Variables (sym : string) (order_id : Z).

Lemma initial_status_raise_turn (fuel : nat) (s : State Exchange) (e : exn)
      (rest : list (result order_stat)) :
  orders (env s) = Raise e :: rest ->
  initial_status (S fuel) sym order_id s
  = initial_status fuel sym order_id
      {| trace := (trace s ++ initial_failure sym order_id e)%list;
         env := set_orders rest (env s) |}.
Proof.
  intros H. cbn [initial_status]. unfold try_catch.
  rewrite sleep_then, (get_order_next _ _ _ (Raise e) rest) by exact H.
  cbn [of_result raise slept trace env].
  destruct e; cbn [initial_failure];
    unfold logger_info, sleep; rewrite ?emit_then; cbn [trace env];
    repeat rewrite <- app_assoc; reflexivity.
Qed.

Lemma initial_status_trace (es : list exn) (stat : order_stat)
      (rest : list (result order_stat)) (fuel : nat) (s : State Exchange) :
  orders (env s) = (map Raise es ++ Ok stat :: rest)%list ->
  (List.length es < fuel)%nat ->
  initial_status fuel sym order_id s
  = (Returned stat,
     {| trace := (trace s
                  ++ List.concat (map (initial_failure sym order_id) es)
                  ++ [Sleep 3; Request (GetOrder sym order_id)])%list;
        env := set_orders rest (env s) |}).
Proof.
  revert fuel s. induction es as [|e es IH]; intros fuel s H Hfuel;
    (destruct fuel as [|fuel]; [cbn in Hfuel; lia|]); cbn [map app] in H.
  - rewrite (initial_status_ok sym order_id fuel s stat rest H). reflexivity.
  - rewrite (initial_status_raise_turn fuel s e _ H).
    rewrite (IH fuel) by (try reflexivity; cbn in Hfuel; lia).
    cbn [trace env map List.concat]. f_equal. f_equal.
    now repeat rewrite <- app_assoc.
Qed.

Lemma poll_status_turn (fuel : nat) (stat : order_stat)
      (s : State Exchange) (r : result order_stat)
      (rest : list (result order_stat)) :
  status stat <> "FILLED" ->
  orders (env s) = r :: rest ->
  poll_status (S fuel) sym order_id stat s
  = poll_status fuel sym order_id (next_stat stat r)
      {| trace := (trace s ++ poll_turn sym order_id r)%list;
         env := set_orders rest (env s) |}.
Proof.
  intros Hs H. cbn [poll_status].
  apply String.eqb_neq in Hs. rewrite Hs. cbn [negb].
  unfold bind at 1. unfold try_catch. unfold bind at 1.
  rewrite (get_order_next _ _ _ r rest) by exact H.
  destruct r as [st|e]; cbn [of_result ret raise next_stat poll_turn].
  - unfold bind, sleep, emit, ret. cbn [trace env].
    now rewrite <- app_assoc.
  - destruct e; unfold bind, logger_info, sleep, emit, ret; cbn [trace env];
      repeat rewrite <- app_assoc; reflexivity.
Qed.

Lemma poll_status_trace (pre : list (result order_stat))
      (filled : order_stat) (rest : list (result order_stat))
      (fuel : nat) (stat : order_stat) (s : State Exchange) :
  Forall keeps_polling pre ->
  status stat <> "FILLED" ->
  status filled = "FILLED" ->
  orders (env s) = (pre ++ Ok filled :: rest)%list ->
  (List.length pre < fuel)%nat ->
  poll_status fuel sym order_id stat s
  = (Returned filled,
     {| trace := (trace s
                  ++ List.concat (map (poll_turn sym order_id) pre)
                  ++ [Request (GetOrder sym order_id); Sleep 1])%list;
        env := set_orders rest (env s) |}).
Proof.
  intros Hpre. revert fuel stat s.
  induction Hpre as [|r pre Hr Hpre IH]; intros fuel stat s Hs Hf H Hfuel;
    (destruct fuel as [|fuel]; [cbn in Hfuel; lia|]); cbn [map app] in H.
  - rewrite (poll_status_turn fuel stat s _ rest Hs H).
    cbn [next_stat]. rewrite poll_status_filled by exact Hf. reflexivity.
  - rewrite (poll_status_turn fuel stat s _ _ Hs H).
    rewrite (IH fuel)
      by first [ assumption | reflexivity | now apply next_stat_keeps
               | cbn in Hfuel; lia ].
    cbn [trace env map List.concat]. f_equal. f_equal.
    now repeat rewrite <- app_assoc.
Qed.

End WaitTrace.

Section WaitForOrderTrace.

Context {PF : PyFloat}.
Variables (alt_symbol crypto_symbol : string) (order_id : Z).

(** The first response that is not an error is already FILLED. *)
Lemma wait_for_order_trace_filled (es : list exn) (filled : order_stat)
      (rest : list (result order_stat)) (s : State Exchange) :
  status filled = "FILLED" ->
  orders (env s) = (map Raise es ++ Ok filled :: rest)%list ->
  wait_for_order alt_symbol crypto_symbol order_id s
  = (Returned filled,
     {| trace :=
          (trace s
           ++ List.concat
                (map (initial_failure (alt_symbol ++ crypto_symbol) order_id)
                     es)
           ++ [Sleep 3;
               Request (GetOrder (alt_symbol ++ crypto_symbol) order_id);
               Log (Stat filled)])%list;
        env := set_orders rest (env s) |}).
Proof.
  intros Hf H. rewrite wait_for_order_unfold.
  rewrite (initial_status_trace _ _ es filled rest)
    by (try exact H; rewrite H, length_app, length_map; cbn; lia).
  rewrite poll_status_filled by exact Hf.
  cbn [trace env]. f_equal. f_equal.
  now repeat rewrite <- app_assoc.
Qed.

(** The first response that is not an error is not FILLED: the second
    loop runs up to the first FILLED one. *)
Lemma wait_for_order_trace_polled (es : list exn) (stat : order_stat)
      (pre : list (result order_stat)) (filled : order_stat)
      (rest : list (result order_stat)) (s : State Exchange) :
  status stat <> "FILLED" ->
  Forall keeps_polling pre ->
  status filled = "FILLED" ->
  orders (env s)
  = (map Raise es ++ Ok stat :: pre ++ Ok filled :: rest)%list ->
  wait_for_order alt_symbol crypto_symbol order_id s
  = (Returned filled,
     {| trace :=
          (trace s
           ++ List.concat
                (map (initial_failure (alt_symbol ++ crypto_symbol) order_id)
                     es)
           ++ [Sleep 3;
               Request (GetOrder (alt_symbol ++ crypto_symbol) order_id);
               Log (Stat stat)]
           ++ List.concat
                (map (poll_turn (alt_symbol ++ crypto_symbol) order_id) pre)
           ++ [Request (GetOrder (alt_symbol ++ crypto_symbol) order_id);
               Sleep 1])%list;
        env := set_orders rest (env s) |}).
Proof.
  intros Hs Hpre Hf H. rewrite wait_for_order_unfold.
  rewrite (initial_status_trace _ _ es stat (pre ++ Ok filled :: rest))
    by (try exact H; rewrite H, length_app, length_map; cbn; lia).
  cbn [trace env orders set_orders].
  rewrite (poll_status_trace _ _ pre filled rest)
    by (try assumption; try reflexivity;
        rewrite length_app; cbn; lia).
  cbn [trace env]. f_equal. f_equal.
  now repeat rewrite <- app_assoc.
Qed.

End WaitForOrderTrace.

(** ** The events of a buy that returns *)

Section BuyTrace.

Context {PF : PyFloat}.

Lemma submit_limit_buy_returned (fuel : nat) (sym : string) (q : flt)
      (s s' : State Exchange) (o : order) :
  submit_limit_buy fuel sym q s = (Returned o, s') ->
  exists tl limit_price,
    trace s'
    = (trace s ++ tl
       ++ [Request (OrderLimitBuy sym q limit_price);
           Log (OrderPayload (Some o))])%list
    /\ Forall (fun ev => is_accepted ev = false) tl.
Proof.
  revert s. induction fuel as [|fuel IH]; intros s H; [discriminate|].
  assert (Hnext : forall (tl : list event) (x : Exchange),
             Forall (fun ev => is_accepted ev = false) tl ->
             submit_limit_buy fuel sym q
               {| trace := (trace s ++ tl)%list; env := x |}
             = (Returned o, s') ->
             exists tl' limit_price,
               trace s'
               = (trace s ++ tl'
                  ++ [Request (OrderLimitBuy sym q limit_price);
                      Log (OrderPayload (Some o))])%list
               /\ Forall (fun ev => is_accepted ev = false) tl').
  { intros tl x Htl Hrun. apply IH in Hrun.
    destruct Hrun as (tl' & lp & Ht & F). cbn [trace] in Ht.
    exists (tl ++ tl')%list, lp. split.
    - rewrite Ht. now repeat rewrite <- app_assoc.
    - apply Forall_app. now split. }
  cbn [submit_limit_buy] in H.
  unfold bind at 1, try_catch, get_market_ticker_price in H.
  unfold bind at 1 2, get_symbol_ticker, client_call in H.
  destruct (symbol_tickers (env s)) as [|[tickers|e] rest] eqn:Ht;
    cbn in H.
  - discriminate.
  - unfold bind at 1, order_limit_buy, client_call in H. cbn in H.
    destruct (limit_buys (env s)) as [|[[o'|]|e] rest_b] eqn:Hb; cbn in H.
    + discriminate.
    + inversion H; subst. exists [Request GetSymbolTicker].
      exists (price_of sym tickers). split.
      * cbn [trace]. now repeat rewrite <- app_assoc.
      * now repeat constructor.
    + repeat rewrite <- app_assoc in H. cbn [app] in H.
      apply Hnext in H; [exact H|now repeat constructor].
    + destruct e; cbn in H; repeat rewrite <- app_assoc in H;
        cbn [app] in H;
        (apply Hnext in H; [exact H|now repeat constructor]).
  - destruct e; cbn in H; repeat rewrite <- app_assoc in H;
      cbn [app] in H;
      (apply Hnext in H; [exact H|now repeat constructor]).
Qed.

End BuyTrace.

(** ** Sell attempts that raise at or after the submission *)

Section SellSubmission.

Context {PF : PyFloat}.
Variables alt crypto : Coin.

(** The exchange refuses the market order: the exception leaves the
    attempt. *)
Lemma sell_alt_rejected (s : State Exchange)
      (a1 a2 : list balance_entry)
      (rest_a : list (result (list balance_entry)))
      (filters : list symbol_filter) (f : symbol_filter)
      (rest_i : list (result (option (list symbol_filter))))
      (q : flt) (e : exn) (rest_m : list (result (option order))) :
  account (env s) = Ok a1 :: Ok a2 :: rest_a ->
  symbol_info (env s) = Ok (Some filters) :: rest_i ->
  List.find (fun f => filterType f =? "LOT_SIZE") filters = Some f ->
  sell_quantity_at (tick_of_step_size (stepSize f))
                   (balance_of (symbol alt) a1) = Ok q ->
  market_sells (env s) = Raise e :: rest_m ->
  _sell_alt alt crypto s
  = (Raised e,
     {| trace :=
          (trace s
           ++ [TradeLogNew alt crypto true;
               Request GetAccount; Request GetAccount;
               Request (GetSymbolInfo (symbol alt ++ symbol crypto));
               Log (Selling q (symbol alt));
               Log (Balance (balance_of (symbol alt) a1));
               Request (OrderMarketSell (symbol alt ++ symbol crypto) q)])%list;
        env := set_market_sells rest_m
                 (set_symbol_info rest_i (set_account rest_a (env s))) |}).
Proof.
  intros Ha Hi Hf Hq Hm.
  unfold _sell_alt. rewrite emit_then.
  erewrite bind_returned
    by (apply get_currency_balance_next; cbn [env]; exact Ha).
  erewrite bind_returned
    by (apply get_currency_balance_next; reflexivity).
  erewrite bind_returned.
  2:{ unfold sell_quantity.
      erewrite bind_returned
        by (eapply get_alt_tick_next; cbn [env symbol_info set_account];
            eassumption).
      rewrite Hq. reflexivity. }
  unfold logger_info, sleep. rewrite !emit_then.
  erewrite bind_raised.
  2:{ unfold unbounded.
      apply (submit_market_sell_run_raise 0 e rest_m); [|lia].
      cbn [env market_sells set_symbol_info set_account repeat app].
      exact Hm. }
  cbn [trace env repeat]. f_equal. f_equal.
  repeat rewrite <- app_assoc. reflexivity.
Qed.

(** The order is accepted and filled, and the balance fetch that follows
    fails: the exception leaves the attempt. *)
Lemma sell_alt_raises_after_acceptance (s : State Exchange)
      (a1 a2 : list balance_entry) (e : exn)
      (rest_a : list (result (list balance_entry)))
      (filters : list symbol_filter) (f : symbol_filter)
      (rest_i : list (result (option (list symbol_filter))))
      (q : flt) (o : order) (rest_m : list (result (option order)))
      (filled : order_stat) (rest_o : list (result order_stat)) :
  account (env s) = Ok a1 :: Ok a2 :: Raise e :: rest_a ->
  symbol_info (env s) = Ok (Some filters) :: rest_i ->
  List.find (fun f => filterType f =? "LOT_SIZE") filters = Some f ->
  sell_quantity_at (tick_of_step_size (stepSize f))
                   (balance_of (symbol alt) a1) = Ok q ->
  market_sells (env s) = Ok (Some o) :: rest_m ->
  orders (env s) = Ok filled :: rest_o ->
  status filled = "FILLED" ->
  _sell_alt alt crypto s
  = (Raised e,
     {| trace :=
          (trace s
           ++ [TradeLogNew alt crypto true;
               Request GetAccount; Request GetAccount;
               Request (GetSymbolInfo (symbol alt ++ symbol crypto));
               Log (Selling q (symbol alt));
               Log (Balance (balance_of (symbol alt) a1));
               Request (OrderMarketSell (symbol alt ++ symbol crypto) q);
               Log (Text "order"); Log (OrderPayload (Some o));
               TradeLogOrdered (balance_of (symbol alt) a1)
                               (balance_of (symbol crypto) a2) q;
               Log (Text "Waiting for Binance"); Sleep 5;
               Sleep 3;
               Request (GetOrder (symbol alt ++ symbol crypto) (orderId o));
               Log (Stat filled);
               Request GetAccount])%list;
        env := set_account rest_a
                 (set_orders rest_o
                    (set_market_sells rest_m
                       (set_symbol_info rest_i (env s)))) |}).
Proof.
  intros Ha Hi Hf Hq Hm Ho Hfilled.
  unfold _sell_alt. rewrite emit_then.
  erewrite bind_returned
    by (apply get_currency_balance_next; cbn [env]; exact Ha).
  erewrite bind_returned
    by (apply get_currency_balance_next; reflexivity).
  erewrite bind_returned.
  2:{ unfold sell_quantity.
      erewrite bind_returned
        by (eapply get_alt_tick_next; cbn [env symbol_info set_account];
            eassumption).
      rewrite Hq. reflexivity. }
  unfold logger_info, sleep. rewrite !emit_then.
  erewrite bind_returned.
  2:{ unfold unbounded.
      apply (submit_market_sell_run 0 o rest_m); [|lia].
      cbn [env market_sells set_symbol_info set_account repeat app].
      exact Hm. }
  rewrite !emit_then.
  erewrite bind_returned.
  2:{ apply (wait_for_order_trace_filled _ _ _ [] filled rest_o);
        [exact Hfilled|].
      cbn [env orders set_market_sells set_symbol_info set_account map app].
      exact Ho. }
  erewrite bind_raised.
  2:{ unfold confirm_sold. apply bind_raised.
      apply get_currency_balance_raise.
      cbn [env account set_orders set_market_sells set_symbol_info
               set_account].
      reflexivity. }
  cbn [trace env repeat map List.concat]. f_equal. f_equal.
  repeat rewrite <- app_assoc. reflexivity.
Qed.

End SellSubmission.

(** ** Where the order of a buy comes from *)

Section BuyOrderOrigin.

Context {PF : PyFloat}.

Lemma submit_limit_buy_returned_in (fuel : nat) (sym : string) (q : flt)
      (s s' : State Exchange) (o : order) :
  submit_limit_buy fuel sym q s = (Returned o, s') ->
  In (Ok (Some o)) (limit_buys (env s)).
Proof.
  revert s. induction fuel as [|fuel IH]; intros s H; [discriminate|].
  cbn [submit_limit_buy] in H.
  unfold bind at 1, try_catch, get_market_ticker_price in H.
  unfold bind at 1 2, get_symbol_ticker, client_call in H.
  destruct (symbol_tickers (env s)) as [|[tickers|e] rest] eqn:Ht;
    cbn in H.
  - discriminate.
  - unfold bind at 1, order_limit_buy, client_call in H. cbn in H.
    destruct (limit_buys (env s)) as [|[[o'|]|e] rest_b] eqn:Hb; cbn in H.
    + discriminate.
    + inversion H; subst. now left.
    + apply IH in H. cbn in H. now right.
    + destruct e; cbn in H; apply IH in H; cbn in H; now right.
  - destruct e; cbn in H; apply IH in H; cbn in H; exact H.
Qed.

End BuyOrderOrigin.

(** ** A sell the exchange keeps refusing *)

Section SellRejections.

Context {PF : PyFloat}.
Variables alt crypto : Coin.
Variables (a1 a2 : list balance_entry) (filters : list symbol_filter)
          (f : symbol_filter) (q : flt).
Hypothesis lot_size :
  List.find (fun f => filterType f =? "LOT_SIZE") filters = Some f.
Hypothesis sized :
  sell_quantity_at (tick_of_step_size (stepSize f))
                   (balance_of (symbol alt) a1) = Ok q.

Lemma sell_alt_rejections (es : list exn) (a : nat) (s : State Exchange)
      (rest_a : list (result (list balance_entry)))
      (rest_i : list (result (option (list symbol_filter))))
      (rest_m : list (result (option order))) :
  account (env s)
  = (List.concat (repeat [Ok a1; Ok a2] (List.length es)) ++ rest_a)%list ->
  symbol_info (env s)
  = (repeat (Ok (Some filters)) (List.length es) ++ rest_i)%list ->
  market_sells (env s) = (map Raise es ++ rest_m)%list ->
  exists s' tl,
    failed_attempts (value (_sell_alt alt crypto)) a (a + List.length es)
                    s s'
    /\ trace s' = (trace s ++ tl)%list
    /\ count is_market_sell tl = List.length es
    /\ count is_trade_log_new tl = List.length es
    /\ count is_sleep tl = 0%nat
    /\ market_sells (env s') = rest_m.
Proof.
  revert a s. induction es as [|e es IH]; intros a s Ha Hi Hm.
  - exists s, []. rewrite Nat.add_0_r, app_nil_r.
    repeat split; [constructor|exact Hm].
  - cbn [List.length repeat List.concat map app] in Ha, Hi, Hm.
    pose proof (sell_alt_rejected alt crypto s a1 a2 _ filters f _ q e _
                  Ha Hi lot_size sized Hm) as Hrun.
    apply value_raised in Hrun.
    match type of Hrun with
    | _ = (_, ?s1) =>
        destruct (IH (S a) (after_failure a e s1)
                     eq_refl eq_refl eq_refl)
          as (s' & tl & Hfail & Htr & Hc & Hn & Hsl & Hrest)
    end.
    cbn [List.length].
    eexists s', _. split; [|split; [|split; [|split; [|split]]]].
    + replace (a + S (List.length es))%nat
        with (S a + List.length es)%nat by lia.
      eapply failed_next; [exact Hrun|exact Hfail].
    + rewrite Htr. unfold after_failure. cbn [trace].
      repeat rewrite <- app_assoc. reflexivity.
    + rewrite !count_app, Hc. destruct (a =? 0)%nat; reflexivity.
    + rewrite !count_app, Hn. destruct (a =? 0)%nat; reflexivity.
    + rewrite !count_app, Hsl. destruct (a =? 0)%nat; reflexivity.
    + exact Hrest.
Qed.

End SellRejections.

(** ** Pairs without a lot size *)

Section NoLotSize.

Context {PF : PyFloat}.

Lemma get_symbol_filter_error (alt_symbol crypto_symbol filter_type : string)
      (s : State Exchange) (r0 : result (option (list symbol_filter)))
      (rest : list (result (option (list symbol_filter)))) (e : exn) :
  symbol_info (env s) = r0 :: rest ->
  filter_error filter_type r0 = Some e ->
  get_symbol_filter alt_symbol crypto_symbol filter_type s
  = (Raised e,
     {| trace := (trace s
                  ++ [Request (GetSymbolInfo (alt_symbol ++ crypto_symbol))])%list;
        env := set_symbol_info rest (env s) |}).
Proof.
  intros H He. rewrite (get_symbol_filter_next _ _ _ _ _ _ H).
  f_equal. destruct r0 as [[filters|]|e0]; cbn [filter_error] in He.
  - destruct (List.find _ filters); [discriminate|]. congruence.
  - congruence.
  - congruence.
Qed.

Variables alt crypto : Coin.

Lemma sell_alt_no_lot_size (s : State Exchange)
      (a1 a2 : list balance_entry)
      (rest_a : list (result (list balance_entry)))
      (r0 : result (option (list symbol_filter)))
      (rest_i : list (result (option (list symbol_filter)))) (e : exn) :
  account (env s) = Ok a1 :: Ok a2 :: rest_a ->
  symbol_info (env s) = r0 :: rest_i ->
  filter_error "LOT_SIZE" r0 = Some e ->
  _sell_alt alt crypto s
  = (Raised e,
     {| trace :=
          (trace s
           ++ [TradeLogNew alt crypto true;
               Request GetAccount; Request GetAccount;
               Request (GetSymbolInfo (symbol alt ++ symbol crypto))])%list;
        env := set_symbol_info rest_i (set_account rest_a (env s)) |}).
Proof.
  intros Ha Hi He.
  unfold _sell_alt. rewrite emit_then.
  erewrite bind_returned
    by (apply get_currency_balance_next; cbn [env]; exact Ha).
  erewrite bind_returned
    by (apply get_currency_balance_next; reflexivity).
  erewrite bind_raised.
  2:{ unfold sell_quantity, get_alt_tick. apply bind_raised, bind_raised.
      apply get_symbol_filter_error with (r0 := r0) (rest := rest_i);
        [cbn [env symbol_info set_account]; exact Hi|exact He]. }
  cbn [trace env]. f_equal. f_equal.
  repeat rewrite <- app_assoc. reflexivity.
Qed.

Lemma buy_alt_no_lot_size (s : State Exchange)
      (a1 a2 : list balance_entry)
      (rest_a : list (result (list balance_entry)))
      (tickers : list ticker_entry)
      (rest_t : list (result (list ticker_entry)))
      (r0 : result (option (list symbol_filter)))
      (rest_i : list (result (option (list symbol_filter)))) (e : exn) :
  account (env s) = Ok a1 :: Ok a2 :: rest_a ->
  symbol_tickers (env s) = Ok tickers :: rest_t ->
  symbol_info (env s) = r0 :: rest_i ->
  filter_error "LOT_SIZE" r0 = Some e ->
  _buy_alt alt crypto s
  = (Raised e,
     {| trace :=
          (trace s
           ++ [TradeLogNew alt crypto false;
               Request GetAccount; Request GetAccount;
               Request GetSymbolTicker;
               Request (GetSymbolInfo (symbol alt ++ symbol crypto))])%list;
        env := set_symbol_info rest_i
                 (set_symbol_tickers rest_t
                    (set_account rest_a (env s))) |}).
Proof.
  intros Ha Ht Hi He.
  unfold _buy_alt. rewrite emit_then.
  erewrite bind_returned
    by (apply get_currency_balance_next; cbn [env]; exact Ha).
  erewrite bind_returned
    by (apply get_currency_balance_next; reflexivity).
  erewrite bind_returned
    by (apply get_market_ticker_price_next;
        cbn [env symbol_tickers set_account]; exact Ht).
  erewrite bind_raised.
  2:{ unfold buy_quantity, get_alt_tick. apply bind_raised, bind_raised.
      apply get_symbol_filter_error with (r0 := r0) (rest := rest_i);
        [cbn [env symbol_info set_account set_symbol_tickers]; exact Hi
        |exact He]. }
  cbn [trace env]. f_equal. f_equal.
  repeat rewrite <- app_assoc. reflexivity.
Qed.

End NoLotSize.

(** * Runs that return, read backwards *)

(** ** What a step that returned has taken from the exchange *)

Section ReturnedSteps.

Context {PF : PyFloat}.

Lemma get_currency_balance_returned (sym : string) (s s' : State Exchange)
      (r : option flt) :
  get_currency_balance sym s = (Returned r, s') ->
  exists acct rest,
    account (env s) = Ok acct :: rest
    /\ r = balance_of sym acct
    /\ s' = {| trace := (trace s ++ [Request GetAccount])%list;
               env := set_account rest (env s) |}.
Proof.
  intros H. destruct (account (env s)) as [|[acct|e] rest] eqn:Ha.
  - rewrite get_currency_balance_none in H by exact Ha. discriminate.
  - rewrite (get_currency_balance_next _ _ acct rest) in H by exact Ha.
    inversion H; subst. now exists acct, rest.
  - rewrite (get_currency_balance_raise _ _ e rest) in H by exact Ha.
    discriminate.
Qed.

Lemma get_market_ticker_price_returned (sym : string)
      (s s' : State Exchange) (r : option flt) :
  get_market_ticker_price sym s = (Returned r, s') ->
  exists tickers rest,
    symbol_tickers (env s) = Ok tickers :: rest
    /\ r = price_of sym tickers
    /\ s' = {| trace := (trace s ++ [Request GetSymbolTicker])%list;
               env := set_symbol_tickers rest (env s) |}.
Proof.
  intros H. destruct (symbol_tickers (env s)) as [|[tickers|e] rest] eqn:Ht.
  - unfold get_market_ticker_price, bind, get_symbol_ticker, client_call in H.
    rewrite Ht in H. discriminate.
  - rewrite (get_market_ticker_price_next _ _ tickers rest) in H by exact Ht.
    inversion H; subst. now exists tickers, rest.
  - rewrite (get_market_ticker_price_raise _ _ e rest) in H by exact Ht.
    discriminate.
Qed.

Lemma get_alt_tick_returned (alt_symbol crypto_symbol : string)
      (s s' : State Exchange) (t : Z) :
  get_alt_tick alt_symbol crypto_symbol s = (Returned t, s') ->
  exists filters f rest,
    symbol_info (env s) = Ok (Some filters) :: rest
    /\ List.find (fun f => filterType f =? "LOT_SIZE") filters = Some f
    /\ t = tick_of_step_size (stepSize f)
    /\ s' = {| trace := (trace s
                         ++ [Request (GetSymbolInfo
                                        (alt_symbol ++ crypto_symbol))])%list;
               env := set_symbol_info rest (env s) |}.
Proof.
  intros H. unfold get_alt_tick in H.
  apply bind_returned_inv in H. destruct H as (f & s1 & Hf & H).
  inversion H; subst. clear H.
  destruct (symbol_info (env s)) as [|r0 rest] eqn:Hi.
  - unfold get_symbol_filter, bind, get_symbol_info, client_call in Hf.
    rewrite Hi in Hf. discriminate.
  - rewrite (get_symbol_filter_next _ _ _ _ _ _ Hi) in Hf.
    destruct r0 as [[filters|]|e]; try discriminate.
    destruct (List.find _ filters) as [f0|] eqn:Hfind; try discriminate.
    inversion Hf; subst. now exists filters, f, rest.
Qed.

Lemma sell_quantity_returned (alt_symbol crypto_symbol : string)
      (alt_balance : option flt) (s s' : State Exchange) (q : flt) :
  sell_quantity alt_symbol crypto_symbol alt_balance s = (Returned q, s') ->
  exists filters f rest,
    symbol_info (env s) = Ok (Some filters) :: rest
    /\ List.find (fun f => filterType f =? "LOT_SIZE") filters = Some f
    /\ sell_quantity_at (tick_of_step_size (stepSize f)) alt_balance = Ok q
    /\ s' = {| trace := (trace s
                         ++ [Request (GetSymbolInfo
                                        (alt_symbol ++ crypto_symbol))])%list;
               env := set_symbol_info rest (env s) |}.
Proof.
  intros H. unfold sell_quantity in H.
  apply bind_returned_inv in H. destruct H as (t & s1 & Ht & H).
  apply get_alt_tick_returned in Ht.
  destruct Ht as (filters & f & rest & Hi & Hf & -> & ->).
  destruct (sell_quantity_at _ alt_balance) as [q0|e] eqn:Hq;
    [|discriminate].
  inversion H; subst. now exists filters, f, rest.
Qed.

Lemma buy_quantity_returned (alt_symbol crypto_symbol : string)
      (crypto_balance ticker_price : option flt) (s s' : State Exchange)
      (q : flt) :
  buy_quantity alt_symbol crypto_symbol crypto_balance ticker_price s
  = (Returned q, s') ->
  exists filters f rest,
    symbol_info (env s) = Ok (Some filters) :: rest
    /\ List.find (fun f => filterType f =? "LOT_SIZE") filters = Some f
    /\ buy_quantity_at (tick_of_step_size (stepSize f))
                       crypto_balance ticker_price = Ok q
    /\ s' = {| trace := (trace s
                         ++ [Request (GetSymbolInfo
                                        (alt_symbol ++ crypto_symbol))])%list;
               env := set_symbol_info rest (env s) |}.
Proof.
  intros H. unfold buy_quantity in H.
  apply bind_returned_inv in H. destruct H as (t & s1 & Ht & H).
  apply get_alt_tick_returned in Ht.
  destruct Ht as (filters & f & rest & Hi & Hf & -> & ->).
  destruct (buy_quantity_at _ crypto_balance ticker_price) as [q0|e] eqn:Hq;
    [|discriminate].
  inversion H; subst. now exists filters, f, rest.
Qed.

Lemma submit_market_sell_returned (fuel : nat) (sym : string) (q : flt)
      (s s' : State Exchange) (o : order) :
  submit_market_sell fuel sym q s = (Returned o, s') ->
  exists n rest,
    market_sells (env s) = (repeat (Ok None) n ++ Ok (Some o) :: rest)%list
    /\ s' = {| trace := (trace s
                         ++ repeat (Request (OrderMarketSell sym q))
                                   (S n))%list;
               env := set_market_sells rest (env s) |}.
Proof.
  revert s. induction fuel as [|fuel IH]; intros s H; [discriminate|].
  cbn [submit_market_sell] in H.
  unfold bind, order_market_sell, client_call in H.
  destruct (market_sells (env s)) as [|[[o'|]|e] rest0] eqn:Hm;
    cbn in H; try discriminate.
  - inversion H; subst. now exists 0%nat, rest0.
  - apply IH in H. destruct H as (n & rest & Hs & ->).
    cbn [env market_sells set_market_sells] in Hs. subst rest0.
    exists (S n), rest. split; [reflexivity|].
    cbn [trace env repeat]. f_equal.
    now rewrite <- app_assoc.
Qed.

End ReturnedSteps.

(** ** The status responses behind a status that was returned *)

Section ReturnedStatus.

Context {PF : PyFloat}.
Variables (sym : string) (order_id : Z).

Lemma initial_status_returned (fuel : nat) (s s' : State Exchange)
      (stat : order_stat) :
  initial_status fuel sym order_id s = (Returned stat, s') ->
  exists es rest,
    orders (env s) = (map Raise es ++ Ok stat :: rest)%list
    /\ (List.length es < fuel)%nat.
Proof.
  revert s. induction fuel as [|fuel IH]; intros s H; [discriminate|].
  destruct (orders (env s)) as [|[st|e] rest] eqn:Ho.
  - destruct (initial_status_empty sym order_id (S fuel) s Ho) as (s1 & Hp).
    rewrite Hp in H. discriminate.
  - rewrite (initial_status_ok sym order_id fuel s st rest Ho) in H.
    inversion H; subst. exists [], rest. split; [reflexivity|cbn; lia].
  - rewrite (initial_status_raise_turn sym order_id fuel s e rest Ho) in H.
    apply IH in H. destruct H as (es & rest' & Hs & Hlen).
    cbn [env orders set_orders] in Hs. subst rest.
    exists (e :: es), rest'. split; [reflexivity|cbn; lia].
Qed.

Lemma poll_status_returned (fuel : nat) (stat0 stat : order_stat)
      (s s' : State Exchange) :
  poll_status fuel sym order_id stat0 s = (Returned stat, s') ->
  (status stat0 = "FILLED" /\ stat = stat0 /\ s' = s)
  \/ (status stat0 <> "FILLED"
      /\ exists pre rest,
          orders (env s) = (pre ++ Ok stat :: rest)%list
          /\ Forall keeps_polling pre
          /\ status stat = "FILLED"
          /\ (List.length pre < fuel)%nat).
Proof.
  revert stat0 s. induction fuel as [|fuel IH]; intros stat0 s H.
  - destruct (String.eqb_spec (status stat0) "FILLED") as [E|E].
    + rewrite poll_status_filled in H by exact E. inversion H; subst.
      left. now repeat split.
    + cbn [poll_status] in H. apply String.eqb_neq in E. rewrite E in H.
      discriminate.
  - destruct (String.eqb_spec (status stat0) "FILLED") as [E|E].
    + rewrite poll_status_filled in H by exact E. inversion H; subst.
      left. now repeat split.
    + right. split; [exact E|].
      destruct (orders (env s)) as [|r rest0] eqn:Ho.
      * rewrite poll_status_empty in H by assumption. discriminate.
      * rewrite (poll_status_turn sym order_id fuel stat0 s r rest0 E Ho) in H.
        apply IH in H.
        destruct H as [(Hf & -> & ->)|(Hn & pre & rest & Hs & Hpre & Hf & Hl)].
        -- destruct r as [st|e]; cbn [next_stat] in Hf.
           ++ exists [], rest0. cbn [next_stat app List.length].
              split; [first [exact Ho|reflexivity]|]. split; [constructor|].
              split; [exact Hf|lia].
           ++ contradiction.
        -- cbn [env orders set_orders] in Hs. subst rest0.
           exists (r :: pre), rest. repeat split; try assumption.
           ++ constructor; [|exact Hpre].
              destruct r as [st|e]; cbn [next_stat] in Hn; [exact Hn|exact I].
           ++ cbn. lia.
Qed.

End ReturnedStatus.

Section ReturnedLoops.

Context {PF : PyFloat}.

(** A status [wait_for_order] returned is the first FILLED record among
    the responses it took, which are the next ones of the exchange. *)
Lemma wait_for_order_returned (alt_symbol crypto_symbol : string)
      (order_id : Z) (s s' : State Exchange) (stat : order_stat) :
  wait_for_order alt_symbol crypto_symbol order_id s = (Returned stat, s') ->
  exists pre rest tl,
    orders (env s) = (pre ++ Ok stat :: rest)%list
    /\ Forall keeps_polling pre
    /\ status stat = "FILLED"
    /\ s' = {| trace := (trace s ++ tl)%list;
               env := set_orders rest (env s) |}
    /\ count is_fetch tl = S (List.length pre)
    /\ Forall (fun ev =>
                 is_tracking (alt_symbol ++ crypto_symbol) order_id ev = true)
              tl.
Proof.
  intros H.
  assert (Hshape : exists pre rest,
             orders (env s) = (pre ++ Ok stat :: rest)%list
             /\ Forall keeps_polling pre
             /\ status stat = "FILLED").
  { pose proof H as H0. rewrite wait_for_order_unfold in H0.
    destruct (initial_status _ _ _ s) as [[st0|e|] s1] eqn:Hi;
      try discriminate.
    pose proof Hi as Hi0. apply initial_status_returned in Hi0.
    destruct Hi0 as (es & rest0 & Hs & Hlen).
    rewrite (initial_status_trace _ _ es st0 rest0) in Hi by assumption.
    inversion Hi; subst s1. clear Hi.
    apply poll_status_returned in H0.
    destruct H0 as [(Hf & -> & _)|(Hn & pre & rest & Hs' & Hpre & Hf & _)].
    - exists (map Raise es), rest0. repeat split; try assumption.
      apply Forall_forall. intros r Hr. apply in_map_iff in Hr.
      destruct Hr as (e & <- & _). exact I.
    - cbn [env orders set_orders] in Hs'. subst rest0.
      exists (map Raise es ++ Ok st0 :: pre)%list, rest.
      repeat split; try assumption.
      + rewrite Hs. now rewrite <- app_assoc.
      + apply Forall_app. split.
        * apply Forall_forall. intros r Hr. apply in_map_iff in Hr.
          destruct Hr as (e & <- & _). exact I.
        * constructor; assumption. }
  destruct Hshape as (pre & rest & Hs & Hpre & Hf).
  destruct (wait_for_order_run alt_symbol crypto_symbol order_id
              pre stat rest s Hpre Hf Hs) as (tl & Hrun & Hc).
  rewrite Hrun in H. inversion H; subst s'.
  exists pre, rest, tl. repeat split; try assumption.
  destruct (wait_for_order_tracking _ _ _ _ _ _ Hrun) as (tl' & Htl & F).
  cbn [trace] in Htl. apply app_inv_head in Htl. now subst tl'.
Qed.

(** The balances behind a confirmation that returned. *)
Lemma confirm_sold_returned (alt_symbol : string) (b : flt)
      (s s' : State Exchange) :
  confirm_sold alt_symbol (Some b) s = (Returned tt, s') ->
  exists pre last rest,
    account (env s) = (pre ++ Ok last :: rest)%list
    /\ Forall (balance_holds alt_symbol b) pre
    /\ balance_dropped alt_symbol b last
    /\ s' = {| trace := (trace s ++ repeat (Request GetAccount)
                                           (S (List.length pre)))%list;
               env := set_account rest (env s) |}.
Proof.
  intros H. pose proof H as H0. apply confirm_sold_inv in H0.
  destruct H0 as (pre & last & rest & Ha & Hpre & Hlast & _).
  rewrite (confirm_sold_run alt_symbol b pre last rest s Hpre Hlast Ha) in H.
  inversion H; subst. now exists pre, last, rest.
Qed.

End ReturnedLoops.

(** ** A sell that returns, step by step *)

Section SellReturned.

Context {PF : PyFloat}.
Variables alt crypto : Coin.

Lemma sell_alt_returned_run (s s' : State Exchange) (o : order) :
  _sell_alt alt crypto s = (Returned o, s') ->
  exists (a1 a2 : list balance_entry) (b : flt)
         (filters : list symbol_filter) (f : symbol_filter)
         (rest_i : list (result (option (list symbol_filter))))
         (q : flt) (n : nat) (rest_m : list (result (option order)))
         (pre_o : list (result order_stat)) (stat : order_stat)
         (rest_o : list (result order_stat)) (tl : list event)
         (pre : list (result (list balance_entry)))
         (last : list balance_entry)
         (rest_a : list (result (list balance_entry))),
    account (env s) = (Ok a1 :: Ok a2 :: pre ++ Ok last :: rest_a)%list
    /\ balance_of (symbol alt) a1 = Some b
    /\ symbol_info (env s) = Ok (Some filters) :: rest_i
    /\ List.find (fun f => filterType f =? "LOT_SIZE") filters = Some f
    /\ sell_quantity_at (tick_of_step_size (stepSize f)) (Some b) = Ok q
    /\ market_sells (env s)
       = (repeat (Ok None) n ++ Ok (Some o) :: rest_m)%list
    /\ orders (env s) = (pre_o ++ Ok stat :: rest_o)%list
    /\ Forall keeps_polling pre_o
    /\ status stat = "FILLED"
    /\ count is_fetch tl = S (List.length pre_o)
    /\ Forall (fun ev =>
                 is_tracking (symbol alt ++ symbol crypto) (orderId o) ev
                 = true) tl
    /\ Forall (balance_holds (symbol alt) b) pre
    /\ balance_dropped (symbol alt) b last
    /\ s' = {| trace :=
                 (trace s
                  ++ [TradeLogNew alt crypto true;
                      Request GetAccount; Request GetAccount;
                      Request (GetSymbolInfo (symbol alt ++ symbol crypto));
                      Log (Selling q (symbol alt));
                      Log (Balance (Some b))]
                  ++ repeat (Request (OrderMarketSell
                                        (symbol alt ++ symbol crypto) q))
                            (S n)
                  ++ [Log (Text "order"); Log (OrderPayload (Some o));
                      TradeLogOrdered (Some b)
                                      (balance_of (symbol crypto) a2) q;
                      Log (Text "Waiting for Binance"); Sleep 5]
                  ++ tl
                  ++ repeat (Request GetAccount) (S (List.length pre))
                  ++ [Log (Text ("Sold " ++ symbol alt));
                      TradeLogComplete (cummulativeQuoteQty stat)])%list;
               env := set_account rest_a
                        (set_orders rest_o
                           (set_market_sells rest_m
                              (set_symbol_info rest_i (env s)))) |}.
Proof.
  unfold _sell_alt. rewrite emit_then. intros H.
  apply bind_returned_inv in H. destruct H as (ab & s1 & H1 & H).
  apply get_currency_balance_returned in H1.
  destruct H1 as (a1 & r1 & Ha1 & -> & ->). cbn [env] in Ha1.
  apply bind_returned_inv in H. destruct H as (cb & s2 & H2 & H).
  apply get_currency_balance_returned in H2.
  destruct H2 as (a2 & r2 & Ha2 & -> & ->).
  cbn [env account set_account] in Ha2. subst r1.
  apply bind_returned_inv in H. destruct H as (q & s3 & H3 & H).
  apply sell_quantity_returned in H3.
  destruct H3 as (filters & f & rest_i & Hi & Hf & Hq & ->).
  cbn [env symbol_info set_account] in Hi.
  destruct (balance_of (symbol alt) a1) as [b|] eqn:Hb; [|discriminate].
  unfold logger_info, sleep in H. rewrite !emit_then in H.
  apply bind_returned_inv in H. destruct H as (o' & s4 & H4 & H).
  unfold unbounded in H4. apply submit_market_sell_returned in H4.
  destruct H4 as (n & rest_m & Hm & ->).
  cbn [env market_sells set_account set_symbol_info] in Hm.
  rewrite !emit_then in H.
  apply bind_returned_inv in H. destruct H as (stat & s5 & H5 & H).
  apply wait_for_order_returned in H5.
  destruct H5 as (pre_o & rest_o & tl & Ho & Hpre_o & Hfilled & -> & Hc & Ftl).
  cbn [env orders set_account set_symbol_info set_market_sells] in Ho.
  apply bind_returned_inv in H. destruct H as ([] & s6 & H6 & H).
  apply confirm_sold_returned in H6.
  destruct H6 as (pre & last & rest_a & Ha & Hpre & Hlast & ->).
  cbn [env account set_account set_symbol_info set_market_sells set_orders]
    in Ha. subst r2.
  rewrite !emit_then in H. unfold ret in H. inversion H; subst o' s'.
  exists a1, a2, b, filters, f, rest_i, q, n, rest_m, pre_o, stat, rest_o,
    tl, pre, last, rest_a.
  repeat (split; [first [assumption|reflexivity]|]).
  cbn [trace env]. f_equal.
  repeat rewrite <- app_assoc. reflexivity.
Qed.

End SellReturned.

(** ** A buy that returns, step by step *)

Section BuyReturned.

Context {PF : PyFloat}.

Lemma submit_limit_buy_keeps_orders (fuel : nat) (sym : string) (q : flt)
      (s s' : State Exchange) (r : outcome order) :
  submit_limit_buy fuel sym q s = (r, s') ->
  orders (env s') = orders (env s).
Proof.
  revert s. induction fuel as [|fuel IH]; intros s H.
  - inversion H; subst. reflexivity.
  - cbn [submit_limit_buy] in H.
    unfold bind at 1, try_catch, get_market_ticker_price in H.
    unfold bind at 1 2, get_symbol_ticker, client_call in H.
    destruct (symbol_tickers (env s)) as [|[tickers|e] rest] eqn:Ht;
      cbn in H.
    + inversion H; subst. reflexivity.
    + unfold bind at 1, order_limit_buy, client_call in H. cbn in H.
      destruct (limit_buys (env s)) as [|[[o'|]|e] rest_b] eqn:Hb; cbn in H.
      * inversion H; subst. reflexivity.
      * inversion H; subst. reflexivity.
      * apply IH in H. exact H.
      * destruct e; cbn in H; apply IH in H; exact H.
    + destruct e; cbn in H; apply IH in H; exact H.
Qed.

Variables alt crypto : Coin.

Lemma buy_alt_returned_run (s s' : State Exchange) (o : order) :
  _buy_alt alt crypto s = (Returned o, s') ->
  exists (a1 a2 : list balance_entry) (tickers : list ticker_entry)
         (filters : list symbol_filter) (f : symbol_filter) (q : flt)
         (tl : list event) (limit_price : option flt)
         (pre_o : list (result order_stat)) (stat : order_stat)
         (mid : list event),
    (exists rest_a, account (env s) = Ok a1 :: Ok a2 :: rest_a)
    /\ (exists rest_t, symbol_tickers (env s) = Ok tickers :: rest_t)
    /\ (exists rest_i, symbol_info (env s) = Ok (Some filters) :: rest_i)
    /\ List.find (fun f => filterType f =? "LOT_SIZE") filters = Some f
    /\ buy_quantity_at (tick_of_step_size (stepSize f))
                       (balance_of (symbol crypto) a2)
                       (price_of (symbol alt ++ symbol crypto) tickers)
       = Ok q
    /\ trace s'
       = (trace s
          ++ [TradeLogNew alt crypto false;
              Request GetAccount; Request GetAccount;
              Request GetSymbolTicker;
              Request (GetSymbolInfo (symbol alt ++ symbol crypto));
              Log (BuyQty q)]
          ++ tl
          ++ [Request (OrderLimitBuy (symbol alt ++ symbol crypto) q
                                     limit_price);
              Log (OrderPayload (Some o));
              TradeLogOrdered (balance_of (symbol alt) a1)
                              (balance_of (symbol crypto) a2) q]
          ++ mid
          ++ [Log (Text ("Bought " ++ symbol alt));
              TradeLogComplete (cummulativeQuoteQty stat)])%list
    /\ Forall (fun ev => is_accepted ev = false) tl
    /\ Forall (fun ev =>
                 is_tracking (symbol alt ++ symbol crypto) (orderId o) ev
                 = true) mid
    /\ count is_fetch mid = S (List.length pre_o)
    /\ orders (env s) = (pre_o ++ Ok stat :: orders (env s'))%list
    /\ Forall keeps_polling pre_o
    /\ status stat = "FILLED".
Proof.
  unfold _buy_alt. rewrite emit_then. intros H.
  apply bind_returned_inv in H. destruct H as (ab & s1 & H1 & H).
  apply get_currency_balance_returned in H1.
  destruct H1 as (a1 & r1 & Ha1 & -> & ->). cbn [env] in Ha1.
  apply bind_returned_inv in H. destruct H as (cb & s2 & H2 & H).
  apply get_currency_balance_returned in H2.
  destruct H2 as (a2 & r2 & Ha2 & -> & ->).
  cbn [env account set_account] in Ha2. subst r1.
  apply bind_returned_inv in H. destruct H as (tp & s3 & H3 & H).
  apply get_market_ticker_price_returned in H3.
  destruct H3 as (tickers & rest_t & Ht & -> & ->).
  cbn [env symbol_tickers set_account] in Ht.
  apply bind_returned_inv in H. destruct H as (q & s4 & H4 & H).
  apply buy_quantity_returned in H4.
  destruct H4 as (filters & f & rest_i & Hi & Hf & Hq & ->).
  cbn [env symbol_info set_account set_symbol_tickers] in Hi.
  unfold logger_info in H. rewrite emit_then in H.
  apply bind_returned_inv in H. destruct H as (o' & s5 & H5 & H).
  unfold unbounded in H5.
  pose proof (submit_limit_buy_keeps_orders _ _ _ _ _ _ H5) as Hkeep.
  cbn [env orders set_account set_symbol_tickers set_symbol_info] in Hkeep.
  apply submit_limit_buy_returned in H5.
  destruct H5 as (tl & lp & Htl & Ftl). cbn [trace] in Htl.
  rewrite emit_then in H.
  apply bind_returned_inv in H. destruct H as (stat & s6 & H6 & H).
  apply wait_for_order_returned in H6.
  destruct H6 as (pre_o & rest_o & mid & Ho & Hpre_o & Hfilled & -> & Hc
                  & Fmid).
  cbn [env] in Ho. rewrite Hkeep in Ho.
  rewrite !emit_then in H. unfold ret in H. inversion H; subst o' s'.
  exists a1, a2, tickers, filters, f, q, tl, lp, pre_o, stat, mid.
  split; [now exists r2|]. split; [now exists rest_t|].
  split; [now exists rest_i|].
  repeat (split; [first [assumption|reflexivity]|]).
  split; [|repeat (split; [first [assumption|reflexivity]|]); assumption].
  cbn [trace]. rewrite Htl.
  repeat rewrite <- app_assoc. reflexivity.
Qed.

End BuyReturned.

(** * Loops that have no bound of their own *)

Section LoopsGoOn.

Context {PF : PyFloat}.

(** While the exchange answers None the sell path's submission loop sends
    the market sell again. *)
Lemma submit_market_sell_pending (n : nat) (fuel : nat) (sym : string)
      (q : flt) (s : State Exchange) :
  market_sells (env s) = repeat (Ok None) n ->
  (n < fuel)%nat ->
  exists s',
    submit_market_sell fuel sym q s = (Pending, s')
    /\ trace s'
       = (trace s ++ repeat (Request (OrderMarketSell sym q)) n)%list.
Proof.
  revert fuel s. induction n as [|n IH]; intros fuel s H Hfuel;
    (destruct fuel as [|fuel]; [lia|]);
    cbn [submit_market_sell]; unfold bind, order_market_sell, client_call;
    rewrite H; cbn [repeat of_result ret].
  - exists s. split; [reflexivity|]. now rewrite app_nil_r.
  - destruct (IH fuel
                {| trace := (trace s
                             ++ [Request (OrderMarketSell sym q)])%list;
                   env := set_market_sells (repeat (Ok None) n) (env s) |})
      as (s' & Hrun & Htr); [reflexivity|lia|].
    exists s'. split; [exact Hrun|].
    rewrite Htr. cbn [trace]. now rewrite <- app_assoc.
Qed.

(** While the fetched balance has not dropped the confirmation fetches it
    again. *)
Lemma confirm_balance_pending (alt_symbol : string) (b : flt)
      (pre : list (result (list balance_entry))) (fuel : nat) (v : flt)
      (s : State Exchange) :
  Forall (balance_holds alt_symbol b) pre ->
  fge v b = true ->
  account (env s) = pre ->
  (List.length pre < fuel)%nat ->
  exists s',
    confirm_balance fuel alt_symbol (Some b) (Some v) s = (Pending, s')
    /\ trace s'
       = (trace s ++ repeat (Request GetAccount) (List.length pre))%list.
Proof.
  intros Hpre. revert fuel v s.
  induction Hpre as [|r pre (acct & w & -> & Hw & Hge) Hpre IH];
    intros fuel v s Hv H Hfuel;
    (destruct fuel as [|fuel]; [cbn in Hfuel; lia|]);
    rewrite (confirm_balance_again alt_symbol b fuel v s Hv).
  - rewrite get_currency_balance_none by exact H.
    exists s. split; [reflexivity|]. cbn. now rewrite app_nil_r.
  - rewrite (get_currency_balance_next _ _ acct pre) by exact H.
    rewrite Hw.
    destruct (IH fuel w
                {| trace := (trace s ++ [Request GetAccount])%list;
                   env := set_account pre (env s) |})
      as (s' & Hrun & Htr);
      [exact Hge|reflexivity|cbn in Hfuel; lia|].
    exists s'. split; [exact Hrun|].
    rewrite Htr. cbn [trace List.length repeat]. now rewrite <- app_assoc.
Qed.

Lemma confirm_sold_pending (alt_symbol : string) (b : flt)
      (pre : list (result (list balance_entry))) (s : State Exchange) :
  Forall (balance_holds alt_symbol b) pre ->
  account (env s) = pre ->
  exists s',
    confirm_sold alt_symbol (Some b) s = (Pending, s')
    /\ trace s'
       = (trace s ++ repeat (Request GetAccount) (List.length pre))%list.
Proof.
  intros Hpre H. rewrite confirm_sold_unfold.
  destruct Hpre as [|r pre (acct & w & -> & Hw & Hge) Hpre].
  - rewrite get_currency_balance_none by exact H.
    exists s. split; [reflexivity|]. cbn. now rewrite app_nil_r.
  - rewrite (get_currency_balance_next _ _ acct pre) by exact H.
    rewrite Hw.
    destruct (confirm_balance_pending alt_symbol b pre
                (S (List.length pre)) w
                {| trace := (trace s ++ [Request GetAccount])%list;
                   env := set_account pre (env s) |} Hpre Hge eq_refl)
      as (s' & Hrun & Htr); [lia|].
    exists s'. split; [exact Hrun|].
    rewrite Htr. cbn [trace List.length repeat]. now rewrite <- app_assoc.
Qed.

End LoopsGoOn.

(** * Errors of the quantity arithmetic, and what [retry] makes of them *)

Section QuantityErrors.

Context {PF : PyFloat}.
Variables alt crypto : Coin.

(** An error of [sell_quantity]'s arithmetic leaves [_sell_alt]. *)
Lemma sell_alt_quantity_error (s : State Exchange)
      (a1 a2 : list balance_entry)
      (rest_a : list (result (list balance_entry)))
      (filters : list symbol_filter) (f : symbol_filter)
      (rest_i : list (result (option (list symbol_filter)))) (e : exn) :
  account (env s) = Ok a1 :: Ok a2 :: rest_a ->
  symbol_info (env s) = Ok (Some filters) :: rest_i ->
  List.find (fun f => filterType f =? "LOT_SIZE") filters = Some f ->
  sell_quantity_at (tick_of_step_size (stepSize f))
                   (balance_of (symbol alt) a1) = Raise e ->
  _sell_alt alt crypto s
  = (Raised e,
     {| trace :=
          (trace s
           ++ [TradeLogNew alt crypto true;
               Request GetAccount; Request GetAccount;
               Request (GetSymbolInfo (symbol alt ++ symbol crypto))])%list;
        env := set_symbol_info rest_i (set_account rest_a (env s)) |}).
Proof.
  intros Ha Hi Hf Hq.
  unfold _sell_alt. rewrite emit_then.
  erewrite bind_returned
    by (apply get_currency_balance_next; cbn [env]; exact Ha).
  erewrite bind_returned
    by (apply get_currency_balance_next; reflexivity).
  erewrite bind_raised.
  2:{ unfold sell_quantity.
      erewrite bind_returned
        by (eapply get_alt_tick_next; cbn [env symbol_info set_account];
            eassumption).
      rewrite Hq. reflexivity. }
  cbn [trace env]. f_equal. f_equal.
  repeat rewrite <- app_assoc. reflexivity.
Qed.

(** An error of [buy_quantity]'s arithmetic leaves [_buy_alt]. *)
Lemma buy_alt_quantity_error_run (s : State Exchange)
      (a1 a2 : list balance_entry)
      (rest_a : list (result (list balance_entry)))
      (tickers : list ticker_entry)
      (rest_t : list (result (list ticker_entry)))
      (filters : list symbol_filter) (f : symbol_filter)
      (rest_i : list (result (option (list symbol_filter)))) (e : exn) :
  account (env s) = Ok a1 :: Ok a2 :: rest_a ->
  symbol_tickers (env s) = Ok tickers :: rest_t ->
  symbol_info (env s) = Ok (Some filters) :: rest_i ->
  List.find (fun f => filterType f =? "LOT_SIZE") filters = Some f ->
  buy_quantity_at (tick_of_step_size (stepSize f))
                  (balance_of (symbol crypto) a2)
                  (price_of (symbol alt ++ symbol crypto) tickers)
  = Raise e ->
  _buy_alt alt crypto s
  = (Raised e,
     {| trace :=
          (trace s
           ++ [TradeLogNew alt crypto false;
               Request GetAccount; Request GetAccount;
               Request GetSymbolTicker;
               Request (GetSymbolInfo (symbol alt ++ symbol crypto))])%list;
        env := set_symbol_info rest_i
                 (set_symbol_tickers rest_t
                    (set_account rest_a (env s))) |}).
Proof.
  intros Ha Ht Hi Hf Hq.
  unfold _buy_alt. rewrite emit_then.
  erewrite bind_returned
    by (apply get_currency_balance_next; cbn [env]; exact Ha).
  erewrite bind_returned
    by (apply get_currency_balance_next; reflexivity).
  erewrite bind_returned
    by (apply get_market_ticker_price_next;
        cbn [env symbol_tickers set_account]; exact Ht).
  erewrite bind_raised.
  2:{ unfold buy_quantity.
      erewrite bind_returned
        by (eapply get_alt_tick_next;
            cbn [env symbol_info set_account set_symbol_tickers];
            eassumption).
      rewrite Hq. reflexivity. }
  cbn [trace env]. f_equal. f_equal.
  repeat rewrite <- app_assoc. reflexivity.
Qed.

End QuantityErrors.

Section RetriedErrors.

Context {PF : PyFloat}.
Variables alt crypto : Coin.
Variables (a1 a2 : list balance_entry) (tickers : list ticker_entry)
          (filters : list symbol_filter) (f : symbol_filter) (e : exn).
Hypothesis lot_size :
  List.find (fun f => filterType f =? "LOT_SIZE") filters = Some f.

(** Attempts of the sell path that each end in the error [e] of the
    quantity arithmetic. *)
Lemma sell_alt_quantity_errors (n a : nat) (s : State Exchange)
      (rest_a : list (result (list balance_entry)))
      (rest_i : list (result (option (list symbol_filter)))) :
  sell_quantity_at (tick_of_step_size (stepSize f))
                   (balance_of (symbol alt) a1) = Raise e ->
  account (env s) = (List.concat (repeat [Ok a1; Ok a2] n) ++ rest_a)%list ->
  symbol_info (env s) = (repeat (Ok (Some filters)) n ++ rest_i)%list ->
  exists s' tl,
    failed_attempts (value (_sell_alt alt crypto)) a (a + n) s s'
    /\ trace s' = (trace s ++ tl)%list
    /\ count is_failure_log tl = n
    /\ logged_errors tl
       = (if ((a =? 0) && (0 <? n))%nat then [e] else [])
    /\ market_sells (env s') = market_sells (env s)
    /\ account (env s') = rest_a.
Proof.
  intros Hq. revert a s. induction n as [|n IH]; intros a s Ha Hi.
  - exists s, []. rewrite Nat.add_0_r, app_nil_r, andb_false_r.
    repeat split; [constructor|exact Ha].
  - cbn [repeat List.concat app] in Ha, Hi.
    pose proof (sell_alt_quantity_error alt crypto s a1 a2 _ filters f _ e
                  Ha Hi lot_size Hq) as Hrun.
    apply value_raised in Hrun.
    match type of Hrun with
    | _ = (_, ?s1) =>
        destruct (IH (S a) (after_failure a e s1) eq_refl eq_refl)
          as (s' & tl & Hfail & Htr & Hc & Hl & Hm & Hacc)
    end.
    eexists s', _. split; [|split; [|split; [|split; [|split]]]].
    + replace (a + S n)%nat with (S a + n)%nat by lia.
      eapply failed_next; [exact Hrun|exact Hfail].
    + rewrite Htr. unfold after_failure. cbn [trace].
      repeat rewrite <- app_assoc. reflexivity.
    + rewrite !count_app, Hc. destruct (a =? 0)%nat; reflexivity.
    + rewrite !logged_errors_app, Hl. cbn [Nat.eqb andb].
      destruct (a =? 0)%nat; reflexivity.
    + exact Hm.
    + exact Hacc.
Qed.

(** Attempts of the buy path that each end in the error [e] of the
    quantity arithmetic. *)
Lemma buy_alt_quantity_errors (n a : nat) (s : State Exchange)
      (rest_a : list (result (list balance_entry)))
      (rest_t : list (result (list ticker_entry)))
      (rest_i : list (result (option (list symbol_filter)))) :
  buy_quantity_at (tick_of_step_size (stepSize f))
                  (balance_of (symbol crypto) a2)
                  (price_of (symbol alt ++ symbol crypto) tickers)
  = Raise e ->
  account (env s) = (List.concat (repeat [Ok a1; Ok a2] n) ++ rest_a)%list ->
  symbol_tickers (env s) = (repeat (Ok tickers) n ++ rest_t)%list ->
  symbol_info (env s) = (repeat (Ok (Some filters)) n ++ rest_i)%list ->
  exists s' tl,
    failed_attempts (value (_buy_alt alt crypto)) a (a + n) s s'
    /\ trace s' = (trace s ++ tl)%list
    /\ count is_failure_log tl = n
    /\ logged_errors tl
       = (if ((a =? 0) && (0 <? n))%nat then [e] else [])
    /\ limit_buys (env s') = limit_buys (env s)
    /\ account (env s') = rest_a.
Proof.
  intros Hq. revert a s. induction n as [|n IH]; intros a s Ha Ht Hi.
  - exists s, []. rewrite Nat.add_0_r, app_nil_r, andb_false_r.
    repeat split; [constructor|exact Ha].
  - cbn [repeat List.concat app] in Ha, Ht, Hi.
    pose proof (buy_alt_quantity_error_run alt crypto s a1 a2 _ tickers _
                  filters f _ e Ha Ht Hi lot_size Hq) as Hrun.
    apply value_raised in Hrun.
    match type of Hrun with
    | _ = (_, ?s1) =>
        destruct (IH (S a) (after_failure a e s1) eq_refl eq_refl eq_refl)
          as (s' & tl & Hfail & Htr & Hc & Hl & Hm & Hacc)
    end.
    eexists s', _. split; [|split; [|split; [|split; [|split]]]].
    + replace (a + S n)%nat with (S a + n)%nat by lia.
      eapply failed_next; [exact Hrun|exact Hfail].
    + rewrite Htr. unfold after_failure. cbn [trace].
      repeat rewrite <- app_assoc. reflexivity.
    + rewrite !count_app, Hc. destruct (a =? 0)%nat; reflexivity.
    + rewrite !logged_errors_app, Hl. cbn [Nat.eqb andb].
      destruct (a =? 0)%nat; reflexivity.
    + exact Hm.
    + exact Hacc.
Qed.

(** Twenty such attempts in a row: [sell_alt] returns None. *)
Lemma sell_alt_gives_up_on_quantity_errors (s : State Exchange)
      (rest_a : list (result (list balance_entry)))
      (rest_i : list (result (option (list symbol_filter)))) :
  sell_quantity_at (tick_of_step_size (stepSize f))
                   (balance_of (symbol alt) a1) = Raise e ->
  account (env s)
  = (List.concat (repeat [Ok a1; Ok a2] 20) ++ rest_a)%list ->
  symbol_info (env s) = (repeat (Ok (Some filters)) 20 ++ rest_i)%list ->
  exists s' tl,
    sell_alt alt crypto s = (Returned None, s')
    /\ trace s' = (trace s ++ Sleep 1 :: tl)%list
    /\ count is_failure_log tl = 20%nat
    /\ logged_errors tl = [e]
    /\ market_sells (env s') = market_sells (env s).
Proof.
  intros Hq Ha Hi.
  destruct (sell_alt_quantity_errors 20 0 (slept 1 s) rest_a rest_i Hq Ha Hi)
    as (s' & tl & Hfail & Htr & Hc & Hl & Hm & _).
  exists s', tl. repeat split; try assumption.
  - unfold sell_alt. rewrite retry_unfold.
    apply retry_loop_exhausted; [exact Hfail|lia].
  - rewrite Htr. cbn [slept trace]. now rewrite <- app_assoc.
Qed.

(** Twenty such attempts in a row: [buy_alt] returns None. *)
Lemma buy_alt_gives_up_on_quantity_errors (s : State Exchange)
      (rest_a : list (result (list balance_entry)))
      (rest_t : list (result (list ticker_entry)))
      (rest_i : list (result (option (list symbol_filter)))) :
  buy_quantity_at (tick_of_step_size (stepSize f))
                  (balance_of (symbol crypto) a2)
                  (price_of (symbol alt ++ symbol crypto) tickers)
  = Raise e ->
  account (env s)
  = (List.concat (repeat [Ok a1; Ok a2] 20) ++ rest_a)%list ->
  symbol_tickers (env s) = (repeat (Ok tickers) 20 ++ rest_t)%list ->
  symbol_info (env s) = (repeat (Ok (Some filters)) 20 ++ rest_i)%list ->
  exists s' tl,
    buy_alt alt crypto s = (Returned None, s')
    /\ trace s' = (trace s ++ Sleep 1 :: tl)%list
    /\ count is_failure_log tl = 20%nat
    /\ logged_errors tl = [e]
    /\ limit_buys (env s') = limit_buys (env s).
Proof.
  intros Hq Ha Ht Hi.
  destruct (buy_alt_quantity_errors 20 0 (slept 1 s) rest_a rest_t rest_i
              Hq Ha Ht Hi)
    as (s' & tl & Hfail & Htr & Hc & Hl & Hm & _).
  exists s', tl. repeat split; try assumption.
  - unfold buy_alt. rewrite retry_unfold.
    apply retry_loop_exhausted; [exact Hfail|lia].
  - rewrite Htr. cbn [slept trace]. now rewrite <- app_assoc.
Qed.

End RetriedErrors.

(** * The quantity arithmetic on doubles *)

Section Binary64Errors.

Lemma of_int_raise (n : Z) (e : exn) :
  Binary64.of_int n = Raise e -> e = OverflowError.
Proof.
  unfold Binary64.of_int.
  destruct (binary_normalize prec emax n 0 false); intros H;
    inversion H; reflexivity.
Qed.

Lemma floor_raise (x : float) (e : exn) :
  Binary64.floor x = Raise e -> e = ValueError \/ e = OverflowError.
Proof.
  unfold Binary64.floor. destruct (Prim2SF x); intros H; inversion H; auto.
Qed.

Lemma div_nonzero (x d : float) :
  PrimFloat.is_zero d = false ->
  Binary64.div x d = Ok (PrimFloat.div x d).
Proof. intros H. unfold Binary64.div. now rewrite H. Qed.

(** With a balance that is present, [sell_quantity] on doubles raises
    neither TypeError nor ZeroDivisionError: what it can raise comes from
    [math.floor] of a NaN or of an infinity. *)
Lemma sell_quantity_binary64_errors (t : Z) (b d : float) (e : exn) :
  @ten_pow binary64 t = Ok d ->
  PrimFloat.is_zero d = false ->
  @sell_quantity_at binary64 t (Some b) = Raise e ->
  e = ValueError \/ e = OverflowError.
Proof.
  intros Hd Hz. unfold sell_quantity_at. cbn [operand rbind]. rewrite Hd.
  cbn [rbind floor fmul int_to_float fdiv binary64].
  destruct (Binary64.floor (b * d)) as [n|e0] eqn:Hf; cbn [rbind].
  - destruct (Binary64.of_int n) as [m|e1] eqn:Hm; cbn [rbind].
    + rewrite div_nonzero by exact Hz. discriminate.
    + intros H. inversion H; subst. right. now apply of_int_raise in Hm.
  - intros H. inversion H; subst. now apply floor_raise in Hf.
Qed.

(** The same for [buy_quantity], with a price that is present and not
    zero. *)
Lemma buy_quantity_binary64_errors (t : Z) (b p d : float) (e : exn) :
  @ten_pow binary64 t = Ok d ->
  PrimFloat.is_zero d = false ->
  PrimFloat.is_zero p = false ->
  @buy_quantity_at binary64 t (Some b) (Some p) = Raise e ->
  e = ValueError \/ e = OverflowError.
Proof.
  intros Hd Hz Hp. unfold buy_quantity_at. cbn [operand rbind]. rewrite Hd.
  cbn [rbind floor fmul int_to_float fdiv binary64].
  rewrite div_nonzero by exact Hp. cbn [rbind].
  destruct (Binary64.floor (b * d / p)) as [n|e0] eqn:Hf; cbn [rbind].
  - destruct (Binary64.of_int n) as [m|e1] eqn:Hm; cbn [rbind].
    + rewrite div_nonzero by exact Hz. discriminate.
    + intros H. inversion H; subst. right. now apply of_int_raise in Hm.
  - intros H. inversion H; subst. now apply floor_raise in Hf.
Qed.

(** A price of zero, of either sign. *)
Lemma buy_quantity_zero_price_binary64 (t : Z) (b p d : float) :
  @ten_pow binary64 t = Ok d ->
  PrimFloat.is_zero p = true ->
  @buy_quantity_at binary64 t (Some b) (Some p) = Raise ZeroDivisionError.
Proof.
  intros Hd Hp. unfold buy_quantity_at. cbn [operand rbind]. rewrite Hd.
  cbn [rbind fmul fdiv binary64]. unfold Binary64.div. now rewrite Hp.
Qed.

End Binary64Errors.

Section AbsentPrice.

Context {PF : PyFloat}.

(** A price that is absent, with a balance that is present. *)
Lemma buy_quantity_absent_price (t : Z) (b d : flt) :
  ten_pow t = Ok d -> buy_quantity_at t (Some b) None = Raise TypeError.
Proof.
  intros Hd. unfold buy_quantity_at. cbn [operand rbind]. now rewrite Hd.
Qed.

End AbsentPrice.

(** ** A buy sized on doubles that costs more than the balance *)

Section Binary64BuyCost.

(** The quote balance 0.44162070 and the price 0.08004000, as doubles, at
    the tick exponent 5: the quotient is rounded up to 551750.0 before the
    floor is taken, where floor(b / p * 10^5) is 551749. *)
Lemma buy_quantity_rounds_up_binary64 :
  let b := 0x1.c438377ef24e6p-2%float in
  let p := 0x1.47d805e5f30e8p-4%float in
  let q := 0x1.611eb851eb852p+2%float in
  @buy_quantity_at binary64 5 (Some b) (Some p) = Ok q
  /\ (Binary64Value.to_Q b < Binary64Value.to_Q q * Binary64Value.to_Q p)%Q
  /\ PrimFloat.ltb b (q * p) = true
  /\ Qfloor (Binary64Value.to_Q b / Binary64Value.to_Q p * Qpow10 5) = 551749
  /\ (inject_Z 551749 / Qpow10 5 < Binary64Value.to_Q q)%Q
  /\ (inject_Z 551749 / Qpow10 5 * Binary64Value.to_Q p
      <= Binary64Value.to_Q b)%Q.
Proof.
  cbv zeta. split; [|split; [|split; [|split; [|split]]]].
  - vm_cast_no_check
      (@eq_refl _ (@Ok float 0x1.611eb851eb852p+2%float)).
  - vm_compute. reflexivity.
  - vm_compute. reflexivity.
  - vm_compute. reflexivity.
  - vm_compute. reflexivity.
  - vm_compute. discriminate.
Qed.

End Binary64BuyCost.

(** * The claims *)

(** C1. Tick exponent from the step-size string.  For a step size written
    "1", [k] zeros, ".", any zeros (that is 10^k), [get_alt_tick] returns
    [-k]; for "0.", [d] zeros, "1", any zeros (that is 10^-(d+1), the 1
    being digit [d + 1] after the point), it returns [d + 1].  In
    particular "0.00100000" gives 3, "1.00000000" gives 0 and
    "100.00000000" gives -2. *)
Theorem get_alt_tick_powers_of_ten {PF : PyFloat}
        (alt_symbol crypto_symbol : string) :
  (forall k m : nat,
      fst (get_alt_tick alt_symbol crypto_symbol
             (fresh (lot_size_exchange ("1" ++ zeros k ++ "." ++ zeros m))))
      = Returned (- Z.of_nat k))
  /\ (forall d m : nat,
         fst (get_alt_tick alt_symbol crypto_symbol
                (fresh (lot_size_exchange ("0." ++ zeros d ++ "1" ++ zeros m))))
         = Returned (Z.of_nat d + 1))
  /\ tick_of_step_size "0.00100000" = 3
  /\ tick_of_step_size "1.00000000" = 0
  /\ tick_of_step_size "100.00000000" = -2.
Proof.
  assert (H : forall step,
             fst (get_alt_tick alt_symbol crypto_symbol
                    (fresh (lot_size_exchange step)))
             = Returned (tick_of_step_size step)).
  { intros step.
    rewrite (get_alt_tick_next alt_symbol crypto_symbol
               (fresh (lot_size_exchange step))
               [ {| filterType := "PRICE_FILTER"; stepSize := "" |};
                 {| filterType := "LOT_SIZE"; stepSize := step |} ]
               {| filterType := "LOT_SIZE"; stepSize := step |} []);
      reflexivity. }
  repeat split.
  - intros k m. rewrite H. f_equal. apply tick_of_power_of_ten.
  - intros d m. rewrite H. f_equal.
    rewrite tick_of_negative_power_of_ten. lia.
Qed.

(** C2. [sell_quantity] computed in binary64 is not floor(b * 10^t) / 10^t
    and can exceed the balance.  At the balance 3.6999999999999997 (the
    double just below 3.7) and tick exponent 1 the product with 10 rounds
    to 37 and the result is 3.7: more than the balance, where
    floor(b * 10) / 10 is 3.6.  At the double nearest to 0.145, which lies
    below 0.145, and tick exponent 3 the product rounds to 145 and the
    result is the balance itself, where floor(b * 1000) is 144. *)
Theorem sell_quantity_exceeds_balance :
  let b := 0x1.d999999999999p+1%float in
  let c := 0x1.28f5c28f5c28fp-3%float in
  (exists r : float,
      @sell_quantity_at binary64 1 (Some b) = Ok r
      /\ (Binary64Value.to_Q b < Binary64Value.to_Q r)%Q
      /\ (inject_Z (Qfloor (Binary64Value.to_Q b * Qpow10 1)) / Qpow10 1
          == 36 # 10)%Q
      /\ (36 # 10 < Binary64Value.to_Q r)%Q)
  /\ @sell_quantity_at binary64 3 (Some c) = Ok c
  /\ (Binary64Value.to_Q c < 145 # 1000)%Q
  /\ Qfloor (Binary64Value.to_Q c * Qpow10 3) = 144.
Proof.
  split.
  - exists 0x1.d99999999999ap+1%float. repeat split.
  - repeat split.
Qed.

(** C3. The contract of [retry].  After [k < 20] calls that raise, a call
    that does not raise ends the run: its value is returned and the state
    is the one that call left, so nothing is attempted after it.  When 20
    calls in a row raise, [retry] returns None.  On a scripted operation
    the calls can be counted: [k + 1] invocations in the first case and the
    rest of the script untouched; in the second exactly 20 invocations, and
    only the first error has its detail logged. *)
Theorem retry_contract {PF : PyFloat} {V : Type} :
  (forall (E : Type) (func : M E (option V)) (k : nat)
          (s s1 s' : State E) (v : option V),
      failed_attempts func 0 k (slept 1 s) s1 ->
      (k < 20)%nat ->
      func s1 = (Returned v, s') ->
      retry func s = (Returned v, s'))
  /\ (forall (E : Type) (func : M E (option V)) (s s' : State E),
         failed_attempts func 0 20 (slept 1 s) s' ->
         retry func s = (Returned None, s'))
  /\ (forall (es : list exn) (v : option V)
             (rest : list (result (option V))) (tr : list event),
         (List.length es < 20)%nat ->
         exists tl,
           retry scripted
             {| trace := tr; env := (map Raise es ++ Ok v :: rest)%list |}
           = (Returned v,
              {| trace := (tr ++ Sleep 1 :: tl)%list; env := rest |})
           /\ count is_invoke tl = S (List.length es))
  /\ (forall (es : list exn) (rest : list (result (option V)))
             (tr : list event),
         List.length es = 20%nat ->
         exists tl,
           retry scripted
             {| trace := tr; env := (map Raise es ++ rest)%list |}
           = (Returned None,
              {| trace := (tr ++ Sleep 1 :: tl)%list; env := rest |})
           /\ count is_invoke tl = 20%nat
           /\ logged_errors tl = firstn 1 es).
Proof.
  repeat split.
  - intros E func k s s1 s' v Hfail Hk Hv.
    rewrite retry_unfold.
    eapply retry_loop_settles; try eassumption; [lia|discriminate].
  - intros E func s s' Hfail. rewrite retry_unfold.
    apply retry_loop_exhausted; [exact Hfail|lia].
  - intros es v rest tr Hlen.
    destruct (retry_scripted_success es v rest tr Hlen)
      as (tl & Hrun & Hinv & _ & _).
    now exists tl.
  - intros es rest tr Hlen.
    destruct (retry_scripted_exhausted es rest tr Hlen)
      as (tl & Hrun & Hinv & _ & Hlog).
    now exists tl.
Qed.

(** An operation that succeeds on its 3rd call: [retry] returns that
    success after 3 invocations and leaves the 4th outcome unused. *)
Lemma retry_contract_witness :
  (List.length [TypeError; ValueError] < 20)%nat
  /\ exists tl,
      @retry exact _ Z scripted
        (fresh [Raise TypeError; Raise ValueError; Ok (Some 7);
                Raise TypeError])
      = (Returned (Some 7),
         {| trace := ([] ++ Sleep 1 :: tl)%list; env := [Raise TypeError] |})
      /\ count is_invoke tl = 3%nat.
Proof.
  split; [cbn; lia|].
  apply (proj1 (proj2 (proj2 (@retry_contract exact Z)))
           [TypeError; ValueError] (Some 7) [Raise TypeError] []).
  cbn; lia.
Defined.

(** C8, as stated, fails: an operation that returns None on its first
    call and an operation that raises 20 times give the same result. *)
Lemma retry_sentinel_is_a_legitimate_result :
  fst (@retry exact _ Z scripted (fresh [Ok None])) = Returned None
  /\ fst (@retry exact _ Z scripted (fresh (repeat (Raise TypeError) 20)))
     = Returned None.
Proof. split; vm_compute; reflexivity. Qed.

(** C8, amended.  [retry] returns None on exhaustion; for an operation
    that never returns None this None is told apart from every result of
    the operation: [retry] returns None exactly when 20 attempts in a row
    raised.  [_buy_alt] and [_sell_alt], whose result is an order, are such
    operations. *)
Theorem retry_sentinel_distinct_when_never_none {PF : PyFloat} :
  (forall (E V : Type) (func : M E (option V)),
      (forall s s', func s <> (Returned None, s')) ->
      forall s s',
        retry func s = (Returned None, s')
        <-> failed_attempts func 0 20 (slept 1 s) s')
  /\ (forall (alt crypto : Coin) (s s' : State Exchange),
         buy_alt alt crypto s = (Returned None, s')
         <-> failed_attempts (value (_buy_alt alt crypto)) 0 20
                             (slept 1 s) s')
  /\ (forall (alt crypto : Coin) (s s' : State Exchange),
         sell_alt alt crypto s = (Returned None, s')
         <-> failed_attempts (value (_sell_alt alt crypto)) 0 20
                             (slept 1 s) s').
Proof.
  split; [|split].
  - intros E V func. apply retry_none_iff.
  - intros alt crypto. apply retry_none_iff.
    intros s0 s1. apply value_never_none.
  - intros alt crypto. apply retry_none_iff.
    intros s0 s1. apply value_never_none.
Qed.

(** An operation that always raises TypeError never returns None; [retry]
    on it returns None exactly on 20 failed attempts. *)
Lemma retry_sentinel_distinct_witness :
  (forall s s' : @State exact unit,
      @value exact unit Z (raise TypeError) s <> (Returned None, s'))
  /\ forall s s' : @State exact unit,
      @retry exact unit Z (value (raise TypeError)) s = (Returned None, s')
      <-> failed_attempts (@value exact unit Z (raise TypeError)) 0 20
                          (slept 1 s) s'.
Proof.
  split.
  - apply value_never_none.
  - apply (proj1 (@retry_sentinel_distinct_when_never_none exact) unit Z
             (value (raise TypeError))).
    apply value_never_none.
Defined.

(** C9, as stated, fails: an operation that raises twice and then
    succeeds is invoked three times, and nothing but the two log lines of
    the handler lies between the first two invocations. *)
Lemma retry_no_delay_between_attempts :
  trace (snd (@retry exact _ Z scripted
                (fresh [Raise TypeError; Raise TypeError; Ok (Some 1)])))
  = ([Sleep 1; Invoke]
       ++ [Log (Text "Failed to Buy/Sell. Trying Again."); Log (Exn TypeError)]
       ++ [Invoke]
       ++ [Log (Text "Failed to Buy/Sell. Trying Again.")]
       ++ [Invoke])%list
  /\ @count exact is_sleep
       [Log (Text "Failed to Buy/Sell. Trying Again."); Log (Exn TypeError)]
     = 0%nat.
Proof. split; vm_compute; reflexivity. Qed.

(** C9, amended.  [retry] sleeps 1 second once, before the first attempt,
    and never between attempts: in a run of [retry] on a scripted operation
    the events after that first sleep hold every invocation and no
    sleep. *)
Theorem retry_sleeps_once_before_first_attempt {PF : PyFloat} {V : Type} :
  (forall (es : list exn) (v : option V) (rest : list (result (option V)))
          (tr : list event),
      (List.length es < 20)%nat ->
      exists tl,
        retry scripted
          {| trace := tr; env := (map Raise es ++ Ok v :: rest)%list |}
        = (Returned v, {| trace := (tr ++ Sleep 1 :: tl)%list; env := rest |})
        /\ count is_invoke tl = S (List.length es)
        /\ count is_sleep tl = 0%nat)
  /\ (forall (es : list exn) (rest : list (result (option V)))
             (tr : list event),
         List.length es = 20%nat ->
         exists tl,
           retry scripted
             {| trace := tr; env := (map Raise es ++ rest)%list |}
           = (Returned None,
              {| trace := (tr ++ Sleep 1 :: tl)%list; env := rest |})
           /\ count is_invoke tl = 20%nat
           /\ count is_sleep tl = 0%nat).
Proof.
  split.
  - intros es v rest tr Hlen.
    destruct (retry_scripted_success es v rest tr Hlen)
      as (tl & Hrun & Hinv & Hsl & _).
    now exists tl.
  - intros es rest tr Hlen.
    destruct (retry_scripted_exhausted es rest tr Hlen)
      as (tl & Hrun & Hinv & Hsl & _).
    now exists tl.
Qed.

Lemma retry_sleeps_once_witness :
  (List.length [TypeError; TypeError; TypeError] < 20)%nat
  /\ exists tl,
      @retry exact _ Z scripted
        (fresh [Raise TypeError; Raise TypeError; Raise TypeError; Ok None])
      = (Returned None, {| trace := ([] ++ Sleep 1 :: tl)%list; env := [] |})
      /\ count is_invoke tl = 4%nat
      /\ count is_sleep tl = 0%nat.
Proof.
  split; [cbn; lia|].
  apply (proj1 (@retry_sleeps_once_before_first_attempt exact Z)
           [TypeError; TypeError; TypeError] None [] []).
  cbn; lia.
Defined.

(** C4. The fill tracker returns only on a FILLED status, at the first
    one.  On a script of status responses in which a FILLED record follows
    responses that are errors or other statuses, [wait_for_order] returns
    that record after exactly one fetch per response up to and including
    it, and leaves the later responses unused.  On a script without a
    FILLED record it has not returned when the script ends.  Whatever it
    returns has status FILLED. *)
Theorem wait_for_order_returns_first_filled {PF : PyFloat}
        (alt_symbol crypto_symbol : string) (order_id : Z) :
  (forall (pre : list (result order_stat)) (filled : order_stat)
          (rest : list (result order_stat)) (s : State Exchange),
      Forall keeps_polling pre ->
      status filled = "FILLED" ->
      orders (env s) = (pre ++ Ok filled :: rest)%list ->
      exists tl,
        wait_for_order alt_symbol crypto_symbol order_id s
        = (Returned filled,
           {| trace := (trace s ++ tl)%list; env := set_orders rest (env s) |})
        /\ count is_fetch tl = S (List.length pre))
  /\ (forall (script : list (result order_stat)) (s : State Exchange),
         Forall keeps_polling script ->
         orders (env s) = script ->
         exists s', wait_for_order alt_symbol crypto_symbol order_id s
                    = (Pending, s'))
  /\ (forall (stat : order_stat) (s s' : State Exchange),
         wait_for_order alt_symbol crypto_symbol order_id s
         = (Returned stat, s') ->
         status stat = "FILLED").
Proof.
  repeat split.
  - intros pre filled rest s. apply wait_for_order_run.
  - intros script s. apply wait_for_order_pending.
  - intros stat s s'. apply wait_for_order_returns_filled.
Qed.

(** On the statuses New, New, PartiallyFilled, Filled the tracker makes
    exactly 4 fetches and returns the 4th record. *)
Lemma wait_for_order_four_statuses :
  exists tl,
    @wait_for_order exact "ALT" "BTC" 1 (fresh Scenario.four_statuses)
    = (Returned Scenario.filled,
       {| trace := ([] ++ tl)%list;
          env := set_orders [] Scenario.four_statuses |})
    /\ count is_fetch tl = 4%nat.
Proof.
  apply (proj1 (@wait_for_order_returns_first_filled exact "ALT" "BTC" 1)
           [Ok (Scenario.with_status "NEW"); Ok (Scenario.with_status "NEW");
            Ok (Scenario.with_status "PARTIALLY_FILLED")]
           Scenario.filled [] (fresh Scenario.four_statuses)).
  - repeat constructor; discriminate.
  - reflexivity.
  - reflexivity.
Defined.




Section RisingPriceBinary64.

#[local] Existing Instance binary64.

(** The run of [_buy_alt] on the rising price, computed in binary64: the
    same 10 units at the limit price 2. *)
Lemma buy_cost_exceeds_balance_binary64 :
  exists s',
    _buy_alt Scenario.ALT Scenario.BTC (fresh Scenario.rising_price_binary64)
    = (Returned {| orderId := 1 |}, s')
    /\ In (Request (OrderLimitBuy "ALTBTC" 10%float (Some 2%float)))
          (trace s')
    /\ PrimFloat.ltb 10 (10 * 2) = true.
Proof.
  exists (@Build_State binary64 (@Exchange binary64)
              [TradeLogNew Scenario.ALT Scenario.BTC false;
               Request GetAccount; Request GetAccount;
               Request GetSymbolTicker; Request (GetSymbolInfo "ALTBTC");
               Log (@BuyQty binary64 10%float); Request GetSymbolTicker;
               Request (@OrderLimitBuy binary64 "ALTBTC" 10%float (Some 2%float));
               Log (OrderPayload (Some {| orderId := 1 |}));
               @TradeLogOrdered binary64 (Some 0%float) (Some 10%float) 10%float;
               Sleep 3; Request (GetOrder "ALTBTC" 1);
               Log (Stat Scenario.filled);
               Log (Text "Bought ALT"); TradeLogComplete "0.1234"]
              {| account := []; symbol_tickers := []; symbol_info := [];
                 limit_buys := []; market_sells := []; orders := [] |}).
  split; [|split].
  - vm_cast_no_check
      (@eq_refl _ (_buy_alt Scenario.ALT Scenario.BTC
                     (fresh Scenario.rising_price_binary64))).
  - cbn [trace In]. do 7 right. left. reflexivity.
  - reflexivity.
Qed.

End RisingPriceBinary64.









(** * Further properties of the manager *)

(** X1. [get_currency_balance] sends one account request and takes its
    answer.  An exception of the client leaves it.  From the balances of
    an answer it returns the free amount of the first entry whose asset is
    the symbol asked for, whatever follows that entry, and None exactly
    when no entry has that asset. *)
Theorem get_currency_balance_first_match {PF : PyFloat}
        (currency_symbol : string) (s : State Exchange)
        (r0 : result (list balance_entry))
        (rest : list (result (list balance_entry))) :
  account (env s) = r0 :: rest ->
  snd (get_currency_balance currency_symbol s)
  = {| trace := (trace s ++ [Request GetAccount])%list;
       env := set_account rest (env s) |}
  /\ match r0 with
     | Raise e => fst (get_currency_balance currency_symbol s) = Raised e
     | Ok balances =>
         exists r : option flt,
           fst (get_currency_balance currency_symbol s) = Returned r
           /\ (r = None
               <-> Forall (fun c => asset c <> currency_symbol) balances)
           /\ (forall pre c post,
                  balances = (pre ++ c :: post)%list ->
                  Forall (fun x => asset x <> currency_symbol) pre ->
                  asset c = currency_symbol ->
                  r = Some (free c))
     end.
Proof.
  intros H. destruct r0 as [balances|e].
  - rewrite (get_currency_balance_next _ _ _ _ H). split; [reflexivity|].
    exists (balance_of currency_symbol balances).
    split; [reflexivity|]. split.
    + apply balance_of_none.
    + intros pre c post -> Hpre Hc. now apply balance_of_first.
  - rewrite (get_currency_balance_raise _ _ _ _ H). now split.
Qed.

(** Of two BTC entries, 10 and 99, the first is returned. *)
Lemma get_currency_balance_first_match_witness :
  fst (@get_currency_balance exact "BTC" (fresh Cases.two_btc_entries))
  = Returned (Some 10%Q).
Proof.
  destruct (@get_currency_balance_first_match exact "BTC"
              (fresh Cases.two_btc_entries) _ [] eq_refl)
    as (_ & r & Hr & _ & Hfirst).
  rewrite Hr. f_equal.
  apply (Hfirst [ @Build_balance_entry exact "ALT" 5%Q ]
                (@Build_balance_entry exact "BTC" 10%Q)
                [ @Build_balance_entry exact "BTC" 99%Q ]).
  - reflexivity.
  - repeat constructor. discriminate.
  - reflexivity.
Defined.

(** X2. [get_market_ticker_price] sends one ticker request and takes its
    answer.  An exception of the client leaves it.  From the tickers of an
    answer it returns the price of the first ticker of the symbol asked
    for, and None exactly when no ticker has that symbol. *)
Theorem get_market_ticker_price_first_match {PF : PyFloat}
        (ticker_symbol' : string) (s : State Exchange)
        (r0 : result (list ticker_entry))
        (rest : list (result (list ticker_entry))) :
  symbol_tickers (env s) = r0 :: rest ->
  snd (get_market_ticker_price ticker_symbol' s)
  = {| trace := (trace s ++ [Request GetSymbolTicker])%list;
       env := set_symbol_tickers rest (env s) |}
  /\ match r0 with
     | Raise e => fst (get_market_ticker_price ticker_symbol' s) = Raised e
     | Ok tickers =>
         exists r : option flt,
           fst (get_market_ticker_price ticker_symbol' s) = Returned r
           /\ (r = None
               <-> Forall (fun t => ticker_symbol t <> ticker_symbol')
                          tickers)
           /\ (forall pre t post,
                  tickers = (pre ++ t :: post)%list ->
                  Forall (fun x => ticker_symbol x <> ticker_symbol') pre ->
                  ticker_symbol t = ticker_symbol' ->
                  r = Some (price t))
     end.
Proof.
  intros H. destruct r0 as [tickers|e].
  - rewrite (get_market_ticker_price_next _ _ _ _ H). split; [reflexivity|].
    exists (price_of ticker_symbol' tickers).
    split; [reflexivity|]. split.
    + apply price_of_none.
    + intros pre t post -> Hpre Ht. now apply price_of_first.
  - rewrite (get_market_ticker_price_raise _ _ _ _ H). now split.
Qed.

(** No ticker of the answer is for ALTETH: the price is None. *)
Lemma get_market_ticker_price_first_match_witness :
  fst (@get_market_ticker_price exact "ALTETH" (fresh Cases.two_btc_entries))
  = Returned None.
Proof.
  destruct (@get_market_ticker_price_first_match exact "ALTETH"
              (fresh Cases.two_btc_entries) _ [] eq_refl)
    as (_ & r & Hr & Hnone & _).
  rewrite Hr. f_equal. apply Hnone.
  repeat constructor; discriminate.
Defined.

(** X3. [get_symbol_filter] asks for the info of the symbol
    [alt_symbol + crypto_symbol], once.  An exception of the client leaves
    it; an info that is None gives TypeError; filters none of which has
    the type asked for give StopIteration; otherwise the first filter of
    that type is returned. *)
Theorem get_symbol_filter_outcomes {PF : PyFloat}
        (alt_symbol crypto_symbol filter_type : string) (s : State Exchange)
        (r0 : result (option (list symbol_filter)))
        (rest : list (result (option (list symbol_filter)))) :
  symbol_info (env s) = r0 :: rest ->
  snd (get_symbol_filter alt_symbol crypto_symbol filter_type s)
  = {| trace := (trace s
                 ++ [Request (GetSymbolInfo (alt_symbol ++ crypto_symbol))])%list;
       env := set_symbol_info rest (env s) |}
  /\ match r0 with
     | Raise e =>
         fst (get_symbol_filter alt_symbol crypto_symbol filter_type s)
         = Raised e
     | Ok None =>
         fst (get_symbol_filter alt_symbol crypto_symbol filter_type s)
         = Raised TypeError
     | Ok (Some filters) =>
         (Forall (fun f => filterType f <> filter_type) filters ->
          fst (get_symbol_filter alt_symbol crypto_symbol filter_type s)
          = Raised StopIteration)
         /\ (forall pre f post,
                filters = (pre ++ f :: post)%list ->
                Forall (fun x => filterType x <> filter_type) pre ->
                filterType f = filter_type ->
                fst (get_symbol_filter alt_symbol crypto_symbol filter_type s)
                = Returned f)
     end.
Proof.
  intros H. rewrite (get_symbol_filter_next _ _ _ _ _ _ H).
  split; [reflexivity|]. destruct r0 as [[filters|]|e]; cbn [fst];
    try reflexivity.
  split.
  - intros Hnone. now rewrite find_filter_none.
  - intros pre f post -> Hpre Hf. now rewrite find_filter_first.
Qed.

(** An exchange that publishes a price filter and a lot size has no
    MIN_NOTIONAL filter to give. *)
Lemma get_symbol_filter_outcomes_witness :
  fst (@get_symbol_filter exact "ALT" "BTC" "MIN_NOTIONAL"
         (fresh (lot_size_exchange "0.00100000")))
  = Raised StopIteration.
Proof.
  destruct (@get_symbol_filter_outcomes exact "ALT" "BTC" "MIN_NOTIONAL"
              (fresh (lot_size_exchange "0.00100000")) _ [] eq_refl)
    as (_ & Hnone & _).
  apply Hnone. repeat constructor; discriminate.
Defined.

(** X4. [get_alt_tick] looks only at the positions of the first '1' and
    of the first '.' of the step size.  A step size without the digit 1
    gives -2; what follows the first 1 is ignored, so 0.0015 is read as
    0.001; a step size that starts with 1 and has no '.' gives 2. *)
Theorem get_alt_tick_reads_first_one {PF : PyFloat}
        (alt_symbol crypto_symbol : string) :
  (forall step_size : string,
      fst (get_alt_tick alt_symbol crypto_symbol
             (fresh (lot_size_exchange step_size)))
      = Returned (tick_of_step_size step_size))
  /\ (forall step_size : string,
         occurs "1" step_size = false ->
         tick_of_step_size step_size = -2)
  /\ (forall pre rest : string,
         occurs "1" pre = false ->
         pre <> "" ->
         tick_of_step_size (pre ++ String "1" rest)
         = Z.of_nat (String.length pre) - 1)
  /\ (forall rest : string,
         occurs "." rest = false ->
         tick_of_step_size (String "1" rest) = 2)
  /\ tick_of_step_size "0.00150000" = 3
  /\ tick_of_step_size "0.05000000" = -2
  /\ tick_of_step_size "5.00000000" = -2
  /\ tick_of_step_size "10" = 2.
Proof.
  split; [|split; [|split; [|split]]].
  - intros step_size.
    rewrite (get_alt_tick_next alt_symbol crypto_symbol
               (fresh (lot_size_exchange step_size))
               [ {| filterType := "PRICE_FILTER"; stepSize := "" |};
                 {| filterType := "LOT_SIZE"; stepSize := step_size |} ]
               {| filterType := "LOT_SIZE"; stepSize := step_size |} []);
      reflexivity.
  - apply tick_without_one.
  - apply tick_first_one.
  - apply tick_leading_one_no_point.
  - repeat split.
Qed.

(** X5. No exception leaves [retry]: it returns, a value of the operation
    or None, unless a call of the operation itself is still pending. *)
Theorem retry_never_raises {PF : PyFloat} {E V : Type}
        (func : M E (option V)) (s : State E) :
  (exists v : option V, fst (retry func s) = Returned v)
  \/ (fst (retry func s) = Pending
      /\ exists s1 : State E, fst (func s1) = Pending).
Proof.
  destruct (retry func s) as [r s'] eqn:H.
  destruct (retry_cases func s s' r H) as [(v & ->)|(-> & s1 & Hf)].
  - left. now exists v.
  - right. split; [reflexivity|]. exists s1. now rewrite Hf.
Qed.


(** X7. Whatever the exchange answers, [wait_for_order] does nothing but
    sleep, log and fetch the status of the order it was given, for the
    pair it was given; it takes responses from no endpoint but that of
    [get_order]. *)
Theorem wait_for_order_footprint {PF : PyFloat}
        (alt_symbol crypto_symbol : string) (order_id : Z)
        (s : State Exchange) :
  adds (fun ev =>
          is_tracking (alt_symbol ++ crypto_symbol) order_id ev = true)
       s (snd (wait_for_order alt_symbol crypto_symbol order_id s))
  /\ orders_only s (snd (wait_for_order alt_symbol crypto_symbol order_id s)).
Proof.
  destruct (wait_for_order alt_symbol crypto_symbol order_id s)
    as [r s'] eqn:H.
  split.
  - apply (wait_for_order_tracking _ _ _ _ _ _ H).
  - apply (wait_for_order_orders_only _ _ _ _ _ _ H).
Qed.

(** X8. The events of [wait_for_order], turn by turn.  Every turn of the
    first loop sleeps 3 seconds and fetches; after an API error it logs
    the error and sleeps 10 more seconds, after any other error it logs
    and goes on.  The first status fetched is logged.  Every turn of the
    second loop fetches; it sleeps 1 second after an answer, 2 seconds
    after an API error, and not at all after any other error. *)
Theorem wait_for_order_events {PF : PyFloat}
        (alt_symbol crypto_symbol : string) (order_id : Z)
        (s : State Exchange) (es : list exn) :
  (forall (filled : order_stat) (rest : list (result order_stat)),
      status filled = "FILLED" ->
      orders (env s) = (map Raise es ++ Ok filled :: rest)%list ->
      wait_for_order alt_symbol crypto_symbol order_id s
      = (Returned filled,
         {| trace :=
              (trace s
               ++ List.concat
                    (map (initial_failure (alt_symbol ++ crypto_symbol)
                                          order_id) es)
               ++ [Sleep 3;
                   Request (GetOrder (alt_symbol ++ crypto_symbol) order_id);
                   Log (Stat filled)])%list;
            env := set_orders rest (env s) |}))
  /\ (forall (stat : order_stat) (pre : list (result order_stat))
             (filled : order_stat) (rest : list (result order_stat)),
         status stat <> "FILLED" ->
         Forall keeps_polling pre ->
         status filled = "FILLED" ->
         orders (env s)
         = (map Raise es ++ Ok stat :: pre ++ Ok filled :: rest)%list ->
         wait_for_order alt_symbol crypto_symbol order_id s
         = (Returned filled,
            {| trace :=
                 (trace s
                  ++ List.concat
                       (map (initial_failure (alt_symbol ++ crypto_symbol)
                                             order_id) es)
                  ++ [Sleep 3;
                      Request (GetOrder (alt_symbol ++ crypto_symbol)
                                        order_id);
                      Log (Stat stat)]
                  ++ List.concat
                       (map (poll_turn (alt_symbol ++ crypto_symbol)
                                       order_id) pre)
                  ++ [Request (GetOrder (alt_symbol ++ crypto_symbol)
                                        order_id);
                      Sleep 1])%list;
               env := set_orders rest (env s) |})).
Proof.
  split.
  - intros filled rest. apply wait_for_order_trace_filled.
  - intros stat pre filled rest. apply wait_for_order_trace_polled.
Qed.

(** Status fetches answered by an API error, NEW, a timeout, FILLED. *)
Lemma wait_for_order_events_witness :
  @wait_for_order exact "ALT" "BTC" 7 (fresh Cases.erratic_orders)
  = (Returned Scenario.filled,
     {| trace :=
          [Sleep 3; Request (GetOrder "ALTBTC" 7);
           Log (Exn (BinanceAPIException "busy")); Sleep 10;
           Sleep 3; Request (GetOrder "ALTBTC" 7);
           Log (Stat (Scenario.with_status "NEW"));
           Request (GetOrder "ALTBTC" 7);
           Log (Unexpected (RequestException "timeout"));
           Request (GetOrder "ALTBTC" 7); Sleep 1];
        env := set_orders [] Cases.erratic_orders |}).
Proof.
  apply (proj2 (@wait_for_order_events exact "ALT" "BTC" 7
                  (fresh Cases.erratic_orders)
                  [BinanceAPIException "busy"])
           (Scenario.with_status "NEW")
           [Raise (RequestException "timeout")]
           Scenario.filled []).
  - discriminate.
  - repeat constructor.
  - reflexivity.
  - reflexivity.
Defined.

(** X9. The submission loop of the sell path.  While the exchange answers
    None the loop sends the same market sell again, with the same
    quantity and without a pause; it returns the first order it is
    given, and an exception of the client leaves it at once. *)
Theorem market_sell_loop_repeats {PF : PyFloat}
        (sym : string) (q : flt) (s : State Exchange) (n : nat)
        (rest : list (result (option order))) :
  (forall o : order,
      market_sells (env s) = (repeat (Ok None) n ++ Ok (Some o) :: rest)%list ->
      unbounded market_sells (fun fuel => submit_market_sell fuel sym q) s
      = (Returned o,
         {| trace := (trace s
                      ++ repeat (Request (OrderMarketSell sym q)) (S n))%list;
            env := set_market_sells rest (env s) |}))
  /\ (forall e : exn,
         market_sells (env s) = (repeat (Ok None) n ++ Raise e :: rest)%list ->
         unbounded market_sells (fun fuel => submit_market_sell fuel sym q) s
         = (Raised e,
            {| trace := (trace s
                         ++ repeat (Request (OrderMarketSell sym q)) (S n))%list;
               env := set_market_sells rest (env s) |})).
Proof.
  split.
  - intros o H. unfold unbounded.
    apply (submit_market_sell_run n o rest); [exact H|].
    rewrite H, length_app, repeat_length. lia.
  - intros e H. unfold unbounded.
    apply (submit_market_sell_run_raise n e rest); [exact H|].
    rewrite H, length_app, repeat_length. lia.
Qed.

(** Two answers None, then an order: three requests, no sleep. *)
Lemma market_sell_loop_repeats_witness :
  @unbounded exact _ _ market_sells
    (fun fuel => @submit_market_sell exact fuel "ALTBTC" 5%Q)
    (fresh Cases.slow_market)
  = (Returned {| orderId := 7 |},
     {| trace := [Request (@OrderMarketSell exact "ALTBTC" 5%Q);
                  Request (@OrderMarketSell exact "ALTBTC" 5%Q);
                  Request (@OrderMarketSell exact "ALTBTC" 5%Q)];
        env := set_market_sells [] Cases.slow_market |}).
Proof.
  apply (proj1 (@market_sell_loop_repeats exact "ALTBTC" 5%Q
                  (fresh Cases.slow_market) 2 [])
           {| orderId := 7 |}).
  reflexivity.
Defined.

(** X10. The submission loop of the buy path.  Whatever the exchange
    answers, it only fetches prices, sends limit buys of the pair and of
    the quantity it was given, logs, and sleeps 1 second at a time; no
    exception leaves it; the order it returns is one the exchange gave in
    answer to a limit buy, and while the exchange gives none the loop
    does not end. *)
Theorem buy_submission_footprint {PF : PyFloat}
        (fuel : nat) (sym : string) (q : flt) (s : State Exchange) :
  adds (is_buy_submission sym q) s (snd (submit_limit_buy fuel sym q s))
  /\ (forall e : exn, fst (submit_limit_buy fuel sym q s) <> Raised e)
  /\ (forall o : order,
         fst (submit_limit_buy fuel sym q s) = Returned o ->
         In (Ok (Some o)) (limit_buys (env s)))
  /\ ((forall o : order, ~ In (Ok (Some o)) (limit_buys (env s))) ->
      fst (submit_limit_buy fuel sym q s) = Pending).
Proof.
  destruct (submit_limit_buy fuel sym q s) as [r s'] eqn:H. cbn [fst snd].
  split; [|split; [|split]].
  - apply (submit_limit_buy_footprint _ _ _ _ _ _ H).
  - intros e ->. apply (submit_limit_buy_accepts _ _ _ _ _ _ H).
  - intros o ->. apply (submit_limit_buy_returned_in _ _ _ _ _ _ H).
  - intros Hnone. destruct r as [o|e|]; [| |reflexivity].
    + now apply submit_limit_buy_returned_in, Hnone in H.
    + now apply submit_limit_buy_accepts in H.
Qed.

(** X11. One order per buy.  A run of [buy_alt] logs exactly one accepted
    order when it returns an order and none when it returns None; it never
    raises.  An attempt of [_buy_alt] that raises has had no order
    accepted. *)
Theorem buy_alt_accepts_at_most_one_order {PF : PyFloat}
        (alt crypto : Coin) (s : State Exchange) :
  match fst (buy_alt alt crypto s) with
  | Returned (Some _) => accepted 1 s (snd (buy_alt alt crypto s))
  | Returned None => accepted 0 s (snd (buy_alt alt crypto s))
  | Raised _ => False
  | Pending =>
      accepted 0 s (snd (buy_alt alt crypto s))
      \/ accepted 1 s (snd (buy_alt alt crypto s))
  end
  /\ match fst (_buy_alt alt crypto s) with
     | Returned _ => accepted 1 s (snd (_buy_alt alt crypto s))
     | Raised _ => accepted 0 s (snd (_buy_alt alt crypto s))
     | Pending =>
         accepted 0 s (snd (_buy_alt alt crypto s))
         \/ accepted 1 s (snd (_buy_alt alt crypto s))
     end.
Proof.
  split.
  - destruct (buy_alt alt crypto s) as [r s'] eqn:H. cbn [fst snd].
    apply (buy_alt_run _ _ _ _ _ H).
  - destruct (_buy_alt alt crypto s) as [r s'] eqn:H. cbn [fst snd].
    apply (buy_alt_attempt_accepts _ _ _ _ _ H).
Qed.



(** X13. A sell attempt can fail after its order was accepted.  When the
    market sell is accepted and found FILLED and the balance fetch that
    follows raises, the exception leaves [_sell_alt]: the attempt counts
    as failed for [retry], with the accepted order in its trace, and the
    next attempt starts from there. *)
Theorem sell_attempt_fails_after_acceptance {PF : PyFloat}
        (alt crypto : Coin) (s : State Exchange)
        (a1 a2 : list balance_entry) (e : exn)
        (rest_a : list (result (list balance_entry)))
        (filters : list symbol_filter) (f : symbol_filter)
        (rest_i : list (result (option (list symbol_filter))))
        (q : flt) (o : order) (rest_m : list (result (option order)))
        (filled : order_stat) (rest_o : list (result order_stat)) :
  account (env s) = Ok a1 :: Ok a2 :: Raise e :: rest_a ->
  symbol_info (env s) = Ok (Some filters) :: rest_i ->
  List.find (fun f => filterType f =? "LOT_SIZE") filters = Some f ->
  sell_quantity_at (tick_of_step_size (stepSize f))
                   (balance_of (symbol alt) a1) = Ok q ->
  market_sells (env s) = Ok (Some o) :: rest_m ->
  orders (env s) = Ok filled :: rest_o ->
  status filled = "FILLED" ->
  exists s' : State Exchange,
    _sell_alt alt crypto s = (Raised e, s')
    /\ trace s'
       = (trace s
          ++ [TradeLogNew alt crypto true;
              Request GetAccount; Request GetAccount;
              Request (GetSymbolInfo (symbol alt ++ symbol crypto));
              Log (Selling q (symbol alt));
              Log (Balance (balance_of (symbol alt) a1));
              Request (OrderMarketSell (symbol alt ++ symbol crypto) q);
              Log (Text "order"); Log (OrderPayload (Some o));
              TradeLogOrdered (balance_of (symbol alt) a1)
                              (balance_of (symbol crypto) a2) q;
              Log (Text "Waiting for Binance"); Sleep 5;
              Sleep 3;
              Request (GetOrder (symbol alt ++ symbol crypto) (orderId o));
              Log (Stat filled);
              Request GetAccount])%list
    /\ account (env s') = rest_a
    /\ market_sells (env s') = rest_m
    /\ forall a : nat,
        failed_attempts (value (_sell_alt alt crypto)) a (S a) s
                        (after_failure a e s').
Proof.
  intros Ha Hi Hf Hq Hm Ho Hfilled.
  pose proof (sell_alt_raises_after_acceptance alt crypto s a1 a2 e rest_a
                filters f rest_i q o rest_m filled rest_o
                Ha Hi Hf Hq Hm Ho Hfilled) as Hrun.
  eexists. split; [exact Hrun|].
  repeat split.
  intros a. eapply failed_next; [|apply failed_none].
  apply value_raised. exact Hrun.
Qed.

(** A sell of 12.345 units that is accepted and filled; the balance fetch
    after the fill times out. *)
Lemma sell_attempt_fails_after_acceptance_witness :
  exists s' : @State exact (@Exchange exact),
    @_sell_alt exact Scenario.ALT Scenario.BTC
      (fresh Cases.failing_confirmation)
    = (Raised (RequestException "timeout"), s')
    /\ In (Request (@OrderMarketSell exact "ALTBTC" (12345 # 1000)%Q))
          (trace s')
    /\ In (Log (OrderPayload (Some {| orderId := 7 |}))) (trace s')
    /\ failed_attempts (value (@_sell_alt exact Scenario.ALT Scenario.BTC))
         0 1 (fresh Cases.failing_confirmation)
         (after_failure 0 (RequestException "timeout") s').
Proof.
  destruct (@sell_attempt_fails_after_acceptance exact
              Scenario.ALT Scenario.BTC (fresh Cases.failing_confirmation)
              [ @Build_balance_entry exact "ALT" (123456 # 10000)%Q;
                @Build_balance_entry exact "BTC" 0%Q ]
              [ @Build_balance_entry exact "ALT" (123456 # 10000)%Q;
                @Build_balance_entry exact "BTC" 0%Q ]
              (RequestException "timeout") []
              [ {| filterType := "LOT_SIZE"; stepSize := "0.00100000" |} ]
              {| filterType := "LOT_SIZE"; stepSize := "0.00100000" |} []
              (12345 # 1000)%Q {| orderId := 7 |} [] Scenario.filled []
              eq_refl eq_refl eq_refl eq_refl eq_refl eq_refl eq_refl)
    as (s' & Hrun & Htr & _ & _ & Hfail).
  exists s'. split; [exact Hrun|]. rewrite Htr.
  split; [|split].
  - cbn. do 6 right. left. reflexivity.
  - cbn. do 8 right. left. reflexivity.
  - apply Hfail.
Defined.



(** X15. A sell the exchange keeps refusing.  When the exchange refuses
    the market sell of 20 attempts in a row, [sell_alt] has sent it 20
    times and opened 20 trade logs, with no pause between the attempts,
    and returns None. *)
Theorem sell_alt_resubmits_refused_order {PF : PyFloat} (alt crypto : Coin)
        (s : State Exchange) (a1 a2 : list balance_entry)
        (filters : list symbol_filter) (f : symbol_filter) (q : flt)
        (es : list exn)
        (rest_a : list (result (list balance_entry)))
        (rest_i : list (result (option (list symbol_filter))))
        (rest_m : list (result (option order))) :
  List.length es = 20%nat ->
  List.find (fun f => filterType f =? "LOT_SIZE") filters = Some f ->
  sell_quantity_at (tick_of_step_size (stepSize f))
                   (balance_of (symbol alt) a1) = Ok q ->
  account (env s)
  = (List.concat (repeat [Ok a1; Ok a2] 20) ++ rest_a)%list ->
  symbol_info (env s) = (repeat (Ok (Some filters)) 20 ++ rest_i)%list ->
  market_sells (env s) = (map Raise es ++ rest_m)%list ->
  exists (s' : State Exchange) (tl : list event),
    sell_alt alt crypto s = (Returned None, s')
    /\ trace s' = (trace s ++ Sleep 1 :: tl)%list
    /\ count is_market_sell tl = 20%nat
    /\ count is_trade_log_new tl = 20%nat
    /\ count is_sleep tl = 0%nat
    /\ market_sells (env s') = rest_m.
Proof.
  intros Hlen Hf Hq Ha Hi Hm. rewrite <- Hlen in Ha, Hi.
  destruct (sell_alt_rejections alt crypto a1 a2 filters f q Hf Hq es 0
              (slept 1 s) rest_a rest_i rest_m Ha Hi Hm)
    as (s' & tl & Hfail & Htr & Hc & Hn & Hsl & Hrest).
  rewrite Hlen in Hfail, Hc, Hn. cbn [Nat.add] in Hfail.
  exists s', tl. repeat split; try assumption.
  - unfold sell_alt. rewrite retry_unfold.
    apply retry_loop_exhausted; [exact Hfail|lia].
  - rewrite Htr. cbn [slept trace]. now rewrite <- app_assoc.
Qed.

(** Twenty refusals of a market sell of quantity zero. *)
Lemma sell_alt_resubmits_refused_order_witness :
  exists (s' : @State exact (@Exchange exact)) (tl : list (@event exact)),
    @sell_alt exact Scenario.ALT Scenario.BTC (fresh Cases.refusing)
    = (Returned None, s')
    /\ trace s' = ([] ++ Sleep 1 :: tl)%list
    /\ count is_market_sell tl = 20%nat
    /\ count is_trade_log_new tl = 20%nat
    /\ count is_sleep tl = 0%nat.
Proof.
  destruct (@sell_alt_resubmits_refused_order exact Scenario.ALT Scenario.BTC
              (fresh Cases.refusing) Cases.dust Cases.dust
              Cases.lot_size_milli
              {| filterType := "LOT_SIZE"; stepSize := "0.00100000" |}
              (0 # 1000)%Q Cases.refusals [] [] []
              eq_refl eq_refl eq_refl eq_refl eq_refl eq_refl)
    as (s' & tl & Hrun & Htr & Hc & Hn & Hsl & _).
  exists s', tl. repeat split; assumption.
Defined.

(** X16. Without a lot size no order is sent.  When the lot-size lookup
    fails (the symbol info is None: TypeError; no filter has the type
    LOT_SIZE: StopIteration; the client raises), the exception leaves
    [_sell_alt] and [_buy_alt] right after the lookup: a trade log was
    opened, the balances (and, for a buy, the price) were fetched, and
    nothing was sent to the order endpoints. *)
Theorem no_order_without_lot_size {PF : PyFloat} (alt crypto : Coin)
        (s : State Exchange) (a1 a2 : list balance_entry)
        (rest_a : list (result (list balance_entry)))
        (r0 : result (option (list symbol_filter)))
        (rest_i : list (result (option (list symbol_filter)))) (e : exn) :
  account (env s) = Ok a1 :: Ok a2 :: rest_a ->
  symbol_info (env s) = r0 :: rest_i ->
  filter_error "LOT_SIZE" r0 = Some e ->
  _sell_alt alt crypto s
  = (Raised e,
     {| trace :=
          (trace s
           ++ [TradeLogNew alt crypto true;
               Request GetAccount; Request GetAccount;
               Request (GetSymbolInfo (symbol alt ++ symbol crypto))])%list;
        env := set_symbol_info rest_i (set_account rest_a (env s)) |})
  /\ forall (tickers : list ticker_entry)
            (rest_t : list (result (list ticker_entry))),
      symbol_tickers (env s) = Ok tickers :: rest_t ->
      _buy_alt alt crypto s
      = (Raised e,
         {| trace :=
              (trace s
               ++ [TradeLogNew alt crypto false;
                   Request GetAccount; Request GetAccount;
                   Request GetSymbolTicker;
                   Request (GetSymbolInfo (symbol alt ++ symbol crypto))])%list;
            env := set_symbol_info rest_i
                     (set_symbol_tickers rest_t
                        (set_account rest_a (env s))) |}).
Proof.
  intros Ha Hi He. split.
  - now apply sell_alt_no_lot_size with (a1 := a1) (a2 := a2) (r0 := r0).
  - intros tickers rest_t Ht.
    now apply buy_alt_no_lot_size
      with (a1 := a1) (a2 := a2) (tickers := tickers) (r0 := r0).
Qed.

(** On an exchange that does not list the pair, a buy attempt raises
    TypeError and leaves the limit buys untouched. *)
Lemma no_order_without_lot_size_witness :
  fst (@_buy_alt exact Scenario.ALT Scenario.BTC (fresh Cases.unknown_pair))
  = Raised TypeError
  /\ limit_buys (env (snd (@_buy_alt exact Scenario.ALT Scenario.BTC
                             (fresh Cases.unknown_pair))))
     = [Ok (Some {| orderId := 1 |})].
Proof.
  rewrite (proj2 (@no_order_without_lot_size exact Scenario.ALT Scenario.BTC
                    (fresh Cases.unknown_pair)
                    [ @Build_balance_entry exact "ALT" 0%Q;
                      @Build_balance_entry exact "BTC" 10%Q ]
                    [ @Build_balance_entry exact "ALT" 0%Q;
                      @Build_balance_entry exact "BTC" 10%Q ]
                    [] (Ok None) [] TypeError eq_refl eq_refl eq_refl)
             [ @Build_ticker_entry exact "ETHBTC" 3%Q ] [] eq_refl).
  split; reflexivity.
Defined.
